(** * Bitcoin Direction Index: the statistical core and its two date joins

    A shallow embedding of
      - [src/lib/index-calculation.ts]   (statistics, trend, index, correlation),
      - [src/app/api/fred/route.ts]      (the index-history loop and its
                                          forward-fill lookups),
      - [src/components/btc-chart.tsx]   (the price/index merge of the chart),
      - the route handlers that call them.

    Numbers.  The arithmetic of [index-calculation.ts] is read twice.

    Over the reals: a JavaScript [number] that carries a measurement (a
    price, a balance, a PMI reading, an index value) is a real number [R];
    [+ - * /] are the field operations, [Math.sqrt] is [sqrt],
    [Math.max]/[Math.min] are [Rmax]/[Rmin], [=== 0] and [<] are decided by
    [Req_dec_T] and [Rlt_dec].  This reading carries the formulas: which
    mean, which deviation, which guard, which bucket.

    In binary64 (module [Double]): a [number] is an IEEE-754 double, the
    kernel's [float]; every operation rounds, a sum can overflow to an
    infinity and [Infinity - Infinity] is [NaN].  This reading is the one
    the engine runs; it is executable, and what the code returns on a given
    input is computed in it.  A claim about a range, or about the exact
    agreement of two different computations, is checked here unless the
    claim itself speaks of exact arithmetic.

    Millisecond timestamps are integers [Z]; dates are strings compared as
    JavaScript compares them (lexicographically by code unit).

    Effects.  In the two readings above [Date.now()] is an explicit first
    argument [now].  Module [Heap] reads the same four functions once more
    as computations over a world of arrays held by reference and a wall
    clock, so that what a call reads and what it leaves behind can be
    stated. *)

From Stdlib Require Import String Ascii.
From Stdlib Require Import Reals Lra Lia ZArith List Bool Permutation Sorted.
From Stdlib Require PrimFloat FloatOps SpecFloat Uint63.
Import ListNotations.

Local Open Scope R_scope.

(* ===================================================================== *)
(** ** JavaScript primitives used by the sources                          *)
(* ===================================================================== *)

Module JS.

(** [a || b] on numbers: [b] when [a] is falsy, that is [0]. *)
Definition or (a b : R) : R := if Req_dec_T a 0 then b else a.

(** [Math.round]: nearest integer, halves towards plus infinity. *)
Definition round (x : R) : R := IZR (Zfloor (x + / 2)).

(** [xs.reduce((sum, v) => sum + f v, 0)]. *)
Definition reduce_sum {A} (f : A -> R) (xs : list A) : R :=
    fold_left (fun sum v => sum + f v) xs 0.

(** [xs.slice(-n)]: the last [n] elements, all of them when there are
    fewer. *)
Definition slice_last {A} (n : nat) (xs : list A) : list A :=
    skipn (length xs - n) xs.

(** [a <= b] on strings. *)
Definition str_le (a b : string) : bool := String.leb a b.

(** [!s] on a string: true exactly on the empty string. *)
Definition str_falsy (s : string) : bool :=
    match s with EmptyString => true | _ => false end.

End JS.

(* ===================================================================== *)
(** ** Types ([types.ts])                                                 *)
(* ===================================================================== *)

(** Field names are the source's; a field is read as [x.(BitcoinPrice.price)].
    Optional fields ([change24h?], [change?], ...) are [option]s. *)

Module BitcoinPrice.
Record t := {
    price : R;
    timestamp : Z;
    change24h : option R
  }.
End BitcoinPrice.

Module ISMPMIData.
Record t := {
    value : R;
    date : string;
    change : option R;
    note : option string;
    source : option string
  }.
End ISMPMIData.

Module LiquidityData.
Record t := {
    fedBalanceSheet : R;
    tga : R;
    rrp : R;
    liquidity : R;
    date : string
  }.
End LiquidityData.

Inductive Interpretation :=
  | very_bearish | bearish | neutral | bullish | very_bullish.

Module BitcoinDirectionIndex.
Record t := {
    index : R;
    liquidityZScore : R;
    pmiZScore : R;
    btcTrend : R;
    timestamp : Z;
    interpretation : Interpretation
  }.
End BitcoinDirectionIndex.

(* ===================================================================== *)
(** ** [src/lib/index-calculation.ts]                                     *)
(* ===================================================================== *)

Definition calculateZScore (value mean stdDev : R) : R :=
  if Req_dec_T stdDev 0 then 0 else (value - mean) / stdDev.

(** The object [{ mean, stdDev }] returned by [calculateStats]. *)
Module Stats.
Record t := { mean : R; stdDev : R }.
End Stats.

Definition calculateStats (values : list R) : Stats.t :=
  if (length values =? 0)%nat then {| Stats.mean := 0; Stats.stdDev := 1 |}
  else
    let mean := JS.reduce_sum (fun val => val) values / INR (length values) in
    let variance :=
      JS.reduce_sum (fun val => (val - mean) ^ 2) values / INR (length values) in
    let stdDev := sqrt variance in
    {| Stats.mean := mean; Stats.stdDev := JS.or stdDev 1 |}.

Definition calculateBTCTrend (currentPrice : R) (historicalPrices : list R) : R :=
  if (length historicalPrices <? 2)%nat then 0
  else
    let shortTerm := JS.slice_last 7 historicalPrices in
    let mediumTerm := JS.slice_last 30 historicalPrices in
    if ((length shortTerm =? 0) || (length mediumTerm =? 0))%nat then 0
    else
      let shortTermAvg :=
        JS.reduce_sum (fun p => p) shortTerm / INR (length shortTerm) in
      let mediumTermAvg :=
        JS.reduce_sum (fun p => p) mediumTerm / INR (length mediumTerm) in
      if Req_dec_T mediumTermAvg 0 then 0
      else
        let trend := (shortTermAvg - mediumTermAvg) / mediumTermAvg in
        Rmax (-1) (Rmin 1 (trend * 10)).

(** The weights object of [calculateBitcoinDirectionIndex]. *)
Module weights.
Definition liquidity : R := 4 / 10.
Definition pmi : R := 35 / 100.
Definition btcTrend : R := 25 / 100.
End weights.

(** The [if]/[else if] ladder on the unrounded index. *)
Definition interpret (index : R) : Interpretation :=
  if Rlt_dec index 20 then very_bearish
  else if Rlt_dec index 40 then bearish
  else if Rlt_dec index 60 then neutral
  else if Rlt_dec index 80 then bullish
  else very_bullish.


Definition calculateBitcoinDirectionIndex (now : Z)
    (liquidity : LiquidityData.t) (liquidityHistory : list R)
    (pmi : ISMPMIData.t) (pmiHistory : list R)
    (btcPrice : BitcoinPrice.t) (btcPriceHistory : list R)
    : BitcoinDirectionIndex.t :=
  let liquidityStats := calculateStats liquidityHistory in
  let liquidityZScore :=
    calculateZScore liquidity.(LiquidityData.liquidity) liquidityStats.(Stats.mean)
                    liquidityStats.(Stats.stdDev) in
  let pmiNormalized := pmi.(ISMPMIData.value) - 50 in
  let pmiStats := calculateStats (map (fun p => p - 50) pmiHistory) in
  let pmiZScore :=
    calculateZScore pmiNormalized pmiStats.(Stats.mean) pmiStats.(Stats.stdDev) in
  let btcTrend := calculateBTCTrend btcPrice.(BitcoinPrice.price) btcPriceHistory in
  let normalizedLiquidity := Rmax (-2) (Rmin 2 liquidityZScore) / 2 in
  let normalizedPMI := Rmax (-2) (Rmin 2 pmiZScore) / 2 in
  let rawIndex :=
    weights.liquidity * normalizedLiquidity +
    weights.pmi * normalizedPMI +
    weights.btcTrend * btcTrend in
  let index := ((rawIndex + 1) / 2) * 100 in
  let interpretation := interpret index in
  {| BitcoinDirectionIndex.index := JS.round (index * 100) / 100;
     BitcoinDirectionIndex.liquidityZScore := liquidityZScore;
     BitcoinDirectionIndex.pmiZScore := pmiZScore;
     BitcoinDirectionIndex.btcTrend := btcTrend;
     BitcoinDirectionIndex.timestamp := now;
     BitcoinDirectionIndex.interpretation := interpretation |}.

(** The three accumulators of the [for] loop of [calculateCorrelation]. *)
Module CorrAcc.
Record t := {
    numerator : R;
    indexVariance : R;
    priceVariance : R
  }.
End CorrAcc.

(** One iteration of the loop body, at index [i]. *)
Definition corrBody (indexValues priceValues : list R) (indexMean priceMean : R)
    (acc : CorrAcc.t) (i : nat) : CorrAcc.t :=
  let indexDiff := nth i indexValues 0 - indexMean in
  let priceDiff := nth i priceValues 0 - priceMean in
  {| CorrAcc.numerator := acc.(CorrAcc.numerator) + indexDiff * priceDiff;
     CorrAcc.indexVariance := acc.(CorrAcc.indexVariance) + indexDiff * indexDiff;
     CorrAcc.priceVariance := acc.(CorrAcc.priceVariance) + priceDiff * priceDiff |}.

Definition calculateCorrelation (indexValues priceValues : list R) : R :=
  if negb (length indexValues =? length priceValues)%nat
     || (length indexValues <? 2)%nat
  then 0
  else
    let n := length indexValues in
    let indexMean := JS.reduce_sum (fun val => val) indexValues / INR n in
    let priceMean := JS.reduce_sum (fun val => val) priceValues / INR n in
    let acc :=
      fold_left (corrBody indexValues priceValues indexMean priceMean)
                (seq 0 n)
                {| CorrAcc.numerator := 0;
                   CorrAcc.indexVariance := 0;
                   CorrAcc.priceVariance := 0 |} in
    let denominator :=
      sqrt (acc.(CorrAcc.indexVariance) * acc.(CorrAcc.priceVariance)) in
    if Req_dec_T denominator 0 then 0
    else acc.(CorrAcc.numerator) / denominator.

(* ===================================================================== *)
(** ** [src/lib/index-calculation.ts] in binary64                         *)
(* ===================================================================== *)

(** The same functions on IEEE-754 doubles, operation for operation.
    [Date.now()] is the argument [now].  A decimal literal stands for the
    nearest double, as it does in JavaScript. *)

Set Warnings "-inexact-float".

Module Double.
Import PrimFloat.
Local Open Scope float_scope.

(** A length or an index as a [number]. *)
Definition ofNat (n : nat) : float := of_uint63 (Uint63.of_Z (Z.of_nat n)).

(** [a || b] on numbers: [b] when [a] is falsy, that is [0], [-0] or [NaN]. *)
Definition or (a b : float) : float :=
  if is_zero a || is_nan a then b else a.

(** [Math.max(a, b)] and [Math.min(a, b)]: [NaN] when an argument is
    [NaN]; [-0] is below [0]. *)
Definition max (a b : float) : float :=
  if is_nan a || is_nan b then nan
  else if a <? b then b
  else if b <? a then a
  else if get_sign a then b else a.

Definition min (a b : float) : float :=
  if is_nan a || is_nan b then nan
  else if a <? b then a
  else if b <? a then b
  else if get_sign a then a else b.

(** [Math.pow(x, 2)], as the product [x * x]: the square correctly
    rounded, [Infinity] on an infinity and [NaN] on [NaN]. *)
Definition pow2 (x : float) : float := x * x.

(** [Math.round]: the nearest integer, halves towards plus infinity; the
    sign of the argument is kept when the result is zero.  A finite
    double is [m * 2^e] for integers [m] and [e]; with [e >= 0] it is an
    integer already, otherwise [floor (x + 1/2)] is computed on
    integers. *)
Definition round (x : float) : float :=
  match FloatOps.Prim2SF x with
  | SpecFloat.S754_finite s m e =>
      if (0 <=? e)%Z then x
      else
        let n := ((2 * (if s then Z.neg m else Z.pos m) + 2 ^ (- e))
                    / 2 ^ (1 - e))%Z in
        if (n =? 0)%Z then (if s then neg_zero else zero)
        else if (n <? 0)%Z then - of_uint63 (Uint63.of_Z (- n))
        else of_uint63 (Uint63.of_Z n)
  | _ => x
  end.

Definition reduce_sum (f : float -> float) (xs : list float) : float :=
  fold_left (fun sum v => sum + f v) xs 0.

Module BitcoinPrice.
Record t := {
    price : float;
    timestamp : Z;
    change24h : option float
  }.
End BitcoinPrice.

Module ISMPMIData.
Record t := {
    value : float;
    date : string;
    change : option float;
    note : option string;
    source : option string
  }.
End ISMPMIData.

Module LiquidityData.
Record t := {
    fedBalanceSheet : float;
    tga : float;
    rrp : float;
    liquidity : float;
    date : string
  }.
End LiquidityData.

Module BitcoinDirectionIndex.
Record t := {
    index : float;
    liquidityZScore : float;
    pmiZScore : float;
    btcTrend : float;
    timestamp : Z;
    interpretation : Interpretation
  }.
End BitcoinDirectionIndex.

Module Stats.
Record t := { mean : float; stdDev : float }.
End Stats.

Definition calculateZScore (value mean stdDev : float) : float :=
  if stdDev =? 0 then 0 else (value - mean) / stdDev.

Definition calculateStats (values : list float) : Stats.t :=
  if (length values =? 0)%nat then {| Stats.mean := 0; Stats.stdDev := 1 |}
  else
    let mean := reduce_sum (fun val => val) values / ofNat (length values) in
    let variance :=
      reduce_sum (fun val => pow2 (val - mean)) values / ofNat (length values) in
    let stdDev := sqrt variance in
    {| Stats.mean := mean; Stats.stdDev := or stdDev 1 |}.

Definition calculateBTCTrend (currentPrice : float) (historicalPrices : list float)
    : float :=
  if (length historicalPrices <? 2)%nat then 0
  else
    let shortTerm := JS.slice_last 7 historicalPrices in
    let mediumTerm := JS.slice_last 30 historicalPrices in
    if ((length shortTerm =? 0) || (length mediumTerm =? 0))%nat then 0
    else
      let shortTermAvg :=
        reduce_sum (fun p => p) shortTerm / ofNat (length shortTerm) in
      let mediumTermAvg :=
        reduce_sum (fun p => p) mediumTerm / ofNat (length mediumTerm) in
      if mediumTermAvg =? 0 then 0
      else
        let trend := (shortTermAvg - mediumTermAvg) / mediumTermAvg in
        max (-1) (min 1 (trend * 10)).

Module weights.
Definition liquidity : float := 0.4.
Definition pmi : float := 0.35.
Definition btcTrend : float := 0.25.
End weights.

Definition interpret (index : float) : Interpretation :=
  if index <? 20 then very_bearish
  else if index <? 40 then bearish
  else if index <? 60 then neutral
  else if index <? 80 then bullish
  else very_bullish.

Definition calculateBitcoinDirectionIndex (now : Z)
    (liquidity : LiquidityData.t) (liquidityHistory : list float)
    (pmi : ISMPMIData.t) (pmiHistory : list float)
    (btcPrice : BitcoinPrice.t) (btcPriceHistory : list float)
    : BitcoinDirectionIndex.t :=
  let liquidityStats := calculateStats liquidityHistory in
  let liquidityZScore :=
    calculateZScore liquidity.(LiquidityData.liquidity) liquidityStats.(Stats.mean)
                    liquidityStats.(Stats.stdDev) in
  let pmiNormalized := pmi.(ISMPMIData.value) - 50 in
  let pmiStats := calculateStats (map (fun p => p - 50) pmiHistory) in
  let pmiZScore :=
    calculateZScore pmiNormalized pmiStats.(Stats.mean) pmiStats.(Stats.stdDev) in
  let btcTrend := calculateBTCTrend btcPrice.(BitcoinPrice.price) btcPriceHistory in
  let normalizedLiquidity := max (-2) (min 2 liquidityZScore) / 2 in
  let normalizedPMI := max (-2) (min 2 pmiZScore) / 2 in
  let rawIndex :=
    weights.liquidity * normalizedLiquidity +
    weights.pmi * normalizedPMI +
    weights.btcTrend * btcTrend in
  let index := ((rawIndex + 1) / 2) * 100 in
  let interpretation := interpret index in
  {| BitcoinDirectionIndex.index := round (index * 100) / 100;
     BitcoinDirectionIndex.liquidityZScore := liquidityZScore;
     BitcoinDirectionIndex.pmiZScore := pmiZScore;
     BitcoinDirectionIndex.btcTrend := btcTrend;
     BitcoinDirectionIndex.timestamp := now;
     BitcoinDirectionIndex.interpretation := interpretation |}.

(** The three accumulators of the [for] loop of [calculateCorrelation]. *)
Module CorrAcc.
Record t := {
    numerator : float;
    indexVariance : float;
    priceVariance : float
  }.
End CorrAcc.

(** One iteration of the loop body on the elements read at index [i]. *)
Definition corrStep (indexMean priceMean : float) (acc : CorrAcc.t)
    (indexValue priceValue : float) : CorrAcc.t :=
  let indexDiff := indexValue - indexMean in
  let priceDiff := priceValue - priceMean in
  {| CorrAcc.numerator := acc.(CorrAcc.numerator) + indexDiff * priceDiff;
     CorrAcc.indexVariance := acc.(CorrAcc.indexVariance) + indexDiff * indexDiff;
     CorrAcc.priceVariance := acc.(CorrAcc.priceVariance) + priceDiff * priceDiff |}.

(** [xs[i]]; an index out of range reads [undefined], which arithmetic
    turns into [NaN]. *)
Definition elementAt (xs : list float) (i : nat) : float := nth i xs nan.

Definition calculateCorrelation (indexValues priceValues : list float) : float :=
  if negb (length indexValues =? length priceValues)%nat
     || (length indexValues <? 2)%nat
  then 0
  else
    let n := length indexValues in
    let indexMean := reduce_sum (fun val => val) indexValues / ofNat n in
    let priceMean := reduce_sum (fun val => val) priceValues / ofNat n in
    let acc :=
      fold_left
        (fun acc i =>
           corrStep indexMean priceMean acc
             (elementAt indexValues i) (elementAt priceValues i))
        (seq 0 n)
        {| CorrAcc.numerator := 0;
           CorrAcc.indexVariance := 0;
           CorrAcc.priceVariance := 0 |} in
    let denominator :=
      sqrt (acc.(CorrAcc.indexVariance) * acc.(CorrAcc.priceVariance)) in
    if denominator =? 0 then 0
    else acc.(CorrAcc.numerator) / denominator.

End Double.

(* ===================================================================== *)
(** ** [src/lib/index-calculation.ts] over a heap and a clock             *)
(* ===================================================================== *)

(** The arrays a caller passes are references into the heap, and
    [Date.now()] reads the wall clock.  The four functions are written
    once more as computations that take the world they run in and return
    the world they leave, built from what each built-in does to it:
    [length], indexing and [reduce] read an array; [slice] and [map] make
    a new one; [Date.now] reads the clock.  The snapshots ([liquidity],
    [pmi], [btcPrice]) are only ever read field by field and are passed
    as values.  Numbers are binary64. *)
Module Heap.
Import PrimFloat.
Local Open Scope float_scope.
Local Open Scope nat_scope.

(** A reference to an array. *)
Definition Ref : Type := nat.

(** What a call can see and change: the arrays of the heap, by reference,
    and the wall clock. *)
Record World := { arrays : list (list float); clock : Z }.

Definition deref (w : World) (r : Ref) : list float := nth r w.(arrays) [].

(** A computation reads a world and leaves one. *)
Definition JS (A : Type) : Type := World -> A * World.

Definition ret {A} (a : A) : JS A := fun w => (a, w).

Definition bind {A B} (m : JS A) (k : A -> JS B) : JS B :=
  fun w => let (a, w') := m w in k a w'.

Notation "x <- m ;; k" := (bind m (fun x => k))
  (at level 61, m at next level, right associativity).

(** A new array, behind a reference no array had before. *)
Definition alloc (xs : list float) : JS Ref :=
  fun w => (length w.(arrays),
            {| arrays := w.(arrays) ++ [xs]; clock := w.(clock) |}).

(** [r.length]. *)
Definition length_ (r : Ref) : JS nat := fun w => (length (deref w r), w).

(** [r[i]]. *)
Definition get (r : Ref) (i : nat) : JS float :=
  fun w => (Double.elementAt (deref w r) i, w).

(** [r.reduce(callback, initial)]; the callbacks of the source are
    arithmetic on their two arguments. *)
Definition reduce (callback : float -> float -> float) (initial : float)
    (r : Ref) : JS float :=
  fun w => (fold_left callback (deref w r) initial, w).

(** [r.slice(-n)]: a new array. *)
Definition slice (r : Ref) (n : nat) : JS Ref :=
  fun w => alloc (JS.slice_last n (deref w r)) w.

(** [r.map(callback)]: a new array. *)
Definition map (callback : float -> float) (r : Ref) : JS Ref :=
  fun w => alloc (List.map callback (deref w r)) w.

(** [Date.now()]. *)
Definition Date_now : JS Z := fun w => (w.(clock), w).

(** The array behind [r] replaced by [xs]. *)
Fixpoint store (r : Ref) (xs : list float) (arrays : list (list float))
    : list (list float) :=
  match arrays, r with
  | [], _ => []
  | _ :: rest, O => xs :: rest
  | array :: rest, S r' => array :: store r' xs rest
  end.

(** [r.fill(value)], with which the dashboard handler builds its two
    constant histories (lines 119 and 123): it writes [value] into every
    slot of the array it is called on and returns that array.  None of
    the four functions below calls it; it is here for contrast. *)
Definition fill (r : Ref) (value : float) : JS Ref :=
  fun w => (r, {| arrays :=
                    store r (repeat value (length (deref w r))) w.(arrays);
                  clock := w.(clock) |}).

Definition calculateStats (values : Ref) : JS Double.Stats.t :=
  n <- length_ values ;;
  if n =? 0 then ret {| Double.Stats.mean := 0; Double.Stats.stdDev := 1 |}
  else
    sum <- reduce (fun sum val => sum + val)%float 0%float values ;;
    n <- length_ values ;;
    let mean := (sum / Double.ofNat n)%float in
    squares <-
      reduce (fun sum val => sum + Double.pow2 (val - mean))%float 0%float values ;;
    n <- length_ values ;;
    let variance := (squares / Double.ofNat n)%float in
    let stdDev := sqrt variance in
    ret {| Double.Stats.mean := mean; Double.Stats.stdDev := Double.or stdDev 1 |}.

Definition calculateBTCTrend (currentPrice : float) (historicalPrices : Ref)
    : JS float :=
  n <- length_ historicalPrices ;;
  if n <? 2 then ret 0%float
  else
    shortTerm <- slice historicalPrices 7 ;;
    mediumTerm <- slice historicalPrices 30 ;;
    shortLength <- length_ shortTerm ;;
    mediumLength <- length_ mediumTerm ;;
    if (shortLength =? 0) || (mediumLength =? 0) then ret 0%float
    else
      shortSum <- reduce (fun sum p => sum + p)%float 0%float shortTerm ;;
      shortLength <- length_ shortTerm ;;
      let shortTermAvg := (shortSum / Double.ofNat shortLength)%float in
      mediumSum <- reduce (fun sum p => sum + p)%float 0%float mediumTerm ;;
      mediumLength <- length_ mediumTerm ;;
      let mediumTermAvg := (mediumSum / Double.ofNat mediumLength)%float in
      if (mediumTermAvg =? 0)%float then ret 0%float
      else
        let trend := ((shortTermAvg - mediumTermAvg) / mediumTermAvg)%float in
        ret (Double.max (-1) (Double.min 1 (trend * 10)))%float.

Definition calculateBitcoinDirectionIndex
    (liquidity : Double.LiquidityData.t) (liquidityHistory : Ref)
    (pmi : Double.ISMPMIData.t) (pmiHistory : Ref)
    (btcPrice : Double.BitcoinPrice.t) (btcPriceHistory : Ref)
    : JS Double.BitcoinDirectionIndex.t :=
  liquidityStats <- calculateStats liquidityHistory ;;
  let liquidityZScore :=
    Double.calculateZScore liquidity.(Double.LiquidityData.liquidity)
      liquidityStats.(Double.Stats.mean) liquidityStats.(Double.Stats.stdDev) in
  let pmiNormalized := (pmi.(Double.ISMPMIData.value) - 50)%float in
  recentred <- map (fun p => p - 50)%float pmiHistory ;;
  pmiStats <- calculateStats recentred ;;
  let pmiZScore :=
    Double.calculateZScore pmiNormalized
      pmiStats.(Double.Stats.mean) pmiStats.(Double.Stats.stdDev) in
  btcTrend <- calculateBTCTrend btcPrice.(Double.BitcoinPrice.price) btcPriceHistory ;;
  let normalizedLiquidity :=
    (Double.max (-2) (Double.min 2 liquidityZScore) / 2)%float in
  let normalizedPMI := (Double.max (-2) (Double.min 2 pmiZScore) / 2)%float in
  let rawIndex :=
    (Double.weights.liquidity * normalizedLiquidity +
     Double.weights.pmi * normalizedPMI +
     Double.weights.btcTrend * btcTrend)%float in
  let index := (((rawIndex + 1) / 2) * 100)%float in
  let interpretation := Double.interpret index in
  now <- Date_now ;;
  ret {| Double.BitcoinDirectionIndex.index := (Double.round (index * 100) / 100)%float;
         Double.BitcoinDirectionIndex.liquidityZScore := liquidityZScore;
         Double.BitcoinDirectionIndex.pmiZScore := pmiZScore;
         Double.BitcoinDirectionIndex.btcTrend := btcTrend;
         Double.BitcoinDirectionIndex.timestamp := now;
         Double.BitcoinDirectionIndex.interpretation := interpretation |}.

(** The [for] loop of [calculateCorrelation], entered at [i] with
    [remaining = n - i]. *)
Fixpoint corrLoop (indexValues priceValues : Ref) (indexMean priceMean : float)
    (remaining i : nat) (acc : Double.CorrAcc.t) : JS Double.CorrAcc.t :=
  match remaining with
  | O => ret acc
  | S remaining' =>
      indexValue <- get indexValues i ;;
      priceValue <- get priceValues i ;;
      corrLoop indexValues priceValues indexMean priceMean remaining' (S i)
               (Double.corrStep indexMean priceMean acc indexValue priceValue)
  end.

Definition calculateCorrelation (indexValues priceValues : Ref) : JS float :=
  indexLength <- length_ indexValues ;;
  priceLength <- length_ priceValues ;;
  if negb (indexLength =? priceLength) || (indexLength <? 2) then ret 0%float
  else
    n <- length_ indexValues ;;
    indexSum <- reduce (fun sum val => sum + val)%float 0%float indexValues ;;
    let indexMean := (indexSum / Double.ofNat n)%float in
    priceSum <- reduce (fun sum val => sum + val)%float 0%float priceValues ;;
    let priceMean := (priceSum / Double.ofNat n)%float in
    acc <- corrLoop indexValues priceValues indexMean priceMean n 0
             {| Double.CorrAcc.numerator := 0;
                Double.CorrAcc.indexVariance := 0;
                Double.CorrAcc.priceVariance := 0 |} ;;
    let denominator :=
      sqrt (acc.(Double.CorrAcc.indexVariance) * acc.(Double.CorrAcc.priceVariance)) in
    if (denominator =? 0)%float then ret 0%float
    else ret (acc.(Double.CorrAcc.numerator) / denominator)%float.

(** The same array, behind the same reference, in two worlds. *)
Definition sameArray (w1 w2 : World) (r : Ref) : Prop :=
  r < length w1.(arrays) /\ r < length w2.(arrays) /\ deref w1 r = deref w2 r.

(** [w'] is [w] with, at most, new arrays: every array of [w] is where it
    was and holds what it held, and the clock reads the same. *)
Definition untouched (w w' : World) : Prop :=
  w'.(clock) = w.(clock) /\
  length w.(arrays) <= length w'.(arrays) /\
  forall r, r < length w.(arrays) -> deref w' r = deref w r.

End Heap.

(* ===================================================================== *)
(** ** [src/app/api/fred/route.ts]: the index-history loop               *)
(* ===================================================================== *)

(** [{ date, value }] observations of a FRED series. *)
Module FREDData.
Record t := { date : string; value : R }.
End FREDData.

(** Elements of [btcPriceHistory]. *)
Module PricePoint.
Record t := { timestamp : Z; date : string; price : R }.
End PricePoint.

(** Elements of [indexHistory]. *)
Module IndexPoint.
Record t := { timestamp : Z; date : string; index : R; price : R }.
End IndexPoint.

(** An element [[date, value]] of [liquidityEntries] or [pmiEntries]. *)
Definition Entry : Type := (string * R)%type.

(** Lines 296-307.  [remaining] is [i + 1]: the loop starts at
    [remaining = liquidityEntries.length], looks at index [remaining - 1]
    and stops at [remaining = 0] with the initial [liquidity = 0],
    [liquidityDate = ""]; a hit is the [break].  The result is the pair
    [(liquidity, liquidityDate)]. *)
Fixpoint liquidityLoop (liquidityEntries : list Entry) (dateStr : string)
    (remaining : nat) : R * string :=
  match remaining with
  | O => (0, EmptyString)
  | S i =>
      let '(date, value) := nth i liquidityEntries (EmptyString, 0) in
      if JS.str_le date dateStr then (value, date)
      else liquidityLoop liquidityEntries dateStr i
  end.

(** Lines 310-317, same convention; the initial [pmiValue] is [50]. *)
Fixpoint pmiLoop (pmiEntries : list Entry) (dateStr : string)
    (remaining : nat) : R :=
  match remaining with
  | O => 50
  | S i =>
      let '(date, value) := nth i pmiEntries (EmptyString, 0) in
      if JS.str_le date dateStr then value
      else pmiLoop pmiEntries dateStr i
  end.

(** [data.find(x => x.date === d)?.value || 0]. *)
Definition findValue (data : list FREDData.t) (d : string) : R :=
  match find (fun x => String.eqb x.(FREDData.date) d) data with
  | Some x => JS.or x.(FREDData.value) 0
  | None => 0
  end.

(** Lines 320-328. *)
Definition recentPricesOf (btcPriceHistory : list PricePoint.t)
    (btcPoint : PricePoint.t) : list R :=
  map PricePoint.price
    (JS.slice_last 30
       (filter (fun p => (p.(PricePoint.timestamp) <=?
                          btcPoint.(PricePoint.timestamp))%Z)
               btcPriceHistory)).

(** One iteration of [for (const btcPoint of btcPriceHistory)], lines
    292-390: [None] is a [continue], [Some] the pushed element. *)
Definition historyStep (now : Z)
    (fedData tgaData rrpData : list FREDData.t)
    (liquidityEntries pmiEntries : list Entry)
    (liquidityHistory pmiHistoryValues : list R)
    (btcPriceHistory : list PricePoint.t) (btcPoint : PricePoint.t)
    : option IndexPoint.t :=
  let dateStr := btcPoint.(PricePoint.date) in
  let '(liquidity, liquidityDate) :=
    liquidityLoop liquidityEntries dateStr (length liquidityEntries) in
  let pmiValue := pmiLoop pmiEntries dateStr (length pmiEntries) in
  let recentPrices := recentPricesOf btcPriceHistory btcPoint in
  if (length recentPrices <? 2)%nat then None
  else if JS.str_falsy liquidityDate then None
  else
    let liquidityData :=
      {| LiquidityData.fedBalanceSheet := findValue fedData liquidityDate;
         LiquidityData.tga := findValue tgaData liquidityDate;
         LiquidityData.rrp := findValue rrpData liquidityDate;
         LiquidityData.liquidity := liquidity;
         LiquidityData.date := liquidityDate |} in
    let pmiData :=
      {| ISMPMIData.value := pmiValue;
         ISMPMIData.date := dateStr;
         ISMPMIData.change := None;
         ISMPMIData.note := None;
         ISMPMIData.source := None |} in
    let btcPrice :=
      {| BitcoinPrice.price := btcPoint.(PricePoint.price);
         BitcoinPrice.timestamp := btcPoint.(PricePoint.timestamp);
         BitcoinPrice.change24h := None |} in
    let directionIndex :=
      calculateBitcoinDirectionIndex now liquidityData liquidityHistory
        pmiData pmiHistoryValues btcPrice recentPrices in
    Some {| IndexPoint.timestamp := btcPoint.(PricePoint.timestamp);
            IndexPoint.date := dateStr;
            IndexPoint.index := directionIndex.(BitcoinDirectionIndex.index);
            IndexPoint.price := btcPoint.(PricePoint.price) |}.

(** The array [indexHistory] after the loop. *)
Definition indexHistoryOf (now : Z)
    (fedData tgaData rrpData : list FREDData.t)
    (liquidityEntries pmiEntries : list Entry)
    (liquidityHistory pmiHistoryValues : list R)
    (btcPriceHistory : list PricePoint.t) : list IndexPoint.t :=
  flat_map
    (fun btcPoint =>
       match historyStep now fedData tgaData rrpData liquidityEntries
               pmiEntries liquidityHistory pmiHistoryValues
               btcPriceHistory btcPoint with
       | Some point => [point]
       | None => []
       end)
    btcPriceHistory.

(* ===================================================================== *)
(** ** [src/components/btc-chart.tsx]: merging prices with index values  *)
(* ===================================================================== *)

(** [index: number | null]: [None] is [null]. *)
Module ChartDataPoint.
Record t := { timestamp : Z; date : string; price : R; index : option R }.
End ChartDataPoint.

(** The values of [indexMap]. *)
Module IndexEntry.
Record t := { index : R; timestamp : Z }.
End IndexEntry.

(** [Map<number, {index, timestamp}>], in insertion order. *)
Definition IndexMap : Type := list (Z * IndexEntry.t).

(** [Map.prototype.set]: an existing key keeps its place and takes the new
    value, a new key goes last. *)
Fixpoint mapSet (k : Z) (v : IndexEntry.t) (m : IndexMap) : IndexMap :=
  match m with
  | [] => [(k, v)]
  | (k', v') :: rest =>
      if (k' =? k)%Z then (k, v) :: rest else (k', v') :: mapSet k v rest
  end.

(** [Map.prototype.get]. *)
Fixpoint mapGet (k : Z) (m : IndexMap) : option IndexEntry.t :=
  match m with
  | [] => None
  | (k', v') :: rest => if (k' =? k)%Z then Some v' else mapGet k rest
  end.

(** The callback of [indexData.data.forEach], lines 128-136: a point whose
    [index] is not a number is not stored. *)
Definition storeIndexPoint (indexMap : IndexMap) (point : ChartDataPoint.t)
    : IndexMap :=
  match point.(ChartDataPoint.index) with
  | Some i =>
      mapSet point.(ChartDataPoint.timestamp)
        {| IndexEntry.index := i;
           IndexEntry.timestamp := point.(ChartDataPoint.timestamp) |}
        indexMap
  | None => indexMap
  end.

(** Lines 124-137.  [indexData] is [indexData?.data]: [None] when the
    query has no data. *)
Definition buildIndexMap (indexData : option (list ChartDataPoint.t))
    : IndexMap :=
  match indexData with
  | Some data =>
      if (0 <? length data)%nat then fold_left storeIndexPoint data [] else []
  | None => []
  end.

(** [closestDiff] and [closestIndex] of lines 152-153; a [closestDiff] of
    [None] is [Infinity], a [closestIndex] of [None] is [null]. *)
Module Closest.
Record t := { closestDiff : option Z; closestIndex : option R }.
End Closest.

(** Body of the [for ... of indexMap.entries()] loop, lines 155-162. *)
Definition closestBody (btcTimestamp : Z) (acc : Closest.t)
    (entry : Z * IndexEntry.t) : Closest.t :=
  let '(indexTimestamp, indexData) := entry in
  let diff := Z.abs (btcTimestamp - indexTimestamp) in
  if ((diff <? 86400000)%Z &&
      match acc.(Closest.closestDiff) with
      | None => true
      | Some closestDiff => (diff <? closestDiff)%Z
      end)%bool
  then {| Closest.closestDiff := Some diff;
          Closest.closestIndex := Some indexData.(IndexEntry.index) |}
  else acc.

(** Lines 143-165: [matchedIndex] for one price point. *)
Definition matchIndex (indexMap : IndexMap) (btcTimestamp : Z) : option R :=
  match mapGet btcTimestamp indexMap with
  | Some exactMatch => Some exactMatch.(IndexEntry.index)
  | None =>
      (fold_left (closestBody btcTimestamp) indexMap
         {| Closest.closestDiff := None; Closest.closestIndex := None |})
      .(Closest.closestIndex)
  end.

(** The callback of [btcData.data.forEach], lines 141-187: [None] is a
    [return] without a push, [Some] the pushed element. *)
Definition mergePoint (indexMap : IndexMap) (btcPoint : PricePoint.t)
    : option ChartDataPoint.t :=
  let matchedIndex := matchIndex indexMap btcPoint.(PricePoint.timestamp) in
  if ((0 <? length indexMap)%nat &&
      match matchedIndex with None => true | Some _ => false end)%bool
  then None
  else
    let finalIndex :=
      match matchedIndex with
      | Some i => Some i
      | None => if (length indexMap =? 0)%nat then Some 50 else None
      end in
    match finalIndex with
    | None => None
    | Some i =>
        Some {| ChartDataPoint.timestamp := btcPoint.(PricePoint.timestamp);
                ChartDataPoint.date := btcPoint.(PricePoint.date);
                ChartDataPoint.price := btcPoint.(PricePoint.price);
                ChartDataPoint.index := Some i |}
    end.

(** [mergedData] before the sort. *)
Definition mergedDataOf (indexData : option (list ChartDataPoint.t))
    (btcData : list PricePoint.t) : list ChartDataPoint.t :=
  let indexMap := buildIndexMap indexData in
  flat_map
    (fun btcPoint =>
       match mergePoint indexMap btcPoint with
       | Some point => [point]
       | None => []
       end)
    btcData.

(** [mergedData.sort((a, b) => a.timestamp - b.timestamp)]: a stable sort
    by ascending timestamp. *)
Fixpoint insertByTimestamp (a : ChartDataPoint.t) (sorted : list ChartDataPoint.t)
    : list ChartDataPoint.t :=
  match sorted with
  | [] => [a]
  | b :: rest =>
      if (a.(ChartDataPoint.timestamp) <=? b.(ChartDataPoint.timestamp))%Z
      then a :: b :: rest
      else b :: insertByTimestamp a rest
  end.

Definition sortByTimestamp (l : list ChartDataPoint.t) : list ChartDataPoint.t :=
  fold_right insertByTimestamp [] l.

(** [chartData.data]; [None] is [chartData === null]. *)
Definition chartDataOf (indexData : option (list ChartDataPoint.t))
    (btcData : list PricePoint.t) : option (list ChartDataPoint.t) :=
  let mergedData := sortByTimestamp (mergedDataOf indexData btcData) in
  if (0 <? length mergedData)%nat then Some mergedData else None.

(* ===================================================================== *)
(** ** The specification's vocabulary                                     *)
(* ===================================================================== *)

(** These definitions follow the words of the specification ("arithmetic
    mean", "population standard deviation", "last 7 elements", "clamp",
    "scan from most recent to oldest"); the functions above are compared
    with them. *)
Module Spec.

Definition sum (xs : list R) : R := fold_right Rplus 0 xs.

(** Arithmetic mean. *)
Definition avg (xs : list R) : R := sum xs / INR (length xs).

(** Sum of the squared deviations from the mean. *)
Definition sumSqDev (xs : list R) : R :=
  sum (map (fun x => (x - avg xs) ^ 2) xs).

(** Population standard deviation: the divisor is [N]. *)
Definition popStdDev (xs : list R) : R :=
  sqrt (sumSqDev xs / INR (length xs)).

(** Sum of the products of the paired deviations. *)
Definition sumProdDev (xs ys : list R) : R :=
  sum (map (fun xy => (fst xy - avg xs) * (snd xy - avg ys)) (combine xs ys)).

(** The denominator of the Pearson formula. *)
Definition pearsonDenominator (xs ys : list R) : R :=
  sqrt (sumSqDev xs * sumSqDev ys).

(** The last [n] elements of a sequence (all of it when it is shorter). *)
Definition lastN {A} (n : nat) (xs : list A) : list A :=
  rev (firstn n (rev xs)).

Definition clamp (x lo hi : R) : R := Rmax lo (Rmin hi x).


(** Forward-fill join: scan from the most recent entry to the oldest and
    take the first one dated at or before the target. *)
Definition forwardFill (series : list Entry) (target : string)
    : option Entry :=
  find (fun e => JS.str_le (fst e) target) (rev series).

(** Rounding to two decimal places. *)
Definition round2 (x : R) : R := JS.round (x * 100) / 100.

(** The tolerance window of the nearest-within-tolerance join, in
    milliseconds (24 hours). *)
Definition tolerance : Z := 86400000.

(** The index series has an observation [v] at timestamp [t]: one of its
    points is stamped [t] and carries the number [v]. *)
Definition observed (indexData : option (list ChartDataPoint.t))
    (t : Z) (v : R) : Prop :=
  exists data point,
    indexData = Some data /\ In point data
    /\ point.(ChartDataPoint.timestamp) = t
    /\ point.(ChartDataPoint.index) = Some v.

(** The price point with the index value [v] attached. *)
Definition mergedWith (btcPoint : PricePoint.t) (v : R) : ChartDataPoint.t :=
  {| ChartDataPoint.timestamp := btcPoint.(PricePoint.timestamp);
     ChartDataPoint.date := btcPoint.(PricePoint.date);
     ChartDataPoint.price := btcPoint.(PricePoint.price);
     ChartDataPoint.index := Some v |}.

End Spec.

(** ** Loop invariant of the closest-match search

    What the loop of lines 155-162 knows after the entries [seen]: either
    nothing in reach ([Infinity], [null]), or the distance and index of an
    entry in reach that no entry seen so far beats. *)
Definition closestInv (btcTimestamp : Z) (seen : IndexMap) (acc : Closest.t)
    : Prop :=
  match acc.(Closest.closestDiff), acc.(Closest.closestIndex) with
  | None, None =>
      forall t e, In (t, e) seen ->
                  (Spec.tolerance <= Z.abs (btcTimestamp - t))%Z
  | Some d, Some v =>
      (d < Spec.tolerance)%Z
      /\ (exists t e, In (t, e) seen /\ Z.abs (btcTimestamp - t) = d
                      /\ e.(IndexEntry.index) = v)
      /\ (forall t e, In (t, e) seen -> (d <= Z.abs (btcTimestamp - t))%Z)
  | _, _ => False
  end.

(* ===================================================================== *)
(** ** Concrete inputs                                                    *)
(* ===================================================================== *)

(** ** A snapshot on the edge of a bucket

    Liquidity two units below an empty history's default mean, a PMI of
    48.857 against an empty PMI history, and no price history. *)
Module Edge.

Definition liquidity : LiquidityData.t :=
  {| LiquidityData.fedBalanceSheet := 5;
     LiquidityData.tga := 4;
     LiquidityData.rrp := 3;
     LiquidityData.liquidity := -2;
     LiquidityData.date := "2024-01-01" |}.

Definition pmi : ISMPMIData.t :=
  {| ISMPMIData.value := 48857 / 1000;
     ISMPMIData.date := "2024-01-01";
     ISMPMIData.change := None;
     ISMPMIData.note := None;
     ISMPMIData.source := None |}.

Definition btcPrice : BitcoinPrice.t :=
  {| BitcoinPrice.price := 40000;
     BitcoinPrice.timestamp := 1704067200000;
     BitcoinPrice.change24h := None |}.

Definition result (now : Z) : BitcoinDirectionIndex.t :=
  calculateBitcoinDirectionIndex now liquidity [] pmi [] btcPrice [].

End Edge.

(** ** Histories that overflow

    Two finite readings of 1e308: their sum is beyond the largest double,
    so [reduce] returns [Infinity]. *)
Module Overflow.
Import PrimFloat.
Local Open Scope float_scope.

Definition history : list float := [1e308; 1e308].

Definition liquidity : Double.LiquidityData.t :=
  {| Double.LiquidityData.fedBalanceSheet := 3;
     Double.LiquidityData.tga := 1;
     Double.LiquidityData.rrp := 1;
     Double.LiquidityData.liquidity := 1;
     Double.LiquidityData.date := "2024-01-01" |}.

Definition pmi : Double.ISMPMIData.t :=
  {| Double.ISMPMIData.value := 50;
     Double.ISMPMIData.date := "2024-01-01";
     Double.ISMPMIData.change := None;
     Double.ISMPMIData.note := None;
     Double.ISMPMIData.source := None |}.

Definition btcPrice : Double.BitcoinPrice.t :=
  {| Double.BitcoinPrice.price := 40000;
     Double.BitcoinPrice.timestamp := 1704067200000;
     Double.BitcoinPrice.change24h := None |}.

(** The liquidity history overflows. *)
Definition onLiquidity (now : Z) : Double.BitcoinDirectionIndex.t :=
  Double.calculateBitcoinDirectionIndex now liquidity history pmi [] btcPrice [].

(** The price history overflows. *)
Definition onPrices (now : Z) : Double.BitcoinDirectionIndex.t :=
  Double.calculateBitcoinDirectionIndex now liquidity [] pmi [] btcPrice history.

End Overflow.

(** ** A flat PMI history

    A PMI of 57.6 against twelve readings of 57.6, which is what the
    dashboard handler passes (line 119). *)
Module Flat.
Import PrimFloat.
Local Open Scope float_scope.

Definition pmi : Double.ISMPMIData.t :=
  {| Double.ISMPMIData.value := 57.6;
     Double.ISMPMIData.date := "2024-01-01";
     Double.ISMPMIData.change := None;
     Double.ISMPMIData.note := None;
     Double.ISMPMIData.source := None |}.

Definition pmiHistory : list float := repeat 57.6 12.

Definition result (now : Z) : Double.BitcoinDirectionIndex.t :=
  Double.calculateBitcoinDirectionIndex now Overflow.liquidity []
    pmi pmiHistory Overflow.btcPrice [].


End Flat.

(** ** Two worlds

    The same two arrays behind the same references; the later world has
    one more array and a later clock. *)
Module Worlds.
Import PrimFloat.
Local Open Scope float_scope.

Definition earlier : Heap.World :=
  {| Heap.arrays := [[1; 2; 4; 8]; [3; 5; 6; 9]];
     Heap.clock := 1704067200000 |}.

Definition later : Heap.World :=
  {| Heap.arrays := [[1; 2; 4; 8]; [3; 5; 6; 9]; [7]];
     Heap.clock := 1704067200001 |}.

End Worlds.

(* ===================================================================== *)
(** ** [src/app/api/dashboard/route.ts]: the dashboard handler            *)
(* ===================================================================== *)

(** How a call ends: with a value, or with a thrown error's message. *)
Inductive Outcome (A : Type) :=
  | Returns (a : A)
  | Throws (message : string).
Arguments Returns {A} a.
Arguments Throws {A} message.

Module DashboardData.
Record t := {
  bitcoinPrice : BitcoinPrice.t;
  liquidity : LiquidityData.t;
  pmi : ISMPMIData.t;
  directionIndex : BitcoinDirectionIndex.t;
  correlation : option R
}.
End DashboardData.

(** [xs[xs.length - 1]]: [None] is [undefined]. *)
Definition lastElement {A} (xs : list A) : option A :=
  nth_error xs (length xs - 1).

(** [data[i]?.value || 0]. *)
Definition valueAt (data : list FREDData.t) (i : nat) : R :=
  match nth_error data i with
  | Some x => JS.or x.(FREDData.value) 0
  | None => 0
  end.

(** [xs.map((x, i) => f(x, i))], with [i] counted from [start]. *)
Fixpoint mapWithIndex {A B} (f : A -> nat -> B) (start : nat) (xs : list A)
    : list B :=
  match xs with
  | [] => []
  | x :: rest => f x start :: mapWithIndex f (S start) rest
  end.

(** Lines 113-117. *)
Definition dashboardLiquidityHistory (fedData tgaData rrpData : list FREDData.t)
    : list R :=
  mapWithIndex
    (fun f i =>
       let tgaVal := valueAt tgaData i in
       let rrpVal := valueAt rrpData i in
       f.(FREDData.value) - tgaVal - rrpVal)
    0 fedData.

(** The body of [GET] once the five fetches have resolved, lines 99-147.
    Reading [.value] of an [undefined] latest observation throws; the
    [catch] turns that into the status-500 response, which is [None]. *)
Definition dashboardOf (now : Z) (fedData tgaData rrpData : list FREDData.t)
    (btcPrice : BitcoinPrice.t) (pmi : ISMPMIData.t)
    : option DashboardData.t :=
  match lastElement fedData, lastElement tgaData, lastElement rrpData with
  | Some latestFed, Some latestTGA, Some latestRRP =>
      let liquidity :=
        {| LiquidityData.fedBalanceSheet := latestFed.(FREDData.value);
           LiquidityData.tga := latestTGA.(FREDData.value);
           LiquidityData.rrp := latestRRP.(FREDData.value);
           LiquidityData.liquidity :=
             latestFed.(FREDData.value) - latestTGA.(FREDData.value)
             - latestRRP.(FREDData.value);
           LiquidityData.date := latestFed.(FREDData.date) |} in
      let liquidityHistory :=
        dashboardLiquidityHistory fedData tgaData rrpData in
      let pmiHistory := repeat pmi.(ISMPMIData.value) 12 in
      let btcPriceHistory := repeat btcPrice.(BitcoinPrice.price) 30 in
      let directionIndex :=
        calculateBitcoinDirectionIndex now liquidity liquidityHistory
          pmi pmiHistory btcPrice btcPriceHistory in
      let correlation := 0 in
      Some {| DashboardData.bitcoinPrice := btcPrice;
              DashboardData.liquidity := liquidity;
              DashboardData.pmi := pmi;
              DashboardData.directionIndex := directionIndex;
              DashboardData.correlation := Some correlation |}
  | _, _, _ => None
  end.

(** [GET], lines 88-155.  Of the five fetches under [Promise.all] only
    [fetchBitcoinPrice] can reject (it rethrows, line 49): [fetchFREDSeries]
    answers an error with the empty array and [fetchPMI] with its
    fallback.  A rejection is thrown by the [await] inside the [try], and
    the [catch] answers with status 500, which is [None]. *)
Definition dashboardGET (now : Z) (fedData tgaData rrpData : list FREDData.t)
    (btcPrice : Outcome BitcoinPrice.t) (pmi : ISMPMIData.t)
    : option DashboardData.t :=
  match btcPrice with
  | Throws _ => None
  | Returns btcPrice => dashboardOf now fedData tgaData rrpData btcPrice pmi
  end.

(* ===================================================================== *)
(** ** [src/app/api/bitcoin/history/route.ts]                             *)
(* ===================================================================== *)

(** [getDaysFromTimespan]; the argument is a query string cast to
    [Timespan], so anything else falls to the [default]. *)
Definition getDaysFromTimespan (timespan : string) : Z :=
  if String.eqb timespan "1D" then 1
  else if String.eqb timespan "7D" then 7
  else if String.eqb timespan "30D" then 30
  else if String.eqb timespan "90D" then 90
  else if String.eqb timespan "1Y" then 365
  else if String.eqb timespan "ALL" then 365 * 15
  else 365.

(** [market_chart] payload: rows of [[timestamp, value]]. *)
Module CoinGeckoMarketData.
Record t := {
  prices : list (Z * R);
  market_caps : list (Z * R);
  total_volumes : list (Z * R)
}.
End CoinGeckoMarketData.

(** The query parameters of the [market_chart] request; [days] is the
    string ["max"] or a number. *)
Module MarketChartParams.
Record t := {
  vs_currency : string;
  days : string + Z;
  interval : string
}.
End MarketChartParams.

(** Lines 81-85. *)
Definition marketChartParams (days : Z) : MarketChartParams.t :=
  {| MarketChartParams.vs_currency := "usd";
     MarketChartParams.days :=
       if (days =? 365 * 15)%Z then inl "max"%string else inr days;
     MarketChartParams.interval :=
       if (days <=? 90)%Z then "hourly"%string else "daily"%string |}.

(** What one [axios.get] does: it resolves with the payload, or it
    rejects, with status 429 or otherwise; a rejection carries the
    error's message. *)
Inductive Attempt :=
  | Responds (data : CoinGeckoMarketData.t)
  | RateLimited (message : string)
  | Fails (message : string).

(** The [for] loop of [fetchWithRetry], lines 36-69.  [network attempt]
    is what the request of the given attempt does; [waits] collects the
    delays handed to [setTimeout], in order.  [fuel] bounds the number of
    iterations; the loop is entered with [fuel = maxRetries]. *)
Fixpoint fetchWithRetryLoop (network : nat -> Attempt) (maxRetries : nat)
    (fuel attempt : nat) (waits : list Z)
    : Outcome CoinGeckoMarketData.t * list Z :=
  match fuel with
  | O => (Throws "Max retries exceeded", waits)
  | S fuel' =>
      if (attempt <=? maxRetries)%nat then
        match network attempt with
        | Responds data => (Returns data, waits)
        | RateLimited _ =>
            if (attempt <? maxRetries)%nat then
              let waitTime := (5000 * Z.of_nat attempt)%Z in
              fetchWithRetryLoop network maxRetries fuel' (S attempt)
                                 (waits ++ [waitTime])
            else
              (Throws "API rate limit exceeded. Please try again in a moment.",
               waits)
        | Fails message =>
            if (attempt =? maxRetries)%nat then (Throws message, waits)
            else
              fetchWithRetryLoop network maxRetries fuel' (S attempt)
                                 (waits ++ [(1000 * Z.of_nat attempt)%Z])
        end
      else (Throws "Max retries exceeded", waits)
  end.

Definition fetchWithRetry (network : nat -> Attempt) (maxRetries : nat)
    : Outcome CoinGeckoMarketData.t * list Z :=
  fetchWithRetryLoop network maxRetries maxRetries 1 [].

(** [s.includes(sub)]. *)
Definition includes (s sub : string) : bool :=
  match String.index 0 sub s with
  | Some _ => true
  | None => false
  end.

(** The JSON body of the route's response. *)
Inductive HistoryBody :=
  | HistoryData (data : list PricePoint.t) (timespan : string) (count : nat)
  | HistoryError (error : string).

Module Response.
Record t := { status : Z; body : HistoryBody }.
End Response.

(** The time value of a [Date] is at most 8.64e15 milliseconds either
    side of the epoch; [new Date(t)] with any other [t] is an invalid
    date. *)
Definition maxTimeValue : Z := 8640000000000000.

Section BitcoinHistoryRoute.

(** [toISOString()] of a valid date. *)
Variable toISOString : Z -> string.

(** The message of the [RangeError] that [toISOString()] throws on an
    invalid date. *)
Variable invalidTimeMessage : string.

(** [new Date(timestamp).toISOString()]. *)
Definition dateToISOString (timestamp : Z) : Outcome string :=
  if (Z.abs timestamp <=? maxTimeValue)%Z then Returns (toISOString timestamp)
  else Throws invalidTimeMessage.

(** Lines 89-93: [map] calls its callback row by row, and the first row
    whose timestamp is no valid date ends the call with the error. *)
Fixpoint pricePoints (prices : list (Z * R)) : Outcome (list PricePoint.t) :=
  match prices with
  | [] => Returns []
  | row :: rest =>
      match dateToISOString (fst row) with
      | Throws message => Throws message
      | Returns date =>
          match pricePoints rest with
          | Throws message => Throws message
          | Returns points =>
              Returns ({| PricePoint.timestamp := fst row;
                          PricePoint.date := date;
                          PricePoint.price := snd row |} :: points)
          end
      end
  end.

(** The [catch] block, lines 107-124. *)
Definition historyCatch (errorMessage : string) : Response.t :=
  if (includes errorMessage "429" || includes errorMessage "rate limit")%bool
  then
    {| Response.status := 429;
       Response.body :=
         HistoryError
           "API rate limit exceeded. Please try again in a moment." |}
  else
    {| Response.status := 500;
       Response.body :=
         HistoryError
           ("Failed to fetch Bitcoin historical data: " ++ errorMessage) |}.

(** [GET], lines 72-125, for the query parameter [timespan] ([None] when
    it is absent); [network params attempt] is the outcome of a request. *)
Definition bitcoinHistoryGET (timespan : option string)
    (network : MarketChartParams.t -> nat -> Attempt) : Response.t :=
  let timespan :=
    match timespan with
    | Some EmptyString | None => "1Y"%string
    | Some t => t
    end in
  let days := getDaysFromTimespan timespan in
  match fst (fetchWithRetry (network (marketChartParams days)) 3) with
  | Returns marketData =>
      match pricePoints marketData.(CoinGeckoMarketData.prices) with
      | Returns data =>
          if (length data =? 0)%nat then
            {| Response.status := 500;
               Response.body :=
                 HistoryError "No Bitcoin price data returned from API" |}
          else
            {| Response.status := 200;
               Response.body := HistoryData data timespan (length data) |}
      | Throws errorMessage => historyCatch errorMessage
      end
  | Throws errorMessage => historyCatch errorMessage
  end.

End BitcoinHistoryRoute.

(* ===================================================================== *)
(** ** [src/app/api/fred/route.ts]: the index-history handler             *)
(* ===================================================================== *)

(** [Map<string, number>], in insertion order. *)
Definition StrMap : Type := list (string * R).

(** [Map.prototype.set] on a string key. *)
Fixpoint strMapSet (k : string) (v : R) (m : StrMap) : StrMap :=
  match m with
  | [] => [(k, v)]
  | (k', v') :: rest =>
      if String.eqb k' k then (k, v) :: rest else (k', v') :: strMapSet k v rest
  end.

(** Lines 241-252: the callback of [fedData.forEach] and its result. *)
Definition liquidityMapOf (fedData tgaData rrpData : list FREDData.t)
    : StrMap :=
  fold_left
    (fun liquidityMap fed =>
       let tgaVal := findValue tgaData fed.(FREDData.date) in
       let rrpVal := findValue rrpData fed.(FREDData.date) in
       strMapSet fed.(FREDData.date)
                 (fed.(FREDData.value) - tgaVal - rrpVal) liquidityMap)
    fedData [].

(** Lines 255-260. *)
Definition pmiMapOf (pmiHistory : list FREDData.t) : StrMap :=
  fold_left
    (fun pmiMap pmi =>
       let monthStart := pmi.(FREDData.date) in
       strMapSet monthStart pmi.(FREDData.value) pmiMap)
    pmiHistory [].

(** The JSON body of the index-history response. *)
Module IndexHistoryResponse.
Record t := {
  data : list IndexPoint.t;
  timespan : string;
  count : nat;
  error : option string
}.
End IndexHistoryResponse.

Section IndexHistoryRoute.

(** [a.localeCompare(b)]: negative, zero or positive. *)
Variable localeCompare : string -> string -> Z.

(** [entries.sort((a, b) => a[0].localeCompare(b[0]))], a stable sort. *)
Fixpoint insertEntry (a : Entry) (sorted : list Entry) : list Entry :=
  match sorted with
  | [] => [a]
  | b :: rest =>
      if (localeCompare (fst a) (fst b) <=? 0)%Z then a :: b :: rest
      else b :: insertEntry a rest
  end.

Definition sortEntries (entries : list Entry) : list Entry :=
  fold_right insertEntry [] entries.

(** The body of [GET] once the five fetches have returned, lines 231-396. *)
Definition indexHistoryGET (now : Z) (timespan : string)
    (fedData tgaData rrpData : list FREDData.t)
    (btcPriceHistory : list PricePoint.t) (pmiHistory : list FREDData.t)
    : IndexHistoryResponse.t :=
  let liquidityMap := liquidityMapOf fedData tgaData rrpData in
  let pmiMap := pmiMapOf pmiHistory in
  let liquidityHistory := map snd liquidityMap in
  let pmiHistoryValues := map FREDData.value pmiHistory in
  if (length liquidityHistory =? 0)%nat then
    {| IndexHistoryResponse.data := [];
       IndexHistoryResponse.timespan := timespan;
       IndexHistoryResponse.count := 0;
       IndexHistoryResponse.error := Some "Insufficient liquidity data"%string |}
  else
    let liquidityEntries := sortEntries liquidityMap in
    let pmiEntries := sortEntries pmiMap in
    let indexHistory :=
      indexHistoryOf now fedData tgaData rrpData liquidityEntries pmiEntries
        liquidityHistory pmiHistoryValues btcPriceHistory in
    {| IndexHistoryResponse.data := indexHistory;
       IndexHistoryResponse.timespan := timespan;
       IndexHistoryResponse.count := length indexHistory;
       IndexHistoryResponse.error := None |}.

End IndexHistoryRoute.

(** The last observation of a series dated [d]. *)
Definition lastDated (d : string) (data : list FREDData.t)
    : option FREDData.t :=
  find (fun x => String.eqb x.(FREDData.date) d) (rev data).

(* ===================================================================== *)
(** ** [src/components/btc-chart.tsx]: the plotted points                 *)
(* ===================================================================== *)

(** A chart point with its axis label. *)
Module FormattedPoint.
Record t := {
  timestamp : Z;
  date : string;
  price : R;
  index : option R;
  dateLabel : string
}.
End FormattedPoint.

Section ChartFormat.

(** [formatDate], a locale-dependent rendering of a timestamp. *)
Variable formatDate : Z -> string.

(** The callback of [.map], lines 327-335. *)
Definition withDateLabel (point : ChartDataPoint.t) : FormattedPoint.t :=
  {| FormattedPoint.timestamp := point.(ChartDataPoint.timestamp);
     FormattedPoint.date := point.(ChartDataPoint.date);
     FormattedPoint.price := point.(ChartDataPoint.price);
     FormattedPoint.dateLabel := formatDate point.(ChartDataPoint.timestamp);
     FormattedPoint.index :=
       match point.(ChartDataPoint.index) with
       | Some i => Some i
       | None => None
       end |}.

(** [chartDataFormatted], lines 319-336. *)
Definition chartDataFormatted (data : list ChartDataPoint.t)
    : list FormattedPoint.t :=
  filter
    (fun point =>
       match point.(FormattedPoint.index) with
       | Some _ => true
       | None => false
       end)
    (map withDateLabel
       (filter
          (fun point =>
             if Rle_dec point.(ChartDataPoint.price) 0 then false else true)
          data)).

End ChartFormat.

(* ===================================================================== *)
(** ** The PMI route and the dashboard's [fetchPMI]                       *)
(* ===================================================================== *)

(** An observation as FRED sends it: the value is a string, ["."] when
    missing. *)
Module FREDObservation.
Record t := { date : string; value : string }.
End FREDObservation.

(** The JSON body of the PMI route. *)
Module PMIResponse.
Record t := {
  value : R;
  date : string;
  change : R;
  source : string;
  note : string
}.
End PMIResponse.

Section PMI.

Variable parseFloat : string -> R.

(** [observations.filter(obs => obs.value !== '.')]. *)
Definition validObservations (observations : list FREDObservation.t)
    : list FREDObservation.t :=
  filter (fun obs => negb (String.eqb obs.(FREDObservation.value) "."))
         observations.

(** [.filter(...).map(obs => ({date, value: parseFloat(obs.value)}))]. *)
Definition parseObservations (observations : list FREDObservation.t)
    : list FREDData.t :=
  map (fun obs => {| FREDData.date := obs.(FREDObservation.date);
                     FREDData.value := parseFloat obs.(FREDObservation.value) |})
      (validObservations observations).

(** The placeholder of the PMI route, lines 477-483; [today] is
    [new Date().toISOString().split('T')[0]]. *)
Definition pmiPlaceholder (today : string) : PMIResponse.t :=
  {| PMIResponse.value := 50;
     PMIResponse.date := today;
     PMIResponse.change := 0;
     PMIResponse.source := "placeholder";
     PMIResponse.note :=
       "This is placeholder data. Please integrate with a real PMI data source. ISM PMI is published monthly at https://www.ismworld.org/" |}.

(** [GET] of the PMI route, lines 421-494.  [response] is
    [response.data.observations], or [None] when the request failed; a
    failure inside the inner [try] falls through to the placeholder. *)
Definition pmiRouteGET (today : string)
    (response : option (list FREDObservation.t)) : PMIResponse.t :=
  match response with
  | Some raw =>
      let observations := parseObservations raw in
      if (0 <? length observations)%nat then
        match lastElement observations with
        | Some latest =>
            let previous :=
              if (1 <? length observations)%nat
              then nth (length observations - 2) observations latest
              else latest in
            let change :=
              latest.(FREDData.value) - previous.(FREDData.value) in
            {| PMIResponse.value := latest.(FREDData.value);
               PMIResponse.date := latest.(FREDData.date);
               PMIResponse.change := change;
               PMIResponse.source := "FRED_NAPM";
               PMIResponse.note :=
                 "Using NAPM as proxy. For accurate ISM PMI, consider using a paid data provider or manual entry." |}
        | None => pmiPlaceholder today
        end
      else pmiPlaceholder today
  | None => pmiPlaceholder today
  end.

(** [fetchPMI] of the dashboard route, lines 53-86: the value comes from
    the filtered list, the date from the unfiltered one. *)
Definition fetchPMI (today : string)
    (response : option (list FREDObservation.t)) : ISMPMIData.t :=
  let fallback :=
    {| ISMPMIData.value := 50;
       ISMPMIData.date := today;
       ISMPMIData.change := Some 0;
       ISMPMIData.note := None;
       ISMPMIData.source := None |} in
  match response with
  | Some raw =>
      let observations :=
        map (fun obs => parseFloat obs.(FREDObservation.value))
            (validObservations raw) in
      if (0 <? length observations)%nat then
        match lastElement observations, lastElement raw with
        | Some value, Some lastRaw =>
            {| ISMPMIData.value := value;
               ISMPMIData.date := lastRaw.(FREDObservation.date);
               ISMPMIData.change :=
                 Some (if (1 <? length observations)%nat
                       then value
                            - nth (length observations - 2) observations 0
                       else 0);
               ISMPMIData.note := None;
               ISMPMIData.source := None |}
        | _, _ => fallback
        end
      else fallback
  | None => fallback
  end.

End PMI.

(* ===================================================================== *)
(** ** More vocabulary                                                    *)
(* ===================================================================== *)

(** [Map.prototype.get] on a string key. *)
Fixpoint strMapGet (k : string) (m : StrMap) : option R :=
  match m with
  | [] => None
  | (k', v') :: rest => if String.eqb k' k then Some v' else strMapGet k rest
  end.

(** The code-unit comparison of two strings as a [localeCompare] result. *)
Definition codeUnitCompare (a b : string) : Z :=
  match String.compare a b with
  | Lt => -1
  | Eq => 0
  | Gt => 1
  end.

(** The delay requested after a failed attempt [j]: 5 seconds times [j]
    after a rate limit, 1 second times [j] otherwise. *)
Definition retryDelay (network : nat -> Attempt) (j : nat) : Z :=
  match network j with
  | RateLimited _ => (5000 * Z.of_nat j)%Z
  | _ => (1000 * Z.of_nat j)%Z
  end.

(** The attempt resolved with a payload. *)
Definition responds (a : Attempt) : Prop :=
  match a with
  | Responds _ => True
  | _ => False
  end.

(** The last point of the series stamped [t] that carries a number. *)
Definition lastNumericAt (t : Z) (data : list ChartDataPoint.t)
    : option ChartDataPoint.t :=
  find (fun point =>
          ((point.(ChartDataPoint.timestamp) =? t)%Z
           && match point.(ChartDataPoint.index) with
              | Some _ => true
              | None => false
              end)%bool)
       (rev data).

(* ===================================================================== *)
(** ** Sums, means and deviations                                         *)
(* ===================================================================== *)

Section Sums.

Lemma sum_nil : Spec.sum [] = 0.
Proof. reflexivity. Qed.

Lemma sum_cons (x : R) (xs : list R) : Spec.sum (x :: xs) = x + Spec.sum xs.
Proof. reflexivity. Qed.

Ltac sum_step := cbn [map combine]; rewrite ?sum_cons, ?sum_nil.

Lemma fold_left_sum_from {A} (f : A -> R) (xs : list A) (a : R) :
  fold_left (fun sum v => sum + f v) xs a = a + Spec.sum (map f xs).
Proof.
  revert a; induction xs as [|x xs IH]; intros a; cbn [fold_left]; sum_step.
  - lra.
  - rewrite IH. lra.
Qed.

Lemma reduce_sum_spec {A} (f : A -> R) (xs : list A) :
  JS.reduce_sum f xs = Spec.sum (map f xs).
Proof.
  unfold JS.reduce_sum. rewrite fold_left_sum_from. lra.
Qed.

Lemma reduce_sum_id (xs : list R) :
  JS.reduce_sum (fun v => v) xs = Spec.sum xs.
Proof. rewrite reduce_sum_spec, map_id. reflexivity. Qed.

Lemma slice_last_spec {A} (n : nat) (xs : list A) :
  JS.slice_last n xs = Spec.lastN n xs.
Proof.
  unfold JS.slice_last, Spec.lastN.
  rewrite firstn_rev, rev_involutive. reflexivity.
Qed.



Lemma sum_map_opp (xs : list R) :
  Spec.sum (map Ropp xs) = - Spec.sum xs.
Proof.
  induction xs as [|x xs IH]; sum_step.
  - lra.
  - rewrite IH. lra.
Qed.

Lemma sum_map_ext {A} (f g : A -> R) (xs : list A) :
  (forall x, In x xs -> f x = g x) ->
  Spec.sum (map f xs) = Spec.sum (map g xs).
Proof.
  intros H. f_equal. apply map_ext_in. exact H.
Qed.

Lemma sum_squares_nonneg {A} (f : A -> R) (xs : list A) :
  0 <= Spec.sum (map (fun x => f x ^ 2) xs).
Proof.
  induction xs as [|x xs IH]; sum_step.
  - lra.
  - pose proof (pow2_ge_0 (f x)). lra.
Qed.

Lemma sum_squares_zero {A} (f : A -> R) (xs : list A) :
  Spec.sum (map (fun x => f x ^ 2) xs) = 0 ->
  forall x, In x xs -> f x = 0.
Proof.
  induction xs as [|y xs IH]; sum_step; intros H x Hin.
  - contradiction.
  - pose proof (pow2_ge_0 (f y)) as Hy.
    pose proof (sum_squares_nonneg f xs) as Hs.
    destruct Hin as [->|Hin].
    + assert (Hz : f x ^ 2 = 0) by lra.
      simpl in Hz. rewrite Rmult_1_r in Hz.
      apply Rsqr_0_uniq. exact Hz.
    + apply IH; [lra | exact Hin].
Qed.

Lemma sumSqDev_nonneg (xs : list R) : 0 <= Spec.sumSqDev xs.
Proof. unfold Spec.sumSqDev. apply (sum_squares_nonneg (fun x => x - Spec.avg xs)). Qed.



End Sums.

(* ===================================================================== *)
(** ** [calculateStats]                                                   *)
(* ===================================================================== *)

Section StatsFacts.

Lemma calculateStats_nonempty (values : list R) :
  values <> [] ->
  calculateStats values =
  {| Stats.mean := Spec.avg values;
     Stats.stdDev := JS.or (Spec.popStdDev values) 1 |}.
Proof.
  intros Hne. unfold calculateStats.
  destruct values as [|v values]; [congruence|].
  change (length (v :: values) =? 0)%nat with false. cbv iota.
  cbv zeta. rewrite reduce_sum_id, reduce_sum_spec. reflexivity.
Qed.


Lemma stdDev_positive (values : list R) :
  0 < (calculateStats values).(Stats.stdDev).
Proof.
  destruct values as [|v values].
  - simpl. lra.
  - rewrite calculateStats_nonempty by discriminate. simpl.
    unfold JS.or. destruct (Req_dec_T _ 0) as [|Hn]; [lra|].
    pose proof (sqrt_pos (Spec.sumSqDev (v :: values) / INR (length (v :: values)))) as Hs.
    fold (Spec.popStdDev (v :: values)) in Hs.
    destruct Hs as [Hs|Hs]; [exact Hs | congruence].
Qed.

End StatsFacts.



(** The zero-variance fallback on the sample of section 8. *)
Example calculateStats_constant :
  calculateStats [5; 5; 5] = {| Stats.mean := 5; Stats.stdDev := 1 |}.
Proof.
  rewrite calculateStats_nonempty by discriminate.
  assert (Hm : Spec.avg [5; 5; 5] = 5) by (unfold Spec.avg; simpl; field).
  assert (Hs : Spec.popStdDev [5; 5; 5] = 0).
  { unfold Spec.popStdDev, Spec.sumSqDev. rewrite Hm. simpl.
    replace ((5 - 5) * ((5 - 5) * 1) + ((5 - 5) * ((5 - 5) * 1) +
             ((5 - 5) * ((5 - 5) * 1) + 0))) with 0 by ring.
    unfold Rdiv. rewrite Rmult_0_l. apply sqrt_0. }
  rewrite Hm, Hs. unfold JS.or.
  destruct (Req_dec_T 0 0); [reflexivity | contradiction].
Qed.

(* ===================================================================== *)
(** ** Clamping and rounding                                              *)
(* ===================================================================== *)

Section Bounds.

Lemma clamp_bounds (lo hi x : R) :
  lo <= hi -> lo <= Rmax lo (Rmin hi x) <= hi.
Proof.
  intros H. unfold Rmax, Rmin.
  destruct (Rle_dec hi x); destruct (Rle_dec lo _); lra.
Qed.


Lemma clamp_below (lo hi x : R) :
  lo <= hi -> x <= lo -> Rmax lo (Rmin hi x) = lo.
Proof.
  intros H1 H2. unfold Rmax, Rmin.
  destruct (Rle_dec hi x); destruct (Rle_dec lo _); lra.
Qed.

(** [Math.round y] is below an integer [k] exactly when [y] is below
    [k - 1/2]. *)
Lemma round_lt_int (y : R) (k : Z) :
  JS.round y < IZR k <-> y < IZR k - / 2.
Proof.
  unfold JS.round. pose proof (Zfloor_bound (y + / 2)) as [Hlo Hhi].
  split; intros H.
  - apply lt_IZR in H.
    assert (Hk : (Zfloor (y + / 2) + 1 <= k)%Z) by lia.
    apply IZR_le in Hk. rewrite plus_IZR in Hk. lra.
  - apply IZR_lt. apply Z.lt_nge. intros Hge.
    apply IZR_le in Hge. lra.
Qed.

Lemma round2_lt_int (x : R) (t : Z) :
  Spec.round2 x < IZR t <-> x < IZR t - 5 / 1000.
Proof.
  unfold Spec.round2.
  pose proof (round_lt_int (x * 100) (t * 100)) as H.
  rewrite mult_IZR in H. split; intros Hx.
  - assert (JS.round (x * 100) < IZR t * 100) by lra. apply H in H0. lra.
  - assert (Hy : x * 100 < IZR t * 100 - / 2) by lra. apply H in Hy. lra.
Qed.

Lemma round2_bounds (x : R) :
  0 <= x <= 100 -> 0 <= Spec.round2 x <= 100.
Proof.
  intros [Hlo Hhi]. split.
  - apply Rnot_lt_le. intros H. apply (round2_lt_int x 0) in H. lra.
  - unfold Spec.round2, JS.round.
    pose proof (Zfloor_bound (x * 100 + / 2)) as [Hf _].
    assert (Hz : (Zfloor (x * 100 + / 2) < 10001)%Z) by (apply lt_IZR; lra).
    assert (Hz' : (Zfloor (x * 100 + / 2) <= 10000)%Z) by lia.
    apply IZR_le in Hz'. lra.
Qed.


End Bounds.

(* ===================================================================== *)
(** ** [calculateBTCTrend]                                                *)
(* ===================================================================== *)

Section Trend.

Lemma slice_last_length {A} (n : nat) (xs : list A) :
  length (JS.slice_last n xs) = Nat.min n (length xs).
Proof. unfold JS.slice_last. rewrite length_skipn. lia. Qed.

(** The function in the specification's vocabulary. *)
Lemma calculateBTCTrend_unfold (currentPrice : R) (historicalPrices : list R) :
  calculateBTCTrend currentPrice historicalPrices =
  if (length historicalPrices <? 2)%nat then 0
  else if Req_dec_T (Spec.avg (Spec.lastN 30 historicalPrices)) 0 then 0
  else Spec.clamp
         (10 * (Spec.avg (Spec.lastN 7 historicalPrices)
                - Spec.avg (Spec.lastN 30 historicalPrices))
          / Spec.avg (Spec.lastN 30 historicalPrices)) (-1) 1.
Proof.
  unfold calculateBTCTrend.
  destruct (length historicalPrices <? 2)%nat eqn:Hlen; [reflexivity|].
  apply Nat.ltb_ge in Hlen. cbv zeta.
  assert (H7 : (length (JS.slice_last 7 historicalPrices) =? 0)%nat = false).
  { apply Nat.eqb_neq. rewrite slice_last_length. lia. }
  assert (H30 : (length (JS.slice_last 30 historicalPrices) =? 0)%nat = false).
  { apply Nat.eqb_neq. rewrite slice_last_length. lia. }
  rewrite H7, H30. cbn [orb].
  rewrite !reduce_sum_id, !slice_last_spec.
  fold (Spec.avg (Spec.lastN 7 historicalPrices)).
  fold (Spec.avg (Spec.lastN 30 historicalPrices)).
  destruct (Req_dec_T (Spec.avg (Spec.lastN 30 historicalPrices)) 0) as [|Hm];
    [reflexivity|].
  unfold Spec.clamp. do 2 f_equal. field. exact Hm.
Qed.

End Trend.

Section TrendInBinary64.

Import PrimFloat.
Local Open Scope float_scope.

(** C6.  The docstring of [calculateBTCTrend] promises a value between -1
    and 1.  On the price history [1e308, 1e308], two finite prices, the
    sum of the window overflows to [Infinity], both averages are
    [Infinity], their difference is [NaN], and [Math.max]/[Math.min] hand
    [NaN] on: the result is [NaN], which is neither at least -1 nor at
    most 1.  This holds whatever [currentPrice] is. *)
Theorem C6_trend_is_NaN_on_overflow :
  forall currentPrice : float,
    let trend := Double.calculateBTCTrend currentPrice Overflow.history in
    Forall (fun price => is_finite price = true) Overflow.history
    /\ is_nan trend = true
    /\ (-1 <=? trend) = false
    /\ (trend <=? 1) = false.
Proof.
  intros currentPrice trend. subst trend.
  split; [repeat constructor |].
  repeat split; vm_compute; reflexivity.
Qed.

End TrendInBinary64.

(* ===================================================================== *)
(** ** [calculateBitcoinDirectionIndex]                                   *)
(* ===================================================================== *)

Section Index.

Variables (now : Z)
          (liquidity : LiquidityData.t) (liquidityHistory : list R)
          (pmi : ISMPMIData.t) (pmiHistory : list R)
          (btcPrice : BitcoinPrice.t) (btcPriceHistory : list R).

Let result :=
  calculateBitcoinDirectionIndex now liquidity liquidityHistory
    pmi pmiHistory btcPrice btcPriceHistory.




Lemma result_btcTrend :
  result.(BitcoinDirectionIndex.btcTrend) =
  calculateBTCTrend btcPrice.(BitcoinPrice.price) btcPriceHistory.
Proof. reflexivity. Qed.

Lemma result_timestamp : result.(BitcoinDirectionIndex.timestamp) = now.
Proof. reflexivity. Qed.

End Index.



Section IndexInBinary64.

Import PrimFloat.
Local Open Scope float_scope.

(** C1.  The source documents [index] as a value on a 0-100 scale and
    [btcTrend] as a value between -1 and 1.  With the finite liquidity
    history [1e308, 1e308] the mean and the standard deviation are
    [Infinity], [liquidityZScore] is [NaN], and the result carries the
    index [NaN], outside [0, 100], under the interpretation very_bullish,
    the [else] of the ladder.  With the same two values as price history
    [btcTrend] is [NaN], outside [-1, 1], and so is the index. *)
Theorem C1_index_is_NaN_on_overflow :
  forall now : Z,
    let onLiquidity := Overflow.onLiquidity now in
    let onPrices := Overflow.onPrices now in
    Forall (fun value => is_finite value = true) Overflow.history
    /\ (is_nan onLiquidity.(Double.BitcoinDirectionIndex.index) = true
        /\ (0 <=? onLiquidity.(Double.BitcoinDirectionIndex.index)) = false
        /\ (onLiquidity.(Double.BitcoinDirectionIndex.index) <=? 100) = false
        /\ onLiquidity.(Double.BitcoinDirectionIndex.interpretation)
           = very_bullish)
    /\ (is_nan onPrices.(Double.BitcoinDirectionIndex.btcTrend) = true
        /\ (-1 <=? onPrices.(Double.BitcoinDirectionIndex.btcTrend)) = false
        /\ (onPrices.(Double.BitcoinDirectionIndex.btcTrend) <=? 1) = false
        /\ is_nan onPrices.(Double.BitcoinDirectionIndex.index) = true
        /\ onPrices.(Double.BitcoinDirectionIndex.interpretation)
           = very_bullish).
Proof.
  intros now onLiquidity onPrices. subst onLiquidity onPrices.
  split; [repeat constructor |].
  repeat split; vm_compute; reflexivity.
Qed.

End IndexInBinary64.

Section EdgeFacts.





End EdgeFacts.




(* ===================================================================== *)
(** ** The clock                                                          *)
(* ===================================================================== *)

(** C7, as stated, fails: the same arguments at two clock readings give
    two different results. *)
Lemma C7_counterexample :
  calculateBitcoinDirectionIndex 0 Edge.liquidity [] Edge.pmi []
    Edge.btcPrice []
  <> calculateBitcoinDirectionIndex 1 Edge.liquidity [] Edge.pmi []
       Edge.btcPrice [].
Proof.
  intros H. apply (f_equal BitcoinDirectionIndex.timestamp) in H.
  rewrite !result_timestamp in H. discriminate.
Qed.

(** *** What a call reads and what it leaves behind *)

Section HeapFacts.

Import Heap.
Local Open Scope nat_scope.

Lemma untouched_refl (w : World) : untouched w w.
Proof. repeat split; auto. Qed.

Lemma untouched_trans (w1 w2 w3 : World) :
  untouched w1 w2 -> untouched w2 w3 -> untouched w1 w3.
Proof.
  intros (Hc1 & Hl1 & Hd1) (Hc2 & Hl2 & Hd2). repeat split.
  - congruence.
  - lia.
  - intros r Hr. rewrite Hd2 by lia. now apply Hd1.
Qed.

Lemma alloc_untouched (xs : list PrimFloat.float) (w : World) :
  untouched w (snd (alloc xs w)).
Proof.
  unfold untouched, alloc, deref; cbn. repeat split.
  - rewrite length_app; cbn; lia.
  - intros r Hr. now rewrite app_nth1.
Qed.

Lemma deref_alloc (xs : list PrimFloat.float) (w : World) :
  deref (snd (alloc xs w)) (fst (alloc xs w)) = xs.
Proof.
  unfold alloc, deref; cbn. rewrite app_nth2 by lia.
  now rewrite Nat.sub_diag.
Qed.

Lemma deref_dangling (w : World) (r : Ref) :
  length (arrays w) <= r -> deref w r = [].
Proof. intros H. unfold deref. now apply nth_overflow. Qed.

(** [calculateStats] reads its array and leaves the world as it was. *)
Lemma calculateStats_run (values : Ref) (w : World) :
  Heap.calculateStats values w = (Double.calculateStats (deref w values), w).
Proof.
  unfold Heap.calculateStats, Double.calculateStats, bind, length_, reduce, ret,
    Double.reduce_sum.
  destruct (length (deref w values) =? 0); reflexivity.
Qed.

(** [calculateBTCTrend] reads its array and adds, at most, its two
    slices to the heap. *)
Lemma calculateBTCTrend_run (currentPrice : PrimFloat.float)
    (historicalPrices : Ref) (w : World) :
  exists w',
    Heap.calculateBTCTrend currentPrice historicalPrices w
      = (Double.calculateBTCTrend currentPrice (deref w historicalPrices), w')
    /\ untouched w w'.
Proof.
  unfold Heap.calculateBTCTrend, Double.calculateBTCTrend.
  unfold bind at 1, length_ at 1.
  destruct (length (deref w historicalPrices) <? 2) eqn:Hshort.
  - exists w. split; [reflexivity | apply untouched_refl].
  - assert (Hvalid : historicalPrices < length (arrays w)).
    { destruct (Nat.lt_ge_cases historicalPrices (length (arrays w))) as [H | H];
        [exact H |].
      rewrite (deref_dangling _ _ H) in Hshort. discriminate. }
    unfold bind at 1, slice at 1.
    set (short := JS.slice_last 7 (deref w historicalPrices)).
    pose proof (alloc_untouched short w) as Hu1.
    pose proof (deref_alloc short w) as Hd1.
    assert (Hfresh : fst (alloc short w) < length (arrays (snd (alloc short w)))).
    { unfold alloc; cbn. rewrite length_app; cbn; lia. }
    destruct (alloc short w) as [shortTerm w1]. cbn [fst snd] in Hu1, Hd1, Hfresh.
    assert (Hsame : deref w1 historicalPrices = deref w historicalPrices).
    { now apply Hu1. }
    unfold bind at 1, slice at 1. rewrite Hsame.
    set (medium := JS.slice_last 30 (deref w historicalPrices)).
    pose proof (alloc_untouched medium w1) as Hu2.
    pose proof (deref_alloc medium w1) as Hd2.
    destruct (alloc medium w1) as [mediumTerm w2]. cbn [fst snd] in Hu2, Hd2.
    assert (Hshort2 : deref w2 shortTerm = short).
    { destruct Hu2 as (_ & _ & Hu2). rewrite Hu2 by assumption. exact Hd1. }
    pose proof (untouched_trans _ _ _ Hu1 Hu2) as Hu.
    exists w2. split; [| exact Hu].
    unfold bind, length_, reduce, ret, Double.reduce_sum.
    cbv beta iota zeta. rewrite Hshort2, Hd2.
    destruct ((length short =? 0) || (length medium =? 0)); [reflexivity |].
    cbv beta. rewrite Hshort2, Hd2.
    destruct (PrimFloat.eqb _ _); reflexivity.
Qed.

Lemma corrLoop_run (indexValues priceValues : Ref)
    (indexMean priceMean : PrimFloat.float) (w : World) (remaining i : nat)
    (acc : Double.CorrAcc.t) :
  corrLoop indexValues priceValues indexMean priceMean remaining i acc w
    = (fold_left
         (fun acc i =>
            Double.corrStep indexMean priceMean acc
              (Double.elementAt (deref w indexValues) i)
              (Double.elementAt (deref w priceValues) i))
         (seq i remaining) acc, w).
Proof.
  revert i acc. induction remaining as [| k IH]; intros i acc.
  - reflexivity.
  - cbn [corrLoop seq fold_left]. unfold bind at 1 2, get. now rewrite IH.
Qed.

(** [calculateCorrelation] reads its two arrays and leaves the world as
    it was. *)
Lemma calculateCorrelation_run (indexValues priceValues : Ref) (w : World) :
  Heap.calculateCorrelation indexValues priceValues w
    = (Double.calculateCorrelation (deref w indexValues) (deref w priceValues), w).
Proof.
  unfold Heap.calculateCorrelation, Double.calculateCorrelation,
    bind at 1 2, length_ at 1 2.
  destruct (negb (length (deref w indexValues) =? length (deref w priceValues))
            || (length (deref w indexValues) <? 2)).
  - reflexivity.
  - unfold bind, length_, reduce, ret, Double.reduce_sum.
    rewrite corrLoop_run.
    destruct (PrimFloat.eqb _ _); reflexivity.
Qed.

(** [calculateBitcoinDirectionIndex] reads its three arrays and the
    clock, and adds, at most, new arrays to the heap. *)
Lemma calculateBitcoinDirectionIndex_run
    (liquidity : Double.LiquidityData.t) (liquidityHistory : Ref)
    (pmi : Double.ISMPMIData.t) (pmiHistory : Ref)
    (btcPrice : Double.BitcoinPrice.t) (btcPriceHistory : Ref) (w : World) :
  btcPriceHistory < length (arrays w) ->
  exists w',
    Heap.calculateBitcoinDirectionIndex liquidity liquidityHistory
      pmi pmiHistory btcPrice btcPriceHistory w
      = (Double.calculateBitcoinDirectionIndex (clock w)
           liquidity (deref w liquidityHistory) pmi (deref w pmiHistory)
           btcPrice (deref w btcPriceHistory), w')
    /\ untouched w w'.
Proof.
  intros Hvalid.
  unfold Heap.calculateBitcoinDirectionIndex, Double.calculateBitcoinDirectionIndex.
  unfold bind at 1. rewrite calculateStats_run.
  unfold bind at 1, map.
  set (recentred := List.map _ (deref w pmiHistory)).
  pose proof (alloc_untouched recentred w) as Hu1.
  pose proof (deref_alloc recentred w) as Hd1.
  destruct (alloc recentred w) as [r w1]. cbn [fst snd] in Hu1, Hd1.
  unfold bind at 1. rewrite calculateStats_run, Hd1.
  unfold bind at 1.
  destruct (calculateBTCTrend_run (Double.BitcoinPrice.price btcPrice)
              btcPriceHistory w1) as (w2 & -> & Hu2).
  assert (Hsame : deref w1 btcPriceHistory = deref w btcPriceHistory).
  { now apply Hu1. }
  rewrite Hsame.
  pose proof (untouched_trans _ _ _ Hu1 Hu2) as Hu.
  exists w2. split; [| exact Hu].
  unfold bind, Date_now, ret.
  destruct Hu as (-> & _). reflexivity.
Qed.

End HeapFacts.

(** For contrast, a built-in that writes: after [fill] the array is not
    what it was. *)
Example fill_touches_its_array :
  ~ Heap.untouched Worlds.earlier
      (snd (Heap.fill 0%nat PrimFloat.zero Worlds.earlier)).
Proof.
  intros (_ & _ & H). specialize (H 0%nat ltac:(cbn; lia)).
  apply (f_equal (fun xs => match xs with
                            | x :: _ => PrimFloat.eqb x PrimFloat.zero
                            | [] => false
                            end)) in H.
  vm_compute in H. discriminate H.
Qed.

(** C7, amended.  A call of a core operation changes nothing that existed
    before it: every array of the heap holds what it held and the clock
    reads the same; at most new arrays (the two slices, the recentred PMI
    history) are added.  What a call returns depends on the contents of
    the arrays it is given and on nothing else in the world, except that
    [calculateBitcoinDirectionIndex] also reads the clock: two invocations
    with identical arguments, in any two worlds, agree on [index],
    [liquidityZScore], [pmiZScore], [btcTrend] and [interpretation], and
    [timestamp] is the clock reading of each invocation; two invocations
    of [calculateStats], [calculateBTCTrend] or [calculateCorrelation] with
    identical arguments return identical results. *)
Theorem C7_pure_up_to_clock :
  forall (w1 w2 : Heap.World)
         (liquidity : Double.LiquidityData.t) (pmi : Double.ISMPMIData.t)
         (btcPrice : Double.BitcoinPrice.t) (currentPrice : PrimFloat.float)
         (liquidityHistory pmiHistory btcPriceHistory : Heap.Ref)
         (values historicalPrices indexValues priceValues : Heap.Ref),
    Heap.sameArray w1 w2 liquidityHistory ->
    Heap.sameArray w1 w2 pmiHistory ->
    Heap.sameArray w1 w2 btcPriceHistory ->
    Heap.sameArray w1 w2 values ->
    Heap.sameArray w1 w2 historicalPrices ->
    Heap.sameArray w1 w2 indexValues ->
    Heap.sameArray w1 w2 priceValues ->
    let index :=
      Heap.calculateBitcoinDirectionIndex liquidity liquidityHistory
        pmi pmiHistory btcPrice btcPriceHistory in
    let stats := Heap.calculateStats values in
    let trend := Heap.calculateBTCTrend currentPrice historicalPrices in
    let correlation := Heap.calculateCorrelation indexValues priceValues in
    ((fst (index w1)).(Double.BitcoinDirectionIndex.index)
       = (fst (index w2)).(Double.BitcoinDirectionIndex.index)
     /\ (fst (index w1)).(Double.BitcoinDirectionIndex.liquidityZScore)
        = (fst (index w2)).(Double.BitcoinDirectionIndex.liquidityZScore)
     /\ (fst (index w1)).(Double.BitcoinDirectionIndex.pmiZScore)
        = (fst (index w2)).(Double.BitcoinDirectionIndex.pmiZScore)
     /\ (fst (index w1)).(Double.BitcoinDirectionIndex.btcTrend)
        = (fst (index w2)).(Double.BitcoinDirectionIndex.btcTrend)
     /\ (fst (index w1)).(Double.BitcoinDirectionIndex.interpretation)
        = (fst (index w2)).(Double.BitcoinDirectionIndex.interpretation)
     /\ (fst (index w1)).(Double.BitcoinDirectionIndex.timestamp)
        = w1.(Heap.clock)
     /\ (fst (index w2)).(Double.BitcoinDirectionIndex.timestamp)
        = w2.(Heap.clock))
    /\ fst (stats w1) = fst (stats w2)
    /\ fst (trend w1) = fst (trend w2)
    /\ fst (correlation w1) = fst (correlation w2)
    /\ Heap.untouched w1 (snd (index w1))
    /\ Heap.untouched w1 (snd (stats w1))
    /\ Heap.untouched w1 (snd (trend w1))
    /\ Heap.untouched w1 (snd (correlation w1)).
Proof.
  intros w1 w2 liquidity pmi btcPrice currentPrice
         liquidityHistory pmiHistory btcPriceHistory
         values historicalPrices indexValues priceValues
         (_ & _ & Hl) (_ & _ & Hp) (Hb1 & Hb2 & Hb) (_ & _ & Hv) (_ & _ & Hh)
         (_ & _ & Hi) (_ & _ & Hq) index stats trend correlation.
  subst index stats trend correlation.
  destruct (calculateBitcoinDirectionIndex_run liquidity liquidityHistory
              pmi pmiHistory btcPrice btcPriceHistory w1 Hb1) as (w1' & -> & U1).
  destruct (calculateBitcoinDirectionIndex_run liquidity liquidityHistory
              pmi pmiHistory btcPrice btcPriceHistory w2 Hb2) as (w2' & -> & _).
  destruct (calculateBTCTrend_run currentPrice historicalPrices w1)
    as (v1 & -> & UT).
  destruct (calculateBTCTrend_run currentPrice historicalPrices w2)
    as (v2 & -> & _).
  rewrite !calculateStats_run, !calculateCorrelation_run.
  rewrite Hl, Hp, Hb, Hv, Hh, Hi, Hq. cbn [fst snd].
  split; [repeat split |].
  split; [reflexivity |]. split; [reflexivity |]. split; [reflexivity |].
  split; [exact U1 |]. split; [apply untouched_refl |].
  split; [exact UT | apply untouched_refl].
Qed.

(** The two worlds of [Worlds]: the liquidity and price histories behind
    reference 0, the PMI history behind reference 1. *)
Lemma C7_pure_up_to_clock_witness :
  Heap.sameArray Worlds.earlier Worlds.later 0%nat
  /\ Heap.sameArray Worlds.earlier Worlds.later 1%nat
  /\ (fst (Heap.calculateBitcoinDirectionIndex Overflow.liquidity 0%nat
             Overflow.pmi 1%nat Overflow.btcPrice 0%nat Worlds.earlier))
       .(Double.BitcoinDirectionIndex.index)
     = (fst (Heap.calculateBitcoinDirectionIndex Overflow.liquidity 0%nat
               Overflow.pmi 1%nat Overflow.btcPrice 0%nat Worlds.later))
         .(Double.BitcoinDirectionIndex.index)
  /\ (fst (Heap.calculateBitcoinDirectionIndex Overflow.liquidity 0%nat
             Overflow.pmi 1%nat Overflow.btcPrice 0%nat Worlds.earlier))
       .(Double.BitcoinDirectionIndex.timestamp) = 1704067200000%Z
  /\ (fst (Heap.calculateBitcoinDirectionIndex Overflow.liquidity 0%nat
             Overflow.pmi 1%nat Overflow.btcPrice 0%nat Worlds.later))
       .(Double.BitcoinDirectionIndex.timestamp) = 1704067200001%Z
  /\ Heap.untouched Worlds.earlier
       (snd (Heap.calculateBitcoinDirectionIndex Overflow.liquidity 0%nat
               Overflow.pmi 1%nat Overflow.btcPrice 0%nat Worlds.earlier)).
Proof.
  assert (H0 : Heap.sameArray Worlds.earlier Worlds.later 0%nat).
  { unfold Heap.sameArray. cbn. split; [lia | split; [lia | reflexivity]]. }
  assert (H1 : Heap.sameArray Worlds.earlier Worlds.later 1%nat).
  { unfold Heap.sameArray. cbn. split; [lia | split; [lia | reflexivity]]. }
  split; [exact H0 |]. split; [exact H1 |].
  pose proof (C7_pure_up_to_clock Worlds.earlier Worlds.later
                Overflow.liquidity Overflow.pmi Overflow.btcPrice
                Overflow.btcPrice.(Double.BitcoinPrice.price)
                0%nat 1%nat 0%nat 0%nat 0%nat 0%nat 1%nat
                H0 H1 H0 H0 H0 H0 H1) as H.
  cbv zeta in H.
  destruct H as ((Hindex & _ & _ & _ & _ & Ht1 & Ht2) & _ & _ & _ & Hu & _).
  split; [exact Hindex |]. split; [exact Ht1 |]. split; [exact Ht2 | exact Hu].
Defined.

(* ===================================================================== *)
(** ** The PMI recentering                                                *)
(* ===================================================================== *)

Section Recentering.





End Recentering.

Section RecenteringInBinary64.

Import PrimFloat.
Local Open Scope float_scope.


End RecenteringInBinary64.



(* ===================================================================== *)
(** ** [calculateCorrelation]                                             *)
(* ===================================================================== *)

Section Correlation.

Variables indexMean priceMean : R.

(** Reading positions [k+1 ..] of [x :: xs] is reading positions [k ..] of
    [xs]. *)
Lemma corr_loop_shift (x y : R) (xs ys : list R) (n k : nat) (acc : CorrAcc.t) :
  fold_left (corrBody (x :: xs) (y :: ys) indexMean priceMean)
            (seq (S k) n) acc
  = fold_left (corrBody xs ys indexMean priceMean) (seq k n) acc.
Proof.
  revert k acc. induction n as [|n IH]; intros k acc.
  - reflexivity.
  - cbn [seq fold_left]. rewrite IH. reflexivity.
Qed.

(** What the loop has accumulated when it ends. *)
Lemma corr_loop_sums (xs ys : list R) (acc : CorrAcc.t) :
  length xs = length ys ->
  fold_left (corrBody xs ys indexMean priceMean) (seq 0 (length xs)) acc
  = {| CorrAcc.numerator :=
         acc.(CorrAcc.numerator) +
         Spec.sum (map (fun xy => (fst xy - indexMean) * (snd xy - priceMean))
                       (combine xs ys));
       CorrAcc.indexVariance :=
         acc.(CorrAcc.indexVariance) +
         Spec.sum (map (fun x => (x - indexMean) ^ 2) xs);
       CorrAcc.priceVariance :=
         acc.(CorrAcc.priceVariance) +
         Spec.sum (map (fun y => (y - priceMean) ^ 2) ys) |}.
Proof.
  revert ys acc. induction xs as [|x xs IH]; intros [|y ys] acc Hlen;
    try discriminate.
  - destruct acc. cbn. f_equal; lra.
  - cbn [length seq fold_left]. rewrite corr_loop_shift.
    rewrite IH by (simpl in Hlen; lia).
    unfold corrBody. cbn [nth CorrAcc.numerator CorrAcc.indexVariance
                          CorrAcc.priceVariance map combine fst snd].
    rewrite !sum_cons. f_equal; ring.
Qed.

End Correlation.

Section CorrelationFacts.

(** The function in the specification's vocabulary. *)
Lemma calculateCorrelation_unfold (xs ys : list R) :
  calculateCorrelation xs ys =
  if (negb (length xs =? length ys)%nat || (length xs <? 2)%nat)%bool then 0
  else if Req_dec_T (Spec.pearsonDenominator xs ys) 0 then 0
  else Spec.sumProdDev xs ys / Spec.pearsonDenominator xs ys.
Proof.
  unfold calculateCorrelation.
  destruct (length xs =? length ys)%nat eqn:Hlen; [|reflexivity].
  apply Nat.eqb_eq in Hlen. cbn [negb orb].
  destruct (length xs <? 2)%nat; [reflexivity|].
  cbv zeta. rewrite (corr_loop_sums _ _ xs ys _ Hlen).
  cbn [CorrAcc.numerator CorrAcc.indexVariance CorrAcc.priceVariance].
  rewrite !reduce_sum_id, !Rplus_0_l.
  unfold Spec.pearsonDenominator, Spec.sumProdDev, Spec.sumSqDev, Spec.avg.
  rewrite <- Hlen. reflexivity.
Qed.

Lemma combine_diag {A B} (f : A -> B) (xs : list A) :
  combine xs (map f xs) = map (fun x => (x, f x)) xs.
Proof.
  induction xs as [|x xs IH]; [reflexivity|]. cbn [map combine].
  rewrite IH. reflexivity.
Qed.

Lemma avg_opp (xs : list R) : Spec.avg (map Ropp xs) = - Spec.avg xs.
Proof.
  unfold Spec.avg. rewrite sum_map_opp, length_map.
  unfold Rdiv. ring.
Qed.

Lemma sumSqDev_opp (xs : list R) :
  Spec.sumSqDev (map Ropp xs) = Spec.sumSqDev xs.
Proof.
  unfold Spec.sumSqDev. rewrite avg_opp, map_map.
  apply sum_map_ext. intros x _. ring.
Qed.

Lemma sumProdDev_self (xs : list R) :
  Spec.sumProdDev xs xs = Spec.sumSqDev xs.
Proof.
  unfold Spec.sumProdDev, Spec.sumSqDev.
  rewrite <- (map_id xs) at 2. rewrite combine_diag, map_map.
  apply sum_map_ext. intros x _. cbn [fst snd]. ring.
Qed.

Lemma sumProdDev_opp (xs : list R) :
  Spec.sumProdDev xs (map Ropp xs) = - Spec.sumSqDev xs.
Proof.
  unfold Spec.sumProdDev, Spec.sumSqDev.
  rewrite combine_diag, map_map, avg_opp, <- sum_map_opp, map_map.
  apply sum_map_ext. intros x _. cbn [fst snd]. ring.
Qed.

(** A sample with two different values has a positive sum of squared
    deviations. *)
Lemma sumSqDev_positive (xs : list R) :
  (exists x y, In x xs /\ In y xs /\ x <> y) -> 0 < Spec.sumSqDev xs.
Proof.
  intros (x & y & Hx & Hy & Hneq).
  destruct (sumSqDev_nonneg xs) as [Hpos|Hzero]; [exact Hpos|].
  exfalso. apply Hneq.
  pose proof (sum_squares_zero (fun v => v - Spec.avg xs) xs (eq_sym Hzero)) as H.
  pose proof (H x Hx). pose proof (H y Hy). cbv beta in *. lra.
Qed.

End CorrelationFacts.



(** C9.  For a sequence of at least two values that are not all equal,
    the correlation with itself is 1 and the correlation with its negation
    is -1; for sequences of different lengths it is 0. *)
Theorem C9_correlation_self_and_negation :
  (forall xs : list R,
     (2 <= length xs)%nat ->
     (exists x y, In x xs /\ In y xs /\ x <> y) ->
     calculateCorrelation xs xs = 1
     /\ calculateCorrelation xs (map Ropp xs) = -1)
  /\ (forall xs ys : list R,
        length xs <> length ys -> calculateCorrelation xs ys = 0).
Proof.
  split.
  - intros xs Hlen Hnc.
    pose proof (sumSqDev_positive xs Hnc) as Hpos.
    apply Nat.ltb_ge in Hlen.
    assert (Hden : sqrt (Spec.sumSqDev xs * Spec.sumSqDev xs) = Spec.sumSqDev xs)
      by (apply sqrt_square; lra).
    split; rewrite calculateCorrelation_unfold.
    + rewrite Nat.eqb_refl, Hlen. cbn [negb orb].
      unfold Spec.pearsonDenominator. rewrite Hden, sumProdDev_self.
      destruct (Req_dec_T _ 0); [lra | field; lra].
    + rewrite length_map, Nat.eqb_refl, Hlen. cbn [negb orb].
      unfold Spec.pearsonDenominator.
      rewrite sumSqDev_opp, Hden, sumProdDev_opp.
      destruct (Req_dec_T _ 0); [lra | field; lra].
  - intros xs ys Hlen. rewrite calculateCorrelation_unfold.
    apply Nat.eqb_neq in Hlen. rewrite Hlen. reflexivity.
Qed.

Lemma C9_correlation_self_and_negation_witness :
  calculateCorrelation [1; 2; 4] [1; 2; 4] = 1
  /\ calculateCorrelation [1; 2; 4] (map Ropp [1; 2; 4]) = -1
  /\ calculateCorrelation [1; 2; 4] [1; 2] = 0.
Proof.
  destruct (proj1 C9_correlation_self_and_negation [1; 2; 4]) as [H1 H2].
  - simpl. lia.
  - exists 1, 2. simpl. repeat split; [tauto | tauto | lra].
  - split; [exact H1|]. split; [exact H2|].
    apply (proj2 C9_correlation_self_and_negation [1; 2; 4] [1; 2]).
    simpl. lia.
Defined.

(* ===================================================================== *)
(** ** The forward-fill lookups of the index-history loop                 *)
(* ===================================================================== *)

Section ForwardFill.

Variable dateStr : string.

Let hit (e : Entry) : bool := JS.str_le (fst e) dateStr.

(** The two loops, cut at [remaining], are a search through the first
    [remaining] entries taken from the last one down. *)
Lemma liquidityLoop_find (entries : list Entry) (remaining : nat) :
  (remaining <= length entries)%nat ->
  liquidityLoop entries dateStr remaining =
  match find hit (rev (firstn remaining entries)) with
  | Some e => (snd e, fst e)
  | None => (0, EmptyString)
  end.
Proof.
  induction remaining as [|i IH]; intros Hle.
  - reflexivity.
  - rewrite <- (firstn_skipn i entries) at 2.
    assert (Hi : length (firstn i entries) = i) by (rewrite length_firstn; lia).
    destruct (skipn i entries) as [|e rest] eqn:Hskip.
    { apply (f_equal (@length Entry)) in Hskip.
      rewrite length_skipn in Hskip. simpl in Hskip. lia. }
    rewrite firstn_app, Hi, firstn_all2 by lia.
    replace (S i - i)%nat with 1%nat by lia. cbn [firstn].
    rewrite rev_app_distr. cbn [rev app find].
    cbn [liquidityLoop].
    assert (Hnth : nth i entries (EmptyString, 0) = e).
    { rewrite <- (firstn_skipn i entries), Hskip.
      rewrite app_nth2 by lia. rewrite Hi, Nat.sub_diag. reflexivity. }
    rewrite Hnth. destruct e as [date value]. unfold hit. cbn [fst snd].
    destruct (JS.str_le date dateStr); [reflexivity|].
    apply IH. lia.
Qed.

Lemma pmiLoop_find (entries : list Entry) (remaining : nat) :
  (remaining <= length entries)%nat ->
  pmiLoop entries dateStr remaining =
  match find hit (rev (firstn remaining entries)) with
  | Some e => snd e
  | None => 50
  end.
Proof.
  induction remaining as [|i IH]; intros Hle.
  - reflexivity.
  - rewrite <- (firstn_skipn i entries) at 2.
    assert (Hi : length (firstn i entries) = i) by (rewrite length_firstn; lia).
    destruct (skipn i entries) as [|e rest] eqn:Hskip.
    { apply (f_equal (@length Entry)) in Hskip.
      rewrite length_skipn in Hskip. simpl in Hskip. lia. }
    rewrite firstn_app, Hi, firstn_all2 by lia.
    replace (S i - i)%nat with 1%nat by lia. cbn [firstn].
    rewrite rev_app_distr. cbn [rev app find].
    cbn [pmiLoop].
    assert (Hnth : nth i entries (EmptyString, 0) = e).
    { rewrite <- (firstn_skipn i entries), Hskip.
      rewrite app_nth2 by lia. rewrite Hi, Nat.sub_diag. reflexivity. }
    rewrite Hnth. destruct e as [date value]. unfold hit. cbn [fst snd].
    destruct (JS.str_le date dateStr); [reflexivity|].
    apply IH. lia.
Qed.

(** Both loops refine the forward-fill join of the specification. *)
Lemma liquidityLoop_forwardFill (entries : list Entry) :
  liquidityLoop entries dateStr (length entries) =
  match Spec.forwardFill entries dateStr with
  | Some e => (snd e, fst e)
  | None => (0, EmptyString)
  end.
Proof.
  rewrite liquidityLoop_find by lia. rewrite firstn_all. reflexivity.
Qed.

Lemma pmiLoop_forwardFill (entries : list Entry) :
  pmiLoop entries dateStr (length entries) =
  match Spec.forwardFill entries dateStr with
  | Some e => snd e
  | None => 50
  end.
Proof.
  rewrite pmiLoop_find by lia. rewrite firstn_all. reflexivity.
Qed.

(** The join finds [e] exactly when [e] is at or before the target and
    every entry after it in the series is past the target. *)
Lemma forwardFill_split (older newer : list Entry) (e : Entry) :
  hit e = true ->
  (forall e', In e' newer -> hit e' = false) ->
  Spec.forwardFill (older ++ e :: newer) dateStr = Some e.
Proof.
  intros He Hnewer. unfold Spec.forwardFill, hit in *.
  rewrite rev_app_distr. cbn [rev]. rewrite <- app_assoc. cbn [app].
  assert (Hrev : forall e', In e' (rev newer) ->
                        JS.str_le (fst e') dateStr = false).
  { intros e' Hin. apply Hnewer. apply in_rev. exact Hin. }
  induction (rev newer) as [|n ns IH]; cbn [app find].
  - rewrite He. reflexivity.
  - rewrite (Hrev n (or_introl eq_refl)). apply IH.
    intros e' Hin. apply Hrev. right. exact Hin.
Qed.

Lemma forwardFill_none (entries : list Entry) :
  (forall e, In e entries -> hit e = false) ->
  Spec.forwardFill entries dateStr = None.
Proof.
  intros Hall. unfold Spec.forwardFill, hit in *.
  destruct (find (fun e => JS.str_le (fst e) dateStr) (rev entries))
    as [e|] eqn:Hfind; [|reflexivity].
  apply find_some in Hfind as [Hin He].
  apply in_rev in Hin. rewrite (Hall e Hin) in He. discriminate.
Qed.

(** Every series is in one of the two cases. *)
Lemma forwardFill_cases (entries : list Entry) :
  (exists older e newer,
     entries = older ++ e :: newer /\ hit e = true
     /\ forall e', In e' newer -> hit e' = false)
  \/ (forall e, In e entries -> hit e = false).
Proof.
  induction entries as [|a entries IH].
  - right. intros e [].
  - destruct IH as [(older & e & newer & -> & He & Hnewer)|Hall].
    + left. exists (a :: older), e, newer. repeat split; assumption.
    + destruct (hit a) eqn:Ha.
      * left. exists [], a, entries. repeat split; assumption.
      * right. intros e [<-|Hin]; [exact Ha | apply Hall; exact Hin].
Qed.

End ForwardFill.

(** A liquidity lookup that comes back empty-handed skips the point. *)
Lemma historyStep_skips (now : Z)
    (fedData tgaData rrpData : list FREDData.t)
    (liquidityEntries pmiEntries : list Entry)
    (liquidityHistory pmiHistoryValues : list R)
    (btcPriceHistory : list PricePoint.t) (btcPoint : PricePoint.t) :
  liquidityLoop liquidityEntries btcPoint.(PricePoint.date)
                (length liquidityEntries) = (0, EmptyString) ->
  historyStep now fedData tgaData rrpData liquidityEntries pmiEntries
    liquidityHistory pmiHistoryValues btcPriceHistory btcPoint = None.
Proof.
  intros Hloop. unfold historyStep. cbv zeta. rewrite Hloop.
  destruct (length _ <? 2)%nat; reflexivity.
Qed.

(** C4.  Forward-fill join.  Both lookups of the index-history loop return
    the first entry, going from the most recent to the oldest, that is
    dated at or before the target; when no entry is, the PMI lookup yields
    the default 50 and the liquidity lookup yields no date, so the point
    is skipped.  Every series is in one of these two cases.  On
    [2024-01-01 -> A, 2024-02-01 -> B], the target 2024-01-15 gives A,
    2023-12-01 gives nothing and 2024-03-01 gives B. *)
Theorem C4_forward_fill_join :
  (forall (entries : list Entry) (dateStr : string),
     (forall older e newer,
        entries = older ++ e :: newer ->
        JS.str_le (fst e) dateStr = true ->
        (forall e', In e' newer -> JS.str_le (fst e') dateStr = false) ->
        Spec.forwardFill entries dateStr = Some e
        /\ liquidityLoop entries dateStr (length entries) = (snd e, fst e)
        /\ pmiLoop entries dateStr (length entries) = snd e)
     /\ ((forall e, In e entries -> JS.str_le (fst e) dateStr = false) ->
         Spec.forwardFill entries dateStr = None
         /\ liquidityLoop entries dateStr (length entries) = (0, EmptyString)
         /\ pmiLoop entries dateStr (length entries) = 50
         /\ forall now fedData tgaData rrpData pmiEntries liquidityHistory
                   pmiHistoryValues btcPriceHistory btcPoint,
              btcPoint.(PricePoint.date) = dateStr ->
              historyStep now fedData tgaData rrpData entries pmiEntries
                liquidityHistory pmiHistoryValues btcPriceHistory btcPoint
              = None)
     /\ ((exists older e newer,
            entries = older ++ e :: newer
            /\ JS.str_le (fst e) dateStr = true
            /\ forall e', In e' newer -> JS.str_le (fst e') dateStr = false)
         \/ (forall e, In e entries -> JS.str_le (fst e) dateStr = false)))
  /\ (forall A B : R,
        let series : list Entry :=
          [("2024-01-01"%string, A); ("2024-02-01"%string, B)] in
        pmiLoop series "2024-01-15" (length series) = A
        /\ liquidityLoop series "2024-01-15" (length series)
           = (A, "2024-01-01"%string)
        /\ Spec.forwardFill series "2023-12-01" = None
        /\ pmiLoop series "2023-12-01" (length series) = 50
        /\ liquidityLoop series "2023-12-01" (length series)
           = (0, EmptyString)
        /\ pmiLoop series "2024-03-01" (length series) = B
        /\ liquidityLoop series "2024-03-01" (length series)
           = (B, "2024-02-01"%string)).
Proof.
  split.
  - intros entries dateStr. split; [|split].
    + intros older e newer -> He Hnewer.
      rewrite liquidityLoop_forwardFill, pmiLoop_forwardFill.
      rewrite (forwardFill_split dateStr older newer e He Hnewer).
      repeat split.
    + intros Hall.
      assert (Hliq : liquidityLoop entries dateStr (length entries)
                     = (0, EmptyString)).
      { rewrite liquidityLoop_forwardFill.
        rewrite (forwardFill_none dateStr entries Hall). reflexivity. }
      rewrite pmiLoop_forwardFill.
      rewrite (forwardFill_none dateStr entries Hall).
      repeat split; try assumption.
      intros. apply historyStep_skips. subst dateStr. exact Hliq.
    + apply forwardFill_cases.
  - intros A B series. subst series. repeat split.
Qed.

Lemma C4_forward_fill_join_witness :
  pmiLoop [("2024-01-01"%string, 1); ("2024-02-01"%string, 2)]
          "2024-01-15" 2 = 1
  /\ pmiLoop [("2024-01-01"%string, 1); ("2024-02-01"%string, 2)]
             "2023-12-01" 2 = 50.
Proof.
  split.
  - apply (proj1 (proj1 C4_forward_fill_join
             [("2024-01-01"%string, 1); ("2024-02-01"%string, 2)]
             "2024-01-15"%string)
             [] ("2024-01-01"%string, 1) [("2024-02-01"%string, 2)]).
    + reflexivity.
    + reflexivity.
    + intros e' [<-|[]]. reflexivity.
  - apply (proj1 (proj2 (proj1 C4_forward_fill_join
             [("2024-01-01"%string, 1); ("2024-02-01"%string, 2)]
             "2023-12-01"%string))).
    intros e [<-|[<-|[]]]; reflexivity.
Defined.

(* ===================================================================== *)
(** ** The chart's merge of prices and index values                       *)
(* ===================================================================== *)

Section MapFacts.

Lemma mapGet_mapSet (k k' : Z) (v : IndexEntry.t) (m : IndexMap) :
  mapGet k' (mapSet k v m) = if (k =? k')%Z then Some v else mapGet k' m.
Proof.
  induction m as [|[k0 v0] m IH]; cbn [mapSet mapGet].
  - reflexivity.
  - destruct (k0 =? k)%Z eqn:H0; cbn [mapGet].
    + apply Z.eqb_eq in H0. subst k0.
      destruct (k =? k')%Z; reflexivity.
    + destruct (k0 =? k')%Z eqn:H1.
      * apply Z.eqb_eq in H1. subst k0.
        rewrite Z.eqb_sym in H0. rewrite H0. reflexivity.
      * exact IH.
Qed.

Lemma In_mapSet (k k' : Z) (v v' : IndexEntry.t) (m : IndexMap) :
  In (k', v') (mapSet k v m) -> (k', v') = (k, v) \/ In (k', v') m.
Proof.
  induction m as [|[k0 v0] m IH]; cbn [mapSet].
  - intros [H|[]]. left. symmetry. exact H.
  - destruct (k0 =? k)%Z.
    + intros [H|H]; [left; symmetry; exact H | right; right; exact H].
    + intros [H|H]; [right; left; exact H|].
      destruct (IH H) as [H'|H']; [left; exact H' | right; right; exact H'].
Qed.

Lemma mapGet_In (k : Z) (v : IndexEntry.t) (m : IndexMap) :
  mapGet k m = Some v -> In (k, v) m.
Proof.
  induction m as [|[k0 v0] m IH]; cbn [mapGet]; [discriminate|].
  destruct (k0 =? k)%Z eqn:H0.
  - apply Z.eqb_eq in H0. intros [= ->]. left. subst. reflexivity.
  - intros H. right. apply IH. exact H.
Qed.

Lemma In_mapGet (k : Z) (v : IndexEntry.t) (m : IndexMap) :
  In (k, v) m -> exists v', mapGet k m = Some v'.
Proof.
  induction m as [|[k0 v0] m IH]; [intros []|].
  intros [H|H]; cbn [mapGet].
  - injection H as -> ->. rewrite Z.eqb_refl. eexists. reflexivity.
  - destruct (k0 =? k)%Z; [eexists; reflexivity | apply IH; exact H].
Qed.

Lemma buildIndexMap_fold (data : list ChartDataPoint.t) :
  buildIndexMap (Some data) = fold_left storeIndexPoint data [].
Proof. destruct data; reflexivity. Qed.

(** Every stored entry comes from a numeric point of the series. *)
Lemma store_sound (data : list ChartDataPoint.t) (m : IndexMap) (t : Z)
    (e : IndexEntry.t) :
  In (t, e) (fold_left storeIndexPoint data m) ->
  In (t, e) m
  \/ exists point, In point data
       /\ point.(ChartDataPoint.timestamp) = t
       /\ point.(ChartDataPoint.index) = Some e.(IndexEntry.index).
Proof.
  revert m. induction data as [|p data IH]; intros m; cbn [fold_left].
  - intros H. left. exact H.
  - intros H. destruct (IH _ H) as [Hin|(point & Hp & Ht & Hi)].
    + unfold storeIndexPoint in Hin.
      destruct (ChartDataPoint.index p) as [i|] eqn:Hidx.
      * apply In_mapSet in Hin as [Heq|Hin]; [|left; exact Hin].
        injection Heq as -> ->. right. exists p.
        repeat split; [left; reflexivity | exact Hidx].
      * left. exact Hin.
    + right. exists point. repeat split; [right; exact Hp | exact Ht | exact Hi].
Qed.

(** Every numeric point of the series has its timestamp among the keys,
    and no key is ever removed. *)
Lemma store_keeps (data : list ChartDataPoint.t) (m : IndexMap) (t : Z) :
  (exists e, mapGet t m = Some e) ->
  exists e, mapGet t (fold_left storeIndexPoint data m) = Some e.
Proof.
  revert m. induction data as [|p data IH]; intros m; cbn [fold_left].
  - intros H. exact H.
  - intros [e He]. apply IH. unfold storeIndexPoint.
    destruct (ChartDataPoint.index p) as [i|]; [|exists e; exact He].
    rewrite mapGet_mapSet.
    destruct (_ =? t)%Z; eexists; [reflexivity | exact He].
Qed.

Lemma store_complete (data : list ChartDataPoint.t) (m : IndexMap)
    (point : ChartDataPoint.t) (v : R) :
  In point data -> point.(ChartDataPoint.index) = Some v ->
  exists e,
    mapGet point.(ChartDataPoint.timestamp) (fold_left storeIndexPoint data m)
    = Some e.
Proof.
  revert m. induction data as [|p data IH]; intros m; [intros []|].
  intros [->|Hin] Hidx; cbn [fold_left].
  - apply store_keeps. unfold storeIndexPoint. rewrite Hidx.
    rewrite mapGet_mapSet, Z.eqb_refl. eexists. reflexivity.
  - apply IH; assumption.
Qed.

Variable indexData : option (list ChartDataPoint.t).

Lemma indexMap_sound (t : Z) (e : IndexEntry.t) :
  In (t, e) (buildIndexMap indexData) ->
  Spec.observed indexData t e.(IndexEntry.index).
Proof.
  destruct indexData as [data|]; [|intros []].
  rewrite buildIndexMap_fold. intros H.
  apply store_sound in H as [[]|(point & Hp & Ht & Hi)].
  exists data, point. repeat split; assumption.
Qed.

Lemma indexMap_complete (t : Z) (v : R) :
  Spec.observed indexData t v ->
  exists e, In (t, e) (buildIndexMap indexData).
Proof.
  intros (data & point & -> & Hin & <- & Hidx).
  rewrite buildIndexMap_fold.
  destruct (store_complete data [] point v Hin Hidx) as [e He].
  exists e. apply mapGet_In. exact He.
Qed.

End MapFacts.

Section ClosestLoop.

Variable btcTimestamp : Z.

Let dist (t : Z) : Z := Z.abs (btcTimestamp - t).

Lemma closestBody_inv (seen : IndexMap) (acc : Closest.t)
    (entry : Z * IndexEntry.t) :
  closestInv btcTimestamp seen acc ->
  closestInv btcTimestamp (seen ++ [entry]) (closestBody btcTimestamp acc entry).
Proof.
  destruct entry as [t0 e0]. destruct acc as [[d|] [v|]];
    unfold closestInv, closestBody, Spec.tolerance, dist;
    cbn [Closest.closestDiff Closest.closestIndex]; try contradiction.
  - intros (Hd & (t & e & Hin & Ht & He) & Hmin).
    destruct (Z.abs (btcTimestamp - t0) <? 86400000)%Z eqn:Htol;
      [destruct (Z.abs (btcTimestamp - t0) <? d)%Z eqn:Hlt|];
      cbn [andb Closest.closestDiff Closest.closestIndex].
    + apply Z.ltb_lt in Htol, Hlt. split; [exact Htol|]. split.
      * exists t0, e0. split; [apply in_or_app; right; left; reflexivity|].
        split; reflexivity.
      * intros t' e' Hin'. apply in_app_or in Hin' as [Hin'|[Heq|[]]].
        -- specialize (Hmin t' e' Hin'). lia.
        -- injection Heq as <- <-. lia.
    + apply Z.ltb_ge in Hlt. split; [exact Hd|]. split.
      * exists t, e. split; [apply in_or_app; left; exact Hin|].
        split; assumption.
      * intros t' e' Hin'. apply in_app_or in Hin' as [Hin'|[Heq|[]]].
        -- apply (Hmin t' e' Hin').
        -- injection Heq as <- <-. exact Hlt.
    + apply Z.ltb_ge in Htol. split; [exact Hd|]. split.
      * exists t, e. split; [apply in_or_app; left; exact Hin|].
        split; assumption.
      * intros t' e' Hin'. apply in_app_or in Hin' as [Hin'|[Heq|[]]].
        -- apply (Hmin t' e' Hin').
        -- injection Heq as <- <-. lia.
  - intros Hfar.
    destruct (Z.abs (btcTimestamp - t0) <? 86400000)%Z eqn:Htol;
      cbn [andb Closest.closestDiff Closest.closestIndex].
    + apply Z.ltb_lt in Htol. split; [exact Htol|]. split.
      * exists t0, e0. split; [apply in_or_app; right; left; reflexivity|].
        split; reflexivity.
      * intros t' e' Hin'. apply in_app_or in Hin' as [Hin'|[Heq|[]]].
        -- specialize (Hfar t' e' Hin'). lia.
        -- injection Heq as <- <-. lia.
    + apply Z.ltb_ge in Htol.
      intros t' e' Hin'. apply in_app_or in Hin' as [Hin'|[Heq|[]]].
      * apply (Hfar t' e' Hin').
      * injection Heq as <- <-. exact Htol.
Qed.

Lemma closest_loop_inv (rest seen : IndexMap) (acc : Closest.t) :
  closestInv btcTimestamp seen acc ->
  closestInv btcTimestamp (seen ++ rest) (fold_left (closestBody btcTimestamp) rest acc).
Proof.
  revert seen acc. induction rest as [|entry rest IH]; intros seen acc Hinv.
  - rewrite app_nil_r. exact Hinv.
  - cbn [fold_left].
    replace (seen ++ entry :: rest) with ((seen ++ [entry]) ++ rest)
      by (rewrite <- app_assoc; reflexivity).
    apply IH. apply closestBody_inv. exact Hinv.
Qed.

Lemma closest_loop_result (indexMap : IndexMap) :
  closestInv btcTimestamp indexMap
    (fold_left (closestBody btcTimestamp) indexMap
       {| Closest.closestDiff := None; Closest.closestIndex := None |}).
Proof.
  apply (closest_loop_inv indexMap []).
  unfold closestInv. cbn. intros t e [].
Qed.

(** [matchedIndex] is a number exactly when some entry is in reach, and
    then it is the index of an entry in reach that no entry beats. *)
Lemma matchIndex_some (indexMap : IndexMap) (v : R) :
  matchIndex indexMap btcTimestamp = Some v ->
  exists t e,
    In (t, e) indexMap /\ e.(IndexEntry.index) = v
    /\ (dist t < Spec.tolerance)%Z
    /\ forall t' e', In (t', e') indexMap -> (dist t <= dist t')%Z.
Proof.
  unfold matchIndex.
  destruct (mapGet btcTimestamp indexMap) as [exact|] eqn:Hget.
  - intros [= <-]. exists btcTimestamp, exact.
    split; [apply mapGet_In; exact Hget|]. split; [reflexivity|].
    unfold dist, Spec.tolerance. rewrite Z.sub_diag. cbn [Z.abs].
    split; [lia | intros; lia].
  - pose proof (closest_loop_result indexMap) as Hinv.
    unfold closestInv in Hinv.
    destruct (fold_left _ _ _) as [[d|] [w|]];
      cbn [Closest.closestDiff Closest.closestIndex] in *;
      try contradiction; try discriminate.
    intros [= <-]. destruct Hinv as (Hd & (t & e & Hin & Ht & He) & Hmin).
    exists t, e. unfold dist. rewrite Ht. repeat split; assumption.
Qed.

Lemma matchIndex_none (indexMap : IndexMap) :
  matchIndex indexMap btcTimestamp = None ->
  forall t e, In (t, e) indexMap -> (Spec.tolerance <= dist t)%Z.
Proof.
  unfold matchIndex.
  destruct (mapGet btcTimestamp indexMap) as [exact|] eqn:Hget;
    [discriminate|].
  pose proof (closest_loop_result indexMap) as Hinv.
  unfold closestInv in Hinv.
  destruct (fold_left _ _ _) as [[d|] [w|]];
    cbn [Closest.closestDiff Closest.closestIndex] in *;
    try contradiction; try discriminate.
  intros _. exact Hinv.
Qed.

End ClosestLoop.

Section MergePoint.

Variables (indexMap : IndexMap) (btcPoint : PricePoint.t).

Lemma mergePoint_matched (v : R) :
  matchIndex indexMap btcPoint.(PricePoint.timestamp) = Some v ->
  mergePoint indexMap btcPoint = Some (Spec.mergedWith btcPoint v).
Proof.
  intros H. unfold mergePoint. cbv zeta. rewrite H.
  rewrite andb_false_r. reflexivity.
Qed.

Lemma mergePoint_dropped :
  indexMap <> [] ->
  matchIndex indexMap btcPoint.(PricePoint.timestamp) = None ->
  mergePoint indexMap btcPoint = None.
Proof.
  intros Hne H. unfold mergePoint. cbv zeta. rewrite H.
  destruct indexMap; [congruence | reflexivity].
Qed.

End MergePoint.

Lemma mergePoint_fallback (btcPoint : PricePoint.t) :
  mergePoint [] btcPoint = Some (Spec.mergedWith btcPoint 50).
Proof. reflexivity. Qed.

Section Sorting.

Lemma insertByTimestamp_perm (a : ChartDataPoint.t) (l : list ChartDataPoint.t) :
  Permutation (a :: l) (insertByTimestamp a l).
Proof.
  induction l as [|b l IH]; cbn [insertByTimestamp].
  - apply Permutation_refl.
  - destruct (_ <=? _)%Z; [apply Permutation_refl|].
    eapply perm_trans; [apply perm_swap|]. apply perm_skip. exact IH.
Qed.

Lemma sortByTimestamp_perm (l : list ChartDataPoint.t) :
  Permutation l (sortByTimestamp l).
Proof.
  induction l as [|a l IH]; cbn [sortByTimestamp fold_right].
  - apply Permutation_refl.
  - eapply perm_trans; [apply perm_skip; exact IH|].
    apply insertByTimestamp_perm.
Qed.

End Sorting.

(** C5.  Nearest-within-tolerance join.  A price point is merged with the
    index observation at its own timestamp when there is one, and in
    general with an observation less than 24 hours away that no other
    observation is closer than; when there are observations but none is
    less than 24 hours away the point is dropped; when there is no
    observation at all every price point is kept with the index 50.  The
    merged output holds exactly the points so produced.  In particular a
    price at [t0 + 25h] is dropped when the only observation is at [t0]. *)
Theorem C5_nearest_within_tolerance_join :
  forall (indexData : option (list ChartDataPoint.t)),
    let indexMap := buildIndexMap indexData in
    let dist (btcPoint : PricePoint.t) (t : Z) :=
      Z.abs (btcPoint.(PricePoint.timestamp) - t) in
    (forall btcPoint : PricePoint.t,
       (* exact match *)
       ((exists v, Spec.observed indexData btcPoint.(PricePoint.timestamp) v) ->
        exists v,
          Spec.observed indexData btcPoint.(PricePoint.timestamp) v
          /\ mergePoint indexMap btcPoint = Some (Spec.mergedWith btcPoint v))
       (* closest within the window *)
       /\ ((exists t v, Spec.observed indexData t v
                        /\ (dist btcPoint t < 86400000)%Z) ->
           exists t v,
             Spec.observed indexData t v
             /\ (dist btcPoint t < 86400000)%Z
             /\ (forall t' v', Spec.observed indexData t' v' ->
                               (dist btcPoint t <= dist btcPoint t')%Z)
             /\ mergePoint indexMap btcPoint
                = Some (Spec.mergedWith btcPoint v))
       (* observations exist, none in the window: dropped *)
       /\ ((exists t v, Spec.observed indexData t v) ->
           (forall t v, Spec.observed indexData t v ->
                        (86400000 <= dist btcPoint t)%Z) ->
           mergePoint indexMap btcPoint = None)
       (* no observation at all: fallback 50 *)
       /\ ((forall t v, ~ Spec.observed indexData t v) ->
           mergePoint indexMap btcPoint
           = Some (Spec.mergedWith btcPoint 50)))
    (* the merged output *)
    /\ (forall (btcData : list PricePoint.t) (point : ChartDataPoint.t),
          In point (mergedDataOf indexData btcData) <->
          exists btcPoint,
            In btcPoint btcData /\ mergePoint indexMap btcPoint = Some point)
    /\ (forall btcData : list PricePoint.t,
          match chartDataOf indexData btcData with
          | Some data => Permutation (mergedDataOf indexData btcData) data
          | None => mergedDataOf indexData btcData = []
          end)
    (* an entirely empty index series *)
    /\ (indexData = None \/ indexData = Some [] ->
        forall btcData : list PricePoint.t,
          mergedDataOf indexData btcData
          = map (fun btcPoint => Spec.mergedWith btcPoint 50) btcData)
    (* an observation at t0, a price 25 hours later *)
    /\ (forall (t0 : Z) (v : R) (d : string) (p : R) (btcPoint : PricePoint.t),
          indexData =
            Some [ {| ChartDataPoint.timestamp := t0;
                      ChartDataPoint.date := d;
                      ChartDataPoint.price := p;
                      ChartDataPoint.index := Some v |} ] ->
          btcPoint.(PricePoint.timestamp) = (t0 + 25 * 3600000)%Z ->
          mergedDataOf indexData [btcPoint] = []).
Proof.
  intros indexData indexMap dist.
  assert (Hsound : forall t e, In (t, e) indexMap ->
                     Spec.observed indexData t e.(IndexEntry.index))
    by (apply indexMap_sound).
  assert (Hcomplete : forall t v, Spec.observed indexData t v ->
                        exists e, In (t, e) indexMap)
    by (apply indexMap_complete).
  assert (Hdrop : forall btcPoint : PricePoint.t,
            (exists t v, Spec.observed indexData t v) ->
            (forall t v, Spec.observed indexData t v ->
                         (86400000 <= dist btcPoint t)%Z) ->
            mergePoint indexMap btcPoint = None).
  { intros btcPoint (t & v & Hobs) Hfar.
    destruct (Hcomplete t v Hobs) as [e He].
    apply mergePoint_dropped.
    - intros Hnil. rewrite Hnil in He. destruct He.
    - destruct (matchIndex indexMap _) as [w|] eqn:Hm; [|reflexivity].
      apply matchIndex_some in Hm
        as (t' & e' & Hin' & _ & Hnear & _).
      specialize (Hfar t' _ (Hsound t' e' Hin')).
      unfold dist, Spec.tolerance in *. lia. }
  split; [|split; [|split; [|split]]].
  - intros btcPoint. split; [|split; [|split]].
    + intros [v Hobs].
      destruct (Hcomplete _ v Hobs) as [e He].
      destruct (In_mapGet _ _ _ He) as [exact Hget].
      exists exact.(IndexEntry.index). split.
      * apply Hsound. apply mapGet_In. exact Hget.
      * apply mergePoint_matched. unfold matchIndex.
        fold indexMap in Hget. rewrite Hget. reflexivity.
    + intros (t & v & Hobs & Hnear).
      destruct (matchIndex indexMap btcPoint.(PricePoint.timestamp))
        as [w|] eqn:Hm.
      * pose proof (mergePoint_matched indexMap btcPoint w Hm) as Hmerge.
        apply matchIndex_some in Hm
          as (t' & e' & Hin' & <- & Hnear' & Hmin).
        exists t', e'.(IndexEntry.index).
        split; [apply Hsound; exact Hin'|].
        split; [exact Hnear'|]. split; [|exact Hmerge].
        intros t'' v'' Hobs''.
        destruct (Hcomplete t'' v'' Hobs'') as [e'' He''].
        apply (Hmin t'' e'' He'').
      * exfalso. destruct (Hcomplete t v Hobs) as [e He].
        pose proof (matchIndex_none _ indexMap Hm t e He) as Hfar.
        unfold dist, Spec.tolerance in *. lia.
    + apply Hdrop.
    + intros Hnone.
      assert (Hnil : indexMap = []).
      { destruct indexMap as [|[t e] rest] eqn:Hmap; [reflexivity|].
        exfalso. apply (Hnone t e.(IndexEntry.index)).
        apply Hsound. left. reflexivity. }
      rewrite Hnil. apply mergePoint_fallback.
  - intros btcData point. unfold mergedDataOf. cbv zeta. fold indexMap.
    rewrite in_flat_map. split.
    + intros (btcPoint & Hin & Hpoint). exists btcPoint. split; [exact Hin|].
      destruct (mergePoint indexMap btcPoint) as [q|];
        [destruct Hpoint as [<-|[]]; reflexivity | destruct Hpoint].
    + intros (btcPoint & Hin & Hpoint). exists btcPoint. split; [exact Hin|].
      rewrite Hpoint. left. reflexivity.
  - intros btcData. unfold chartDataOf. cbv zeta.
    pose proof (sortByTimestamp_perm (mergedDataOf indexData btcData)) as Hperm.
    destruct (sortByTimestamp (mergedDataOf indexData btcData)) as [|a l] eqn:Hs.
    + cbn. apply Permutation_sym in Hperm. apply Permutation_nil in Hperm.
      exact Hperm.
    + cbn. exact Hperm.
  - intros Hempty btcData. unfold mergedDataOf. cbv zeta.
    assert (Hnil : buildIndexMap indexData = [])
      by (destruct Hempty as [->| ->]; reflexivity).
    rewrite Hnil. induction btcData as [|btcPoint btcData IH].
    + reflexivity.
    + cbn [flat_map map]. rewrite IH, mergePoint_fallback. reflexivity.
  - intros t0 v d p btcPoint Hdata Hts.
    unfold mergedDataOf. cbv zeta. fold indexMap. cbn [flat_map].
    rewrite Hdrop; [reflexivity | |].
    + exists t0, v. rewrite Hdata. eexists _, _.
      split; [reflexivity|]. split; [left; reflexivity|]. split; reflexivity.
    + intros t w (data & point & Hdata' & Hin & Ht & _).
      rewrite Hdata in Hdata'. injection Hdata' as <-.
      destruct Hin as [<-|[]]. cbn in Ht. subst t.
      unfold dist. rewrite Hts. lia.
Qed.

Lemma C5_nearest_within_tolerance_join_witness :
  mergedDataOf
    (Some [ {| ChartDataPoint.timestamp := 1704067200000;
               ChartDataPoint.date := "2024-01-01";
               ChartDataPoint.price := 42000;
               ChartDataPoint.index := Some 55 |} ])
    [ {| PricePoint.timestamp := 1704157200000;
         PricePoint.date := "2024-01-02";
         PricePoint.price := 43000 |} ]
  = []
  /\ mergedDataOf (Some [])
       [ {| PricePoint.timestamp := 1704157200000;
            PricePoint.date := "2024-01-02";
            PricePoint.price := 43000 |} ]
     = [ {| ChartDataPoint.timestamp := 1704157200000;
            ChartDataPoint.date := "2024-01-02";
            ChartDataPoint.price := 43000;
            ChartDataPoint.index := Some 50 |} ].
Proof.
  split.
  - apply (proj2 (proj2 (proj2 (proj2
             (C5_nearest_within_tolerance_join _))))
             1704067200000%Z 55 "2024-01-01"%string 42000).
    + reflexivity.
    + reflexivity.
  - apply (proj1 (proj2 (proj2 (proj2
             (C5_nearest_within_tolerance_join (Some []))))) ).
    right. reflexivity.
Defined.

(* ===================================================================== *)
(** * Further properties of the sources                                   *)
(* ===================================================================== *)

(** ** [calculateCorrelation]: symmetry *)

Section CorrelationMore.

Lemma sum_combine_swap (f : R * R -> R) (xs ys : list R) :
  Spec.sum (map f (combine xs ys))
  = Spec.sum (map (fun yx => f (snd yx, fst yx)) (combine ys xs)).
Proof.
  revert ys. induction xs as [|x xs IH]; intros [|y ys];
    cbn [combine map]; rewrite ?sum_cons, ?sum_nil; try reflexivity.
  rewrite IH. reflexivity.
Qed.

Lemma sumProdDev_sym (xs ys : list R) :
  Spec.sumProdDev xs ys = Spec.sumProdDev ys xs.
Proof.
  unfold Spec.sumProdDev. rewrite sum_combine_swap.
  apply sum_map_ext. intros [y x] _. cbn [fst snd]. ring.
Qed.

Lemma calculateCorrelation_sym (xs ys : list R) :
  calculateCorrelation xs ys = calculateCorrelation ys xs.
Proof.
  rewrite !calculateCorrelation_unfold.
  rewrite (Nat.eqb_sym (length ys) (length xs)).
  destruct (length xs =? length ys)%nat eqn:Hlen; [|reflexivity].
  apply Nat.eqb_eq in Hlen. rewrite Hlen. cbn [negb orb].
  destruct (length ys <? 2)%nat; [reflexivity|].
  unfold Spec.pearsonDenominator.
  rewrite (Rmult_comm (Spec.sumSqDev ys)), (sumProdDev_sym ys xs).
  reflexivity.
Qed.

End CorrelationMore.

(** X8.  The correlation is symmetric in its two series. *)
Theorem X8_correlation_symmetric :
  forall indexValues priceValues : list R,
    calculateCorrelation indexValues priceValues
    = calculateCorrelation priceValues indexValues.
Proof. exact calculateCorrelation_sym. Qed.

(** ** The forward-fill lookups on a series in ascending date order *)

Section ForwardFillSorted.

Lemma str_le_refl (s : string) : JS.str_le s s = true.
Proof.
  unfold JS.str_le, String.leb.
  assert (H : String.compare s s = Eq).
  { induction s as [|a s IH]; [reflexivity|]. cbn [String.compare].
    unfold Ascii.compare. rewrite N.compare_refl. exact IH. }
  rewrite H. reflexivity.
Qed.

Lemma StronglySorted_app_before {A} (R : A -> A -> Prop) (l1 l2 : list A)
    (x : A) :
  StronglySorted R (l1 ++ x :: l2) -> forall y, In y l1 -> R y x.
Proof.
  induction l1 as [|a l1 IH]; intros Hs y Hy; [destruct Hy|].
  cbn [app] in Hs. apply StronglySorted_inv in Hs as [Hs Hall].
  destruct Hy as [<-|Hy].
  - rewrite Forall_forall in Hall. apply Hall.
    apply in_or_app. right. left. reflexivity.
  - apply (IH Hs y Hy).
Qed.

End ForwardFillSorted.

Lemma forward_fill_most_recent :
  forall (entries : list Entry) (dateStr : string),
    StronglySorted (fun a b : Entry => JS.str_le (fst a) (fst b) = true)
                   entries ->
    (exists e,
       In e entries
       /\ JS.str_le (fst e) dateStr = true
       /\ (forall e', In e' entries -> JS.str_le (fst e') dateStr = true ->
                      JS.str_le (fst e') (fst e) = true)
       /\ liquidityLoop entries dateStr (length entries) = (snd e, fst e)
       /\ pmiLoop entries dateStr (length entries) = snd e)
    \/ ((forall e', In e' entries -> JS.str_le (fst e') dateStr = false)
        /\ liquidityLoop entries dateStr (length entries) = (0, EmptyString)
        /\ pmiLoop entries dateStr (length entries) = 50).
Proof.
  intros entries dateStr Hsorted.
  rewrite liquidityLoop_forwardFill, pmiLoop_forwardFill.
  destruct (forwardFill_cases dateStr entries)
    as [(older & e & newer & -> & He & Hnewer)|Hall].
  - left. exists e.
    rewrite (forwardFill_split dateStr older newer e He Hnewer).
    split; [apply in_or_app; right; left; reflexivity|].
    split; [exact He|]. split; [|split; reflexivity].
    intros e' Hin Hle. apply in_app_or in Hin as [Hin|[<-|Hin]].
    + apply (StronglySorted_app_before _ older newer e Hsorted e' Hin).
    + apply str_le_refl.
    + rewrite (Hnewer e' Hin) in Hle. discriminate.
  - right. rewrite (forwardFill_none dateStr entries Hall).
    repeat split. exact Hall.
Qed.

(** X11.  On a series in ascending date order the two lookups return the
    most recent observation at or before the target: the entry they take
    the value from is at or before the target, and no entry at or before
    the target is dated after it.  Otherwise no entry is at or before the
    target and they keep their initial values. *)
Theorem X11_forward_fill_most_recent :
  forall (entries : list Entry) (dateStr : string),
    StronglySorted (fun a b : Entry => JS.str_le (fst a) (fst b) = true)
                   entries ->
    (exists e,
       In e entries
       /\ JS.str_le (fst e) dateStr = true
       /\ (forall e', In e' entries -> JS.str_le (fst e') dateStr = true ->
                      JS.str_le (fst e') (fst e) = true)
       /\ liquidityLoop entries dateStr (length entries) = (snd e, fst e)
       /\ pmiLoop entries dateStr (length entries) = snd e)
    \/ ((forall e', In e' entries -> JS.str_le (fst e') dateStr = false)
        /\ liquidityLoop entries dateStr (length entries) = (0, EmptyString)
        /\ pmiLoop entries dateStr (length entries) = 50).
Proof. exact forward_fill_most_recent. Qed.

Lemma X11_forward_fill_most_recent_witness :
  (exists e : Entry,
     In e [("2024-01-01"%string, 1); ("2024-02-01"%string, 2)]
     /\ JS.str_le (fst e) "2024-01-15" = true
     /\ (forall e', In e' [("2024-01-01"%string, 1); ("2024-02-01"%string, 2)] ->
                    JS.str_le (fst e') "2024-01-15" = true ->
                    JS.str_le (fst e') (fst e) = true)
     /\ liquidityLoop [("2024-01-01"%string, 1); ("2024-02-01"%string, 2)]
                      "2024-01-15" 2 = (snd e, fst e)
     /\ pmiLoop [("2024-01-01"%string, 1); ("2024-02-01"%string, 2)]
                "2024-01-15" 2 = snd e)
  \/ ((forall e', In e' [("2024-01-01"%string, 1); ("2024-02-01"%string, 2)] ->
                  JS.str_le (fst e') "2024-01-15" = false)
      /\ liquidityLoop [("2024-01-01"%string, 1); ("2024-02-01"%string, 2)]
                       "2024-01-15" 2 = (0, EmptyString)
      /\ pmiLoop [("2024-01-01"%string, 1); ("2024-02-01"%string, 2)]
                 "2024-01-15" 2 = 50).
Proof.
  apply (X11_forward_fill_most_recent
           [("2024-01-01"%string, 1); ("2024-02-01"%string, 2)]
           "2024-01-15"%string).
  repeat constructor.
Defined.

(** ** The index history: which price points are kept *)

Section HistoryMore.

Lemma recentPricesOf_length (btcPriceHistory : list PricePoint.t)
    (btcPoint : PricePoint.t) :
  length (recentPricesOf btcPriceHistory btcPoint)
  = Nat.min 30
      (length (filter (fun p => (p.(PricePoint.timestamp) <=?
                                 btcPoint.(PricePoint.timestamp))%Z)
                      btcPriceHistory)).
Proof.
  unfold recentPricesOf. rewrite length_map, slice_last_length. reflexivity.
Qed.

Lemma str_falsy_empty (s : string) :
  JS.str_falsy s = true <-> s = EmptyString.
Proof. destruct s; cbn; split; congruence. Qed.

End HistoryMore.

(** X12.  A price point of the index history is skipped exactly when
    fewer than two price points are stamped at or before it, or no
    liquidity entry is dated at or before its date, or the entry found
    has an empty date.  A point that is kept carries its own timestamp,
    date and price. *)
Theorem X12_history_step :
  forall (now : Z) (fedData tgaData rrpData : list FREDData.t)
         (liquidityEntries pmiEntries : list Entry)
         (liquidityHistory pmiHistoryValues : list R)
         (btcPriceHistory : list PricePoint.t) (btcPoint : PricePoint.t),
    let step := historyStep now fedData tgaData rrpData liquidityEntries
                  pmiEntries liquidityHistory pmiHistoryValues
                  btcPriceHistory btcPoint in
    let atOrBefore :=
      filter (fun p => (p.(PricePoint.timestamp) <=?
                        btcPoint.(PricePoint.timestamp))%Z) btcPriceHistory in
    (step = None <->
       (length atOrBefore < 2)%nat
       \/ Spec.forwardFill liquidityEntries btcPoint.(PricePoint.date) = None
       \/ exists value,
            Spec.forwardFill liquidityEntries btcPoint.(PricePoint.date)
            = Some (EmptyString, value))
    /\ (forall point, step = Some point ->
          point.(IndexPoint.timestamp) = btcPoint.(PricePoint.timestamp)
          /\ point.(IndexPoint.date) = btcPoint.(PricePoint.date)
          /\ point.(IndexPoint.price) = btcPoint.(PricePoint.price)).
Proof.
  intros. subst step atOrBefore. unfold historyStep. cbv zeta.
  rewrite liquidityLoop_forwardFill.
  pose proof (recentPricesOf_length btcPriceHistory btcPoint) as Hlen.
  destruct (Spec.forwardFill liquidityEntries (PricePoint.date btcPoint))
    as [[date value]|] eqn:Hff; cbn [fst snd].
  - destruct (length (recentPricesOf btcPriceHistory btcPoint) <? 2)%nat
      eqn:H2.
    + apply Nat.ltb_lt in H2. split; [|discriminate].
      split; [intros _; left; lia | reflexivity].
    + apply Nat.ltb_ge in H2.
      destruct (JS.str_falsy date) eqn:Hdate.
      * apply str_falsy_empty in Hdate. subst date. split; [|discriminate].
        split; [intros _; right; right; exists value; reflexivity
               | reflexivity].
      * split.
        -- split; [discriminate|].
           intros [H|[H|[v H]]]; [lia | discriminate |].
           injection H as -> _. discriminate.
        -- intros point Hpoint.
           pose proof (f_equal (fun o => match o with
                                         | Some q => q
                                         | None => point
                                         end) Hpoint) as Hq.
           cbv beta iota in Hq. rewrite <- Hq.
           split; [reflexivity|]. split; reflexivity.
  - split.
    + split; [intros _; right; left; reflexivity|].
      intros _. destruct (_ <? 2)%nat; reflexivity.
    + intros point H. destruct (_ <? 2)%nat; discriminate.
Qed.

(** One price point alone is skipped; the second of two, with a liquidity
    entry dated before it, is kept. *)
Lemma X12_history_step_witness :
  historyStep 0 [] [] [] [("2024-01-01"%string, 6000)] [] [6000] []
    [ {| PricePoint.timestamp := 1704067200000;
         PricePoint.date := "2024-01-01";
         PricePoint.price := 42000 |} ]
    {| PricePoint.timestamp := 1704067200000;
       PricePoint.date := "2024-01-01";
       PricePoint.price := 42000 |}
  = None
  /\ exists point,
       historyStep 0 [] [] [] [("2024-01-01"%string, 6000)] [] [6000] []
         [ {| PricePoint.timestamp := 1704067200000;
              PricePoint.date := "2024-01-01";
              PricePoint.price := 42000 |};
           {| PricePoint.timestamp := 1704153600000;
              PricePoint.date := "2024-01-02";
              PricePoint.price := 43000 |} ]
         {| PricePoint.timestamp := 1704153600000;
            PricePoint.date := "2024-01-02";
            PricePoint.price := 43000 |}
       = Some point
       /\ point.(IndexPoint.timestamp) = 1704153600000%Z
       /\ point.(IndexPoint.date) = "2024-01-02"%string
       /\ point.(IndexPoint.price) = 43000.
Proof.
  split.
  - apply (proj1 (X12_history_step 0 [] [] [] [("2024-01-01"%string, 6000)] []
                    [6000] [] _ _)).
    left. simpl. lia.
  - destruct (historyStep 0 [] [] [] [("2024-01-01"%string, 6000)] [] [6000] []
                [ {| PricePoint.timestamp := 1704067200000;
                     PricePoint.date := "2024-01-01";
                     PricePoint.price := 42000 |};
                  {| PricePoint.timestamp := 1704153600000;
                     PricePoint.date := "2024-01-02";
                     PricePoint.price := 43000 |} ]
                {| PricePoint.timestamp := 1704153600000;
                   PricePoint.date := "2024-01-02";
                   PricePoint.price := 43000 |}) as [point |] eqn:Hstep.
    + exists point. split; [reflexivity |].
      exact (proj2 (X12_history_step 0 [] [] [] [("2024-01-01"%string, 6000)] []
                      [6000] [] _ _) point Hstep).
    + exfalso.
      apply (proj1 (X12_history_step 0 [] [] [] [("2024-01-01"%string, 6000)] []
                      [6000] [] _ _)) in Hstep.
      destruct Hstep as [H | [H | [value H]]].
      * simpl in H. lia.
      * discriminate H.
      * discriminate H.
Defined.

(** X13.  The index history lists, in the order of the price history,
    exactly the price points that are not skipped, each with its own
    timestamp, date and price; it is never longer than the price
    history. *)
Theorem X13_index_history_shape :
  forall (now : Z) (fedData tgaData rrpData : list FREDData.t)
         (liquidityEntries pmiEntries : list Entry)
         (liquidityHistory pmiHistoryValues : list R)
         (btcPriceHistory : list PricePoint.t),
    let step := historyStep now fedData tgaData rrpData liquidityEntries
                  pmiEntries liquidityHistory pmiHistoryValues
                  btcPriceHistory in
    let indexHistory := indexHistoryOf now fedData tgaData rrpData
                          liquidityEntries pmiEntries liquidityHistory
                          pmiHistoryValues btcPriceHistory in
    map (fun point => (point.(IndexPoint.timestamp),
                       point.(IndexPoint.date),
                       point.(IndexPoint.price))) indexHistory
    = map (fun btcPoint => (btcPoint.(PricePoint.timestamp),
                            btcPoint.(PricePoint.date),
                            btcPoint.(PricePoint.price)))
          (filter (fun btcPoint => match step btcPoint with
                                   | Some _ => true
                                   | None => false
                                   end) btcPriceHistory)
    /\ (length indexHistory <= length btcPriceHistory)%nat.
Proof.
  intros. subst indexHistory. unfold indexHistoryOf. fold step.
  assert (Hstep : forall btcPoint point, step btcPoint = Some point ->
            point.(IndexPoint.timestamp) = btcPoint.(PricePoint.timestamp)
            /\ point.(IndexPoint.date) = btcPoint.(PricePoint.date)
            /\ point.(IndexPoint.price) = btcPoint.(PricePoint.price)).
  { intros btcPoint point Hpoint. subst step. unfold historyStep in Hpoint.
    cbv zeta in Hpoint.
    destruct (liquidityLoop _ _ _) as [liquidity liquidityDate].
    destruct (_ <? 2)%nat; [discriminate|].
    destruct (JS.str_falsy liquidityDate); [discriminate|].
    pose proof (f_equal (fun o => match o with
                                  | Some q => q
                                  | None => point
                                  end) Hpoint) as Hq.
    cbv beta iota in Hq. rewrite <- Hq.
    split; [reflexivity|]. split; reflexivity. }
  generalize dependent step. intros step Hstep.
  induction btcPriceHistory as [|btcPoint rest IH]; cbn [flat_map filter map].
  - split; [reflexivity | simpl; lia].
  - destruct IH as (IHmap & IHlen).
    destruct (step btcPoint) as [point|] eqn:Hpoint; cbn [app map length].
    + destruct (Hstep btcPoint point Hpoint) as (Ht & Hd & Hp).
      rewrite Ht, Hd, Hp, IHmap.
      split; [reflexivity | lia].
    + split; [exact IHmap | lia].
Qed.

(** ** The chart's index map and merged series *)

Section MergeMore.

Lemma mapSet_keys_in (k k' : Z) (v : IndexEntry.t) (m : IndexMap) :
  In k' (map fst (mapSet k v m)) <-> k' = k \/ In k' (map fst m).
Proof.
  induction m as [|[k0 v0] m IH]; cbn [mapSet map fst In].
  - split; intros [H|[]]; left; congruence.
  - destruct (k0 =? k)%Z eqn:H0; cbn [map fst In].
    + apply Z.eqb_eq in H0. subst k0. intuition congruence.
    + rewrite IH. tauto.
Qed.

Lemma mapSet_keys_nodup (k : Z) (v : IndexEntry.t) (m : IndexMap) :
  NoDup (map fst m) -> NoDup (map fst (mapSet k v m)).
Proof.
  induction m as [|[k0 v0] m IH]; cbn [mapSet map fst]; intros Hnd.
  - constructor; [intros [] | constructor].
  - apply NoDup_cons_iff in Hnd as [Hnotin Hnd].
    destruct (k0 =? k)%Z eqn:H0; cbn [map fst].
    + apply Z.eqb_eq in H0. subst k0. constructor; assumption.
    + apply Z.eqb_neq in H0. constructor; [|apply IH; exact Hnd].
      rewrite mapSet_keys_in. intros [H|H]; [congruence | contradiction].
Qed.

Lemma mergePoint_shape (indexMap : IndexMap) (btcPoint : PricePoint.t)
    (point : ChartDataPoint.t) :
  mergePoint indexMap btcPoint = Some point ->
  exists v, point = Spec.mergedWith btcPoint v.
Proof.
  unfold mergePoint. cbv zeta.
  destruct (matchIndex indexMap _) as [v|].
  - rewrite andb_false_r. intros [= <-]. exists v. reflexivity.
  - destruct indexMap; cbn.
    + intros [= <-]. exists 50. reflexivity.
    + discriminate.
Qed.

Lemma insertByTimestamp_sorted (a : ChartDataPoint.t)
    (l : list ChartDataPoint.t) :
  Sorted (fun x y => (x.(ChartDataPoint.timestamp)
                      <= y.(ChartDataPoint.timestamp))%Z) l ->
  Sorted (fun x y => (x.(ChartDataPoint.timestamp)
                      <= y.(ChartDataPoint.timestamp))%Z)
         (insertByTimestamp a l).
Proof.
  induction l as [|b l IH]; cbn [insertByTimestamp]; intros Hs.
  - repeat constructor.
  - destruct (_ <=? _)%Z eqn:Hle.
    + apply Z.leb_le in Hle. constructor; [exact Hs|]. constructor. exact Hle.
    + apply Z.leb_gt in Hle. apply Sorted_inv in Hs as [Hs Hhd].
      constructor; [apply IH; exact Hs|].
      destruct l as [|c l]; cbn [insertByTimestamp].
      * constructor. lia.
      * destruct (_ <=? _)%Z; constructor; [lia|].
        apply HdRel_inv in Hhd. exact Hhd.
Qed.

Lemma sortByTimestamp_sorted (l : list ChartDataPoint.t) :
  Sorted (fun x y => (x.(ChartDataPoint.timestamp)
                      <= y.(ChartDataPoint.timestamp))%Z)
         (sortByTimestamp l).
Proof.
  induction l as [|a l IH]; cbn [sortByTimestamp fold_right].
  - constructor.
  - apply insertByTimestamp_sorted. exact IH.
Qed.

End MergeMore.

Section IndexMapMore.

Lemma buildIndexMap_get (data : list ChartDataPoint.t) (t : Z) :
  mapGet t (buildIndexMap (Some data))
  = match lastNumericAt t data with
    | Some point =>
        option_map (fun i => {| IndexEntry.index := i;
                                IndexEntry.timestamp := t |})
                   point.(ChartDataPoint.index)
    | None => None
    end.
Proof.
  rewrite buildIndexMap_fold. unfold lastNumericAt.
  induction data as [|point data IH] using rev_ind.
  - reflexivity.
  - rewrite fold_left_app, rev_app_distr. cbn [fold_left rev app find].
    unfold storeIndexPoint at 1.
    destruct (ChartDataPoint.index point) as [i|] eqn:Hidx.
    + rewrite mapGet_mapSet.
      destruct (ChartDataPoint.timestamp point =? t)%Z eqn:Ht; cbn [andb].
      * rewrite Hidx. apply Z.eqb_eq in Ht. rewrite Ht. reflexivity.
      * exact IH.
    + rewrite andb_false_r. exact IH.
Qed.

Lemma buildIndexMap_keys_nodup (data : list ChartDataPoint.t) :
  NoDup (map fst (buildIndexMap (Some data))).
Proof.
  rewrite buildIndexMap_fold.
  induction data as [|point data IH] using rev_ind.
  - constructor.
  - rewrite fold_left_app. cbn [fold_left]. unfold storeIndexPoint at 1.
    destruct (ChartDataPoint.index point); [|exact IH].
    apply mapSet_keys_nodup. exact IH.
Qed.

End IndexMapMore.

(** X14.  Duplicate timestamps in the index series: last wins.  The index
    map holds each timestamp once, and the entry at a timestamp is taken
    from the last point of the series that is stamped with it and carries
    a number; a price point with that very timestamp is merged with that
    point's index. *)
Theorem X14_index_map_last_wins :
  forall (data : list ChartDataPoint.t) (t : Z) (btcPoint : PricePoint.t),
    let indexMap := buildIndexMap (Some data) in
    NoDup (map fst indexMap)
    /\ mapGet t indexMap
       = match lastNumericAt t data with
         | Some point =>
             option_map (fun i => {| IndexEntry.index := i;
                                     IndexEntry.timestamp := t |})
                        point.(ChartDataPoint.index)
         | None => None
         end
    /\ match lastNumericAt btcPoint.(PricePoint.timestamp) data with
       | Some point =>
           match point.(ChartDataPoint.index) with
           | Some i =>
               mergePoint indexMap btcPoint
               = Some (Spec.mergedWith btcPoint i)
           | None => True
           end
       | None => True
       end.
Proof.
  intros data t btcPoint indexMap. subst indexMap.
  split; [apply buildIndexMap_keys_nodup|].
  split; [apply buildIndexMap_get|].
  pose proof (buildIndexMap_get data btcPoint.(PricePoint.timestamp)) as Hget.
  destruct (lastNumericAt _ data) as [point|]; [|exact I].
  destruct (ChartDataPoint.index point) as [i|]; [|exact I].
  apply mergePoint_matched. unfold matchIndex. rewrite Hget. reflexivity.
Qed.

(** X15.  Every point of the merged series is a price point with a
    numeric index attached (never a null index), the merged series has at
    most as many points as the price series, and the chart data, when
    there is any, is the merged series in ascending timestamp order. *)
Theorem X15_merged_series_shape :
  forall (indexData : option (list ChartDataPoint.t))
         (btcData : list PricePoint.t),
    let mergedData := mergedDataOf indexData btcData in
    (forall point, In point mergedData ->
       exists btcPoint v,
         In btcPoint btcData /\ point = Spec.mergedWith btcPoint v)
    /\ (length mergedData <= length btcData)%nat
    /\ match chartDataOf indexData btcData with
       | Some data =>
           Sorted (fun x y => (x.(ChartDataPoint.timestamp)
                               <= y.(ChartDataPoint.timestamp))%Z) data
           /\ Permutation mergedData data
           /\ data <> []
       | None => mergedData = []
       end.
Proof.
  intros indexData btcData mergedData. subst mergedData.
  unfold mergedDataOf. cbv zeta. split; [|split].
  - intros point Hin. apply in_flat_map in Hin as (btcPoint & Hin & Hpoint).
    destruct (mergePoint _ btcPoint) as [q|] eqn:Hq; [|destruct Hpoint].
    destruct Hpoint as [<-|[]].
    destruct (mergePoint_shape _ _ _ Hq) as [v Hv].
    exists btcPoint, v. split; assumption.
  - induction btcData as [|btcPoint rest IH]; cbn [flat_map length].
    + lia.
    + rewrite length_app.
      destruct (mergePoint _ btcPoint); cbn [length]; lia.
  - unfold chartDataOf, mergedDataOf. cbv zeta.
    set (merged := flat_map _ btcData).
    pose proof (sortByTimestamp_perm merged) as Hperm.
    pose proof (sortByTimestamp_sorted merged) as Hsorted.
    destruct (sortByTimestamp merged) as [|a l] eqn:Hs.
    + cbn. apply Permutation_sym, Permutation_nil in Hperm. exact Hperm.
    + cbn. split; [exact Hsorted|]. split; [exact Hperm | discriminate].
Qed.

(** X16.  Reach of a single observation: with one numeric index
    observation at [t0], a price point is merged with it when their
    timestamps are strictly less than 86400000 ms apart and dropped
    otherwise; exactly 24 hours apart is already out of reach. *)
Theorem X16_single_observation_reach :
  forall (t0 : Z) (d : string) (p v : R) (btcPoint : PricePoint.t),
    mergedDataOf
      (Some [ {| ChartDataPoint.timestamp := t0;
                 ChartDataPoint.date := d;
                 ChartDataPoint.price := p;
                 ChartDataPoint.index := Some v |} ])
      [btcPoint]
    = if (Z.abs (btcPoint.(PricePoint.timestamp) - t0) <? 86400000)%Z
      then [Spec.mergedWith btcPoint v]
      else [].
Proof.
  intros t0 d p v btcPoint.
  unfold mergedDataOf, buildIndexMap, storeIndexPoint. cbv zeta.
  cbn [length Nat.ltb Nat.leb fold_left ChartDataPoint.index
       ChartDataPoint.timestamp mapSet flat_map app].
  unfold mergePoint, matchIndex. cbv zeta. cbn [mapGet length].
  destruct (t0 =? PricePoint.timestamp btcPoint)%Z eqn:Heq.
  - apply Z.eqb_eq in Heq. subst t0. rewrite Z.sub_diag. reflexivity.
  - cbn [fold_left]. unfold closestBody.
    cbn [Closest.closestDiff Closest.closestIndex IndexEntry.index].
    destruct (Z.abs (PricePoint.timestamp btcPoint - t0) <? 86400000)%Z;
      reflexivity.
Qed.

(** ** The dashboard handler *)

Section DashboardFacts.

Lemma lastElement_none {A} (xs : list A) :
  lastElement xs = None <-> xs = [].
Proof.
  unfold lastElement. rewrite nth_error_None.
  destruct xs as [|x xs]; cbn [length]; split; intros H;
    try reflexivity; try discriminate; try lia.
Qed.

End DashboardFacts.

(** X17.  The dashboard handler answers with the error response exactly
    when [fetchBitcoinPrice] rejects or one of the three FRED series is
    empty. *)
Theorem X17_dashboard_error :
  forall (now : Z) (fedData tgaData rrpData : list FREDData.t)
         (btcPrice : Outcome BitcoinPrice.t) (pmi : ISMPMIData.t),
    dashboardGET now fedData tgaData rrpData btcPrice pmi = None
    <-> (exists message, btcPrice = Throws message)
        \/ fedData = [] \/ tgaData = [] \/ rrpData = [].
Proof.
  intros. unfold dashboardGET.
  destruct btcPrice as [price | message].
  - unfold dashboardOf. cbv zeta.
    rewrite <- !lastElement_none.
    destruct (lastElement fedData), (lastElement tgaData),
             (lastElement rrpData); split; intros H;
      try reflexivity; try discriminate; try tauto;
      destruct H as [[m H] | [H | [H | H]]]; discriminate.
  - split; [intros _; left; exists message; reflexivity | reflexivity].
Qed.

(** ** [fetchWithRetry] and the Bitcoin history route *)

Section RetryFacts.

Variables (network : nat -> Attempt) (maxRetries : nat).

(** The loop entered at [attempt] with the fuel that is left: it stops at
    an attempt [n], having waited after each attempt before [n]. *)
Lemma fetchWithRetryLoop_spec (fuel attempt : nat) (waits : list Z) :
  (1 <= fuel)%nat -> (attempt + fuel = maxRetries + 1)%nat ->
  exists n,
    (attempt <= n <= maxRetries)%nat
    /\ (forall j, (attempt <= j < n)%nat -> ~ responds (network j))
    /\ snd (fetchWithRetryLoop network maxRetries fuel attempt waits)
       = waits ++ map (retryDelay network) (seq attempt (n - attempt))
    /\ match network n with
       | Responds data =>
           fst (fetchWithRetryLoop network maxRetries fuel attempt waits)
           = Returns data
       | RateLimited _ =>
           n = maxRetries
           /\ fst (fetchWithRetryLoop network maxRetries fuel attempt waits)
              = Throws "API rate limit exceeded. Please try again in a moment."
       | Fails message =>
           n = maxRetries
           /\ fst (fetchWithRetryLoop network maxRetries fuel attempt waits)
              = Throws message
       end.
Proof.
  revert attempt waits. induction fuel as [|fuel IH]; intros attempt waits Hf Hsum;
    [lia|].
  cbn [fetchWithRetryLoop].
  assert (Hle : (attempt <=? maxRetries)%nat = true)
    by (apply Nat.leb_le; lia).
  rewrite Hle.
  assert (Hstep : forall w,
            (attempt < maxRetries)%nat ->
            retryDelay network attempt = w ->
            ~ responds (network attempt) ->
            exists n,
              (attempt <= n <= maxRetries)%nat
              /\ (forall j, (attempt <= j < n)%nat -> ~ responds (network j))
              /\ snd (fetchWithRetryLoop network maxRetries fuel (S attempt)
                        (waits ++ [w]))
                 = waits ++ map (retryDelay network) (seq attempt (n - attempt))
              /\ match network n with
                 | Responds data =>
                     fst (fetchWithRetryLoop network maxRetries fuel
                            (S attempt) (waits ++ [w])) = Returns data
                 | RateLimited _ =>
                     n = maxRetries
                     /\ fst (fetchWithRetryLoop network maxRetries fuel
                               (S attempt) (waits ++ [w]))
                        = Throws
                            "API rate limit exceeded. Please try again in a moment."
                 | Fails message =>
                     n = maxRetries
                     /\ fst (fetchWithRetryLoop network maxRetries fuel
                               (S attempt) (waits ++ [w])) = Throws message
                 end).
  { intros w Hlt Hw Hno.
    destruct (IH (S attempt) (waits ++ [w]) ltac:(lia) ltac:(lia))
      as (n & Hn & Hbefore & Hwaits & Hend).
    exists n. split; [lia|]. split.
    - intros j Hj. destruct (Nat.eq_dec j attempt) as [->|Hne];
        [exact Hno | apply Hbefore; lia].
    - split; [|exact Hend].
      rewrite Hwaits, <- app_assoc. f_equal.
      replace (n - attempt)%nat with (S (n - S attempt)) by lia.
      cbn [seq map app]. rewrite Hw. reflexivity. }
  destruct (network attempt) as [data|message|message] eqn:Hnet.
  - exists attempt. split; [lia|]. split; [intros j Hj; lia|].
    rewrite Nat.sub_diag, Hnet. cbn [seq map snd fst].
    rewrite app_nil_r. split; reflexivity.
  - destruct (attempt <? maxRetries)%nat eqn:Hlt.
    + apply Nat.ltb_lt in Hlt. apply (Hstep _ Hlt).
      * unfold retryDelay. rewrite Hnet. reflexivity.
      * exact (fun H => H).
    + apply Nat.ltb_ge in Hlt. exists attempt.
      split; [lia|]. split; [intros j Hj; lia|].
      rewrite Nat.sub_diag, Hnet. cbn [seq map snd fst].
      rewrite app_nil_r. split; [reflexivity|]. split; [lia | reflexivity].
  - destruct (attempt =? maxRetries)%nat eqn:Heq.
    + apply Nat.eqb_eq in Heq. exists attempt.
      split; [lia|]. split; [intros j Hj; lia|].
      rewrite Nat.sub_diag, Hnet. cbn [seq map snd fst].
      rewrite app_nil_r. split; [reflexivity|]. split; [exact Heq | reflexivity].
    + apply Nat.eqb_neq in Heq. apply (Hstep _ ltac:(lia)).
      * unfold retryDelay. rewrite Hnet. reflexivity.
      * exact (fun H => H).
Qed.

End RetryFacts.

(** X19.  [fetchWithRetry] with at least one allowed attempt makes the
    attempts 1, 2, ... in turn and stops at the first one that responds,
    returning its payload, or else at attempt [maxRetries], throwing the
    rate-limit message when that last attempt was rate limited and the
    attempt's own error otherwise.  After each attempt [j] before the one
    it stops at it waits 5000 * j ms when [j] was rate limited and
    1000 * j ms otherwise.  It never ends with "Max retries exceeded"
    unless no attempt is allowed. *)
Theorem X19_fetchWithRetry :
  forall (network : nat -> Attempt) (maxRetries : nat),
    ((1 <= maxRetries)%nat ->
     exists n,
       (1 <= n <= maxRetries)%nat
       /\ (forall j, (1 <= j < n)%nat -> ~ responds (network j))
       /\ snd (fetchWithRetry network maxRetries)
          = map (retryDelay network) (seq 1 (n - 1))
       /\ match network n with
          | Responds data =>
              fst (fetchWithRetry network maxRetries) = Returns data
          | RateLimited _ =>
              n = maxRetries
              /\ fst (fetchWithRetry network maxRetries)
                 = Throws
                     "API rate limit exceeded. Please try again in a moment."
          | Fails message =>
              n = maxRetries
              /\ fst (fetchWithRetry network maxRetries) = Throws message
          end)
    /\ (maxRetries = 0%nat ->
        fetchWithRetry network maxRetries
        = (Throws "Max retries exceeded", [])).
Proof.
  intros network maxRetries. split.
  - intros Hmax. unfold fetchWithRetry.
    apply (fetchWithRetryLoop_spec network maxRetries maxRetries 1 []); lia.
  - intros ->. reflexivity.
Qed.

Lemma X19_fetchWithRetry_witness :
  exists n,
    (1 <= n <= 3)%nat
    /\ snd (fetchWithRetry
              (fun attempt =>
                 match attempt with
                 | 1%nat => RateLimited "Request failed with status code 429"
                 | 2%nat => Fails "timeout of 30000ms exceeded"
                 | _ => Responds {| CoinGeckoMarketData.prices := [];
                                    CoinGeckoMarketData.market_caps := [];
                                    CoinGeckoMarketData.total_volumes := [] |}
                 end) 3)
       = map (retryDelay
                (fun attempt =>
                   match attempt with
                   | 1%nat => RateLimited "Request failed with status code 429"
                   | 2%nat => Fails "timeout of 30000ms exceeded"
                   | _ => Responds {| CoinGeckoMarketData.prices := [];
                                      CoinGeckoMarketData.market_caps := [];
                                      CoinGeckoMarketData.total_volumes := [] |}
                   end))
             (seq 1 (n - 1)).
Proof.
  destruct (proj1 (X19_fetchWithRetry
                     (fun attempt =>
                        match attempt with
                        | 1%nat => RateLimited "Request failed with status code 429"
                        | 2%nat => Fails "timeout of 30000ms exceeded"
                        | _ => Responds
                                 {| CoinGeckoMarketData.prices := [];
                                    CoinGeckoMarketData.market_caps := [];
                                    CoinGeckoMarketData.total_volumes := [] |}
                        end) 3) ltac:(lia))
    as (n & Hn & _ & Hwaits & _).
  exists n. split; [exact Hn | exact Hwaits].
Defined.

Section HistoryRouteFacts.

Variable toISOString : Z -> string.
Variable invalidTimeMessage : string.

Lemma rate_limit_message_includes :
  includes "API rate limit exceeded. Please try again in a moment."
           "rate limit" = true.
Proof. reflexivity. Qed.

Lemma historyCatch_rate_limit :
  historyCatch "API rate limit exceeded. Please try again in a moment."
  = {| Response.status := 429;
       Response.body :=
         HistoryError
           "API rate limit exceeded. Please try again in a moment." |}.
Proof. reflexivity. Qed.

Lemma pricePoints_valid (prices : list (Z * R)) :
  Forall (fun row => (Z.abs (fst row) <= maxTimeValue)%Z) prices ->
  pricePoints toISOString invalidTimeMessage prices
  = Returns (map (fun row => {| PricePoint.timestamp := fst row;
                                PricePoint.date := toISOString (fst row);
                                PricePoint.price := snd row |}) prices).
Proof.
  induction 1 as [| row rest Hrow _ IH]; cbn [pricePoints map].
  - reflexivity.
  - unfold dateToISOString. apply Z.leb_le in Hrow. rewrite Hrow, IH.
    reflexivity.
Qed.

Lemma pricePoints_invalid (prices : list (Z * R)) :
  Exists (fun row => (maxTimeValue < Z.abs (fst row))%Z) prices ->
  pricePoints toISOString invalidTimeMessage prices = Throws invalidTimeMessage.
Proof.
  induction prices as [| row rest IH]; intros Hex.
  - inversion Hex.
  - cbn [pricePoints]. unfold dateToISOString.
    destruct (Z.abs (fst row) <=? maxTimeValue)%Z eqn:Hrow; [| reflexivity].
    apply Z.leb_le in Hrow.
    inversion Hex as [? ? Hhere | ? ? Hthere]; subst; [lia |].
    rewrite (IH Hthere). reflexivity.
Qed.

End HistoryRouteFacts.

(** X20.  The Bitcoin history route makes at most three attempts.  When
    the first attempt that responds carries no price row it answers 500;
    when it carries rows whose timestamps are all valid dates it answers
    200 with one point per row and their count; when a row's timestamp is
    no valid date, [toISOString] throws and the route answers through its
    [catch].  When no attempt responds and the third is rate limited it
    answers 429 with the rate-limit message; when the third fails
    otherwise it answers through its [catch].  The [catch] answers 429
    with the rate-limit message if the error's message mentions "429" or
    "rate limit", and 500 with the message if not. *)
Theorem X20_bitcoin_history_route :
  forall (toISOString : Z -> string) (invalidTimeMessage : string)
         (timespan : option string)
         (network : MarketChartParams.t -> nat -> Attempt),
    let timespan' :=
      match timespan with
      | Some EmptyString | None => "1Y"%string
      | Some t => t
      end in
    let attempt :=
      network (marketChartParams (getDaysFromTimespan timespan')) in
    let response :=
      bitcoinHistoryGET toISOString invalidTimeMessage timespan network in
    let rateLimited :=
      {| Response.status := 429;
         Response.body :=
           HistoryError
             "API rate limit exceeded. Please try again in a moment." |} in
    let caught message :=
      if (includes message "429" || includes message "rate limit")%bool
      then rateLimited
      else {| Response.status := 500;
              Response.body :=
                HistoryError
                  ("Failed to fetch Bitcoin historical data: " ++ message) |} in
    (forall n marketData,
       (1 <= n <= 3)%nat ->
       attempt n = Responds marketData ->
       (forall j, (1 <= j < n)%nat -> ~ responds (attempt j)) ->
       let prices := marketData.(CoinGeckoMarketData.prices) in
       let data :=
         map (fun row => {| PricePoint.timestamp := fst row;
                            PricePoint.date := toISOString (fst row);
                            PricePoint.price := snd row |}) prices in
       (Forall (fun row => (Z.abs (fst row) <= maxTimeValue)%Z) prices ->
        response
        = match prices with
          | [] =>
              {| Response.status := 500;
                 Response.body :=
                   HistoryError "No Bitcoin price data returned from API" |}
          | _ :: _ =>
              {| Response.status := 200;
                 Response.body := HistoryData data timespan' (length data) |}
          end)
       /\ (Exists (fun row => (maxTimeValue < Z.abs (fst row))%Z) prices ->
           response = caught invalidTimeMessage))
    /\ ((forall j, (1 <= j <= 3)%nat -> ~ responds (attempt j)) ->
        (forall message,
           attempt 3%nat = RateLimited message -> response = rateLimited)
        /\ (forall message,
              attempt 3%nat = Fails message -> response = caught message)).
Proof.
  intros toISOString invalidTimeMessage timespan network timespan' attempt
         response rateLimited caught.
  subst response rateLimited caught. unfold bitcoinHistoryGET. cbv zeta.
  fold timespan'. fold attempt.
  unfold fetchWithRetry. cbn [fetchWithRetryLoop Nat.leb Nat.ltb Nat.eqb].
  split.
  - intros n marketData Hn Hresp Hbefore.
    assert (H1 : (2 <= n)%nat -> ~ responds (attempt 1%nat))
      by (intros; apply Hbefore; lia).
    assert (H2 : (3 <= n)%nat -> ~ responds (attempt 2%nat))
      by (intros; apply Hbefore; lia).
    assert (Hgoal :
      (Forall (fun row => (Z.abs (fst row) <= maxTimeValue)%Z)
              marketData.(CoinGeckoMarketData.prices) ->
       match pricePoints toISOString invalidTimeMessage
               marketData.(CoinGeckoMarketData.prices) with
       | Returns data =>
           if (length data =? 0)%nat then
             {| Response.status := 500;
                Response.body :=
                  HistoryError "No Bitcoin price data returned from API" |}
           else
             {| Response.status := 200;
                Response.body := HistoryData data timespan' (length data) |}
       | Throws errorMessage => historyCatch errorMessage
       end
       = match marketData.(CoinGeckoMarketData.prices) with
         | [] =>
             {| Response.status := 500;
                Response.body :=
                  HistoryError "No Bitcoin price data returned from API" |}
         | _ :: _ =>
             let data :=
               map (fun row => {| PricePoint.timestamp := fst row;
                                  PricePoint.date := toISOString (fst row);
                                  PricePoint.price := snd row |})
                   marketData.(CoinGeckoMarketData.prices) in
             {| Response.status := 200;
                Response.body := HistoryData data timespan' (length data) |}
         end)
      /\ (Exists (fun row => (maxTimeValue < Z.abs (fst row))%Z)
                 marketData.(CoinGeckoMarketData.prices) ->
          match pricePoints toISOString invalidTimeMessage
                  marketData.(CoinGeckoMarketData.prices) with
          | Returns data =>
              if (length data =? 0)%nat then
                {| Response.status := 500;
                   Response.body :=
                     HistoryError "No Bitcoin price data returned from API" |}
              else
                {| Response.status := 200;
                   Response.body := HistoryData data timespan' (length data) |}
          | Throws errorMessage => historyCatch errorMessage
          end
          = historyCatch invalidTimeMessage)).
    { split.
      - intros Hvalid. rewrite (pricePoints_valid _ _ _ Hvalid).
        destruct (CoinGeckoMarketData.prices marketData); reflexivity.
      - intros Hinvalid. rewrite (pricePoints_invalid _ _ _ Hinvalid).
        reflexivity. }
    assert (Hcases : n = 1%nat \/ n = 2%nat \/ n = 3%nat) by lia.
    destruct Hcases as [->|[->| ->]].
    + rewrite Hresp. cbn [fst]. exact Hgoal.
    + destruct (attempt 1%nat) eqn:E1;
        [exfalso; apply H1; [lia | exact I] | |];
        rewrite Hresp; cbn [fst]; exact Hgoal.
    + destruct (attempt 1%nat) eqn:E1;
        [exfalso; apply H1; [lia | exact I] | |];
        (destruct (attempt 2%nat) eqn:E2;
           [exfalso; apply H2; [lia | exact I] | |]);
        rewrite Hresp; cbn [fst]; exact Hgoal.
  - intros Hnone.
    assert (H1 : ~ responds (attempt 1%nat)) by (apply Hnone; lia).
    assert (H2 : ~ responds (attempt 2%nat)) by (apply Hnone; lia).
    split; intros message H3;
      (destruct (attempt 1%nat) eqn:E1; [exfalso; apply H1; exact I | |]);
      (destruct (attempt 2%nat) eqn:E2; [exfalso; apply H2; exact I | |]);
      rewrite H3; cbn [fst]; reflexivity.
Qed.

(** A rate-limited first attempt, then a response with one row; and a
    response whose only row is stamped one millisecond past the last
    valid date. *)
Lemma X20_bitcoin_history_route_witness :
  bitcoinHistoryGET (fun _ => "2024-01-01T00:00:00.000Z"%string)
    "Invalid time value" (Some "7D"%string)
    (fun _ attempt =>
       match attempt with
       | 1%nat => RateLimited "Request failed with status code 429"
       | _ => Responds {| CoinGeckoMarketData.prices := [(1704067200000%Z, 42000)];
                          CoinGeckoMarketData.market_caps := [];
                          CoinGeckoMarketData.total_volumes := [] |}
       end)
  = {| Response.status := 200;
       Response.body :=
         HistoryData
           [ {| PricePoint.timestamp := 1704067200000;
                PricePoint.date := "2024-01-01T00:00:00.000Z";
                PricePoint.price := 42000 |} ]
           "7D" 1 |}
  /\ bitcoinHistoryGET (fun _ => "2024-01-01T00:00:00.000Z"%string)
       "Invalid time value" (Some "7D"%string)
       (fun _ _ =>
          Responds {| CoinGeckoMarketData.prices :=
                        [(8640000000000001%Z, 42000)];
                      CoinGeckoMarketData.market_caps := [];
                      CoinGeckoMarketData.total_volumes := [] |})
     = {| Response.status := 500;
          Response.body :=
            HistoryError
              "Failed to fetch Bitcoin historical data: Invalid time value" |}.
Proof.
  split.
  - apply (proj1 (proj1 (X20_bitcoin_history_route
                    (fun _ => "2024-01-01T00:00:00.000Z"%string)
                    "Invalid time value"
                    (Some "7D"%string)
                    (fun _ attempt =>
                       match attempt with
                       | 1%nat => RateLimited "Request failed with status code 429"
                       | _ => Responds
                                {| CoinGeckoMarketData.prices :=
                                     [(1704067200000%Z, 42000)];
                                   CoinGeckoMarketData.market_caps := [];
                                   CoinGeckoMarketData.total_volumes := [] |}
                       end))
                 2%nat
                 {| CoinGeckoMarketData.prices := [(1704067200000%Z, 42000)];
                    CoinGeckoMarketData.market_caps := [];
                    CoinGeckoMarketData.total_volumes := [] |}
                 ltac:(lia) eq_refl
                 ltac:(intros j Hj; assert (j = 1%nat) as -> by lia;
                       exact (fun H => H)))).
    repeat constructor. cbn. unfold maxTimeValue. lia.
  - apply (proj2 (proj1 (X20_bitcoin_history_route
                    (fun _ => "2024-01-01T00:00:00.000Z"%string)
                    "Invalid time value"
                    (Some "7D"%string)
                    (fun _ _ =>
                       Responds
                         {| CoinGeckoMarketData.prices :=
                              [(8640000000000001%Z, 42000)];
                            CoinGeckoMarketData.market_caps := [];
                            CoinGeckoMarketData.total_volumes := [] |}))
                 1%nat
                 {| CoinGeckoMarketData.prices :=
                      [(8640000000000001%Z, 42000)];
                    CoinGeckoMarketData.market_caps := [];
                    CoinGeckoMarketData.total_volumes := [] |}
                 ltac:(lia) eq_refl
                 ltac:(intros j Hj; lia))).
    constructor. cbn. unfold maxTimeValue. lia.
Defined.

(** ** The index-history handler: the liquidity map and the response *)

Section StrMapFacts.

Lemma strMapGet_strMapSet (k k' : string) (v : R) (m : StrMap) :
  strMapGet k' (strMapSet k v m)
  = if String.eqb k k' then Some v else strMapGet k' m.
Proof.
  induction m as [|[k0 v0] m IH]; cbn [strMapSet strMapGet].
  - reflexivity.
  - destruct (String.eqb k0 k) eqn:H0; cbn [strMapGet].
    + apply String.eqb_eq in H0. subst k0.
      destruct (String.eqb k k'); reflexivity.
    + destruct (String.eqb k0 k') eqn:H1.
      * apply String.eqb_eq in H1. subst k0.
        rewrite String.eqb_sym in H0. rewrite H0. reflexivity.
      * exact IH.
Qed.

Lemma strMapSet_keys_in (k k' : string) (v : R) (m : StrMap) :
  In k' (map fst (strMapSet k v m)) <-> k' = k \/ In k' (map fst m).
Proof.
  induction m as [|[k0 v0] m IH]; cbn [strMapSet map fst In].
  - split; intros [H|[]]; left; congruence.
  - destruct (String.eqb k0 k) eqn:H0; cbn [map fst In].
    + apply String.eqb_eq in H0. subst k0. intuition congruence.
    + rewrite IH. tauto.
Qed.

Lemma strMapSet_keys_nodup (k : string) (v : R) (m : StrMap) :
  NoDup (map fst m) -> NoDup (map fst (strMapSet k v m)).
Proof.
  induction m as [|[k0 v0] m IH]; cbn [strMapSet map fst]; intros Hnd.
  - constructor; [intros [] | constructor].
  - apply NoDup_cons_iff in Hnd as [Hnotin Hnd].
    destruct (String.eqb k0 k) eqn:H0; cbn [map fst].
    + apply String.eqb_eq in H0. subst k0. constructor; assumption.
    + apply String.eqb_neq in H0. constructor; [|apply IH; exact Hnd].
      rewrite strMapSet_keys_in. intros [H|H]; [congruence | contradiction].
Qed.

Lemma strMapSet_length (k : string) (v : R) (m : StrMap) :
  (length m <= length (strMapSet k v m) <= S (length m))%nat.
Proof.
  induction m as [|[k0 v0] m IH]; cbn [strMapSet length]; [lia|].
  destruct (String.eqb k0 k); cbn [length]; lia.
Qed.

(** With distinct keys, membership is lookup. *)
Lemma strMap_in_get (m : StrMap) (k : string) (v : R) :
  NoDup (map fst m) -> (In (k, v) m <-> strMapGet k m = Some v).
Proof.
  induction m as [|[k0 v0] m IH]; cbn [map fst strMapGet In]; intros Hnd.
  - split; [intros [] | discriminate].
  - apply NoDup_cons_iff in Hnd as [Hnotin Hnd].
    destruct (String.eqb k0 k) eqn:H0.
    + apply String.eqb_eq in H0. subst k0. split.
      * intros [[= ->]|Hin]; [reflexivity|].
        exfalso. apply Hnotin. apply (in_map fst) in Hin. exact Hin.
      * intros [= ->]. left. reflexivity.
    + apply String.eqb_neq in H0. rewrite <- (IH Hnd). split.
      * intros [[= -> _]|Hin]; [congruence | exact Hin].
      * intros Hin. right. exact Hin.
Qed.

Variables tgaData rrpData : list FREDData.t.

Let store (liquidityMap : StrMap) (fed : FREDData.t) : StrMap :=
  strMapSet fed.(FREDData.date)
    (fed.(FREDData.value) - findValue tgaData fed.(FREDData.date)
     - findValue rrpData fed.(FREDData.date)) liquidityMap.

Lemma liquidityMapOf_fold (fedData : list FREDData.t) :
  liquidityMapOf fedData tgaData rrpData = fold_left store fedData [].
Proof. reflexivity. Qed.

Lemma liquidityMapOf_get (fedData : list FREDData.t) (d : string) :
  strMapGet d (liquidityMapOf fedData tgaData rrpData)
  = option_map
      (fun x => x.(FREDData.value) - findValue tgaData d - findValue rrpData d)
      (lastDated d fedData).
Proof.
  rewrite liquidityMapOf_fold. unfold lastDated.
  induction fedData as [|fed fedData IH] using rev_ind.
  - reflexivity.
  - rewrite fold_left_app, rev_app_distr. cbn [fold_left rev app find].
    unfold store at 1. rewrite strMapGet_strMapSet.
    destruct (String.eqb (FREDData.date fed) d) eqn:Hd.
    + apply String.eqb_eq in Hd. rewrite Hd. reflexivity.
    + exact IH.
Qed.

Lemma liquidityMapOf_keys_nodup (fedData : list FREDData.t) :
  NoDup (map fst (liquidityMapOf fedData tgaData rrpData)).
Proof.
  rewrite liquidityMapOf_fold.
  induction fedData as [|fed fedData IH] using rev_ind.
  - constructor.
  - rewrite fold_left_app. cbn [fold_left]. unfold store at 1.
    apply strMapSet_keys_nodup. exact IH.
Qed.

Lemma liquidityMapOf_keys (fedData : list FREDData.t) (d : string) :
  In d (map fst (liquidityMapOf fedData tgaData rrpData))
  <-> In d (map FREDData.date fedData).
Proof.
  rewrite liquidityMapOf_fold.
  induction fedData as [|fed fedData IH] using rev_ind.
  - reflexivity.
  - rewrite fold_left_app, map_app, in_app_iff. cbn [fold_left map In].
    unfold store at 1. rewrite strMapSet_keys_in, IH. intuition congruence.
Qed.

Lemma liquidityMapOf_length (fedData : list FREDData.t) :
  (length (liquidityMapOf fedData tgaData rrpData) <= length fedData)%nat.
Proof.
  rewrite liquidityMapOf_fold.
  induction fedData as [|fed fedData IH] using rev_ind.
  - cbn. lia.
  - rewrite fold_left_app, length_app. cbn [fold_left length].
    unfold store at 1.
    pose proof (strMapSet_length fed.(FREDData.date)
                  (fed.(FREDData.value)
                   - findValue tgaData fed.(FREDData.date)
                   - findValue rrpData fed.(FREDData.date))
                  (fold_left store fedData [])). lia.
Qed.

Lemma liquidityMapOf_nil (fedData : list FREDData.t) :
  liquidityMapOf fedData tgaData rrpData = [] <-> fedData = [].
Proof.
  split; [|intros ->; reflexivity].
  intros Hnil. destruct fedData as [|fed rest]; [reflexivity|]. exfalso.
  assert (Hin : In fed.(FREDData.date)
                   (map fst (liquidityMapOf (fed :: rest) tgaData rrpData)))
    by (apply liquidityMapOf_keys; left; reflexivity).
  rewrite Hnil in Hin. destruct Hin.
Qed.

End StrMapFacts.

(** X21.  The liquidity map of the index-history handler holds each
    balance-sheet date once; the value at a date is the value of the last
    balance-sheet observation with that date, minus the TGA and the RRP
    values found for that date (0 when the series has none).  It has at
    most as many entries as there are balance-sheet observations and is
    empty only when there are none. *)
Theorem X21_liquidity_map :
  forall (fedData tgaData rrpData : list FREDData.t),
    let liquidityMap := liquidityMapOf fedData tgaData rrpData in
    NoDup (map fst liquidityMap)
    /\ (forall d, In d (map fst liquidityMap)
                  <-> In d (map FREDData.date fedData))
    /\ (forall d v,
          In (d, v) liquidityMap
          <-> exists fed,
                lastDated d fedData = Some fed
                /\ v = fed.(FREDData.value) - findValue tgaData d
                       - findValue rrpData d)
    /\ (length liquidityMap <= length fedData)%nat
    /\ (liquidityMap = [] <-> fedData = []).
Proof.
  intros fedData tgaData rrpData liquidityMap. subst liquidityMap.
  split; [apply liquidityMapOf_keys_nodup|].
  split; [apply liquidityMapOf_keys|].
  split; [|split; [apply liquidityMapOf_length | apply liquidityMapOf_nil]].
  intros d v.
  rewrite (strMap_in_get _ d v (liquidityMapOf_keys_nodup tgaData rrpData fedData)).
  rewrite liquidityMapOf_get.
  destruct (lastDated d fedData) as [fed|]; cbn [option_map].
  - split.
    + intros [= <-]. exists fed. split; reflexivity.
    + intros (fed' & [= <-] & ->). reflexivity.
  - split; [discriminate | intros (fed' & H & _); discriminate].
Qed.

Section RouteFacts.

Variable localeCompare : string -> string -> Z.

Lemma insertEntry_perm (a : Entry) (l : list Entry) :
  Permutation (a :: l) (insertEntry localeCompare a l).
Proof.
  induction l as [|b l IH]; cbn [insertEntry].
  - apply Permutation_refl.
  - destruct (_ <=? _)%Z; [apply Permutation_refl|].
    eapply perm_trans; [apply perm_swap|]. apply perm_skip. exact IH.
Qed.

Lemma sortEntries_perm (l : list Entry) :
  Permutation l (sortEntries localeCompare l).
Proof.
  induction l as [|a l IH]; cbn [sortEntries fold_right].
  - apply Permutation_refl.
  - eapply perm_trans; [apply perm_skip; exact IH|].
    apply insertEntry_perm.
Qed.

End RouteFacts.

(** X22.  The index-history handler reports "Insufficient liquidity data"
    (with no points and a count of 0) exactly when there is no
    balance-sheet observation.  Otherwise it reports no error, the count
    is the number of points returned, and there are at most as many
    points as price points (none when the price history is empty). *)
Theorem X22_index_history_response :
  forall (localeCompare : string -> string -> Z) (now : Z) (timespan : string)
         (fedData tgaData rrpData : list FREDData.t)
         (btcPriceHistory : list PricePoint.t) (pmiHistory : list FREDData.t),
    let response := indexHistoryGET localeCompare now timespan fedData tgaData
                      rrpData btcPriceHistory pmiHistory in
    (fedData = [] ->
     response = {| IndexHistoryResponse.data := [];
                   IndexHistoryResponse.timespan := timespan;
                   IndexHistoryResponse.count := 0;
                   IndexHistoryResponse.error :=
                     Some "Insufficient liquidity data"%string |})
    /\ (fedData <> [] ->
        response.(IndexHistoryResponse.error) = None
        /\ response.(IndexHistoryResponse.count)
           = length response.(IndexHistoryResponse.data)
        /\ (length response.(IndexHistoryResponse.data)
            <= length btcPriceHistory)%nat).
Proof.
  intros. subst response. unfold indexHistoryGET. cbv zeta.
  rewrite length_map. split.
  - intros ->. reflexivity.
  - intros Hne.
    destruct (liquidityMapOf fedData tgaData rrpData) as [|e m] eqn:Hmap.
    { apply liquidityMapOf_nil in Hmap. contradiction. }
    cbn [length Nat.eqb IndexHistoryResponse.error IndexHistoryResponse.count
         IndexHistoryResponse.data].
    split; [reflexivity|]. split; [reflexivity|].
    unfold indexHistoryOf.
    match goal with
    | |- context [flat_map ?g btcPriceHistory] => set (f := g)
    end.
    assert (Hf : forall btcPoint, (length (f btcPoint) <= 1)%nat).
    { intros btcPoint. unfold f.
      destruct (historyStep _ _ _ _ _ _ _ _ _ btcPoint); cbn; lia. }
    clearbody f.
    induction btcPriceHistory as [|btcPoint rest IHlen];
      cbn [flat_map length].
    + lia.
    + pose proof (Hf btcPoint) as Hlen. rewrite length_app. lia.
Qed.

(** No balance-sheet observation at all; and one observation with two
    price points. *)
Lemma X22_index_history_response_witness :
  indexHistoryGET codeUnitCompare 0 "1Y" [] [] [] [] []
  = {| IndexHistoryResponse.data := [];
       IndexHistoryResponse.timespan := "1Y";
       IndexHistoryResponse.count := 0;
       IndexHistoryResponse.error :=
         Some "Insufficient liquidity data"%string |}
  /\ let response :=
       indexHistoryGET codeUnitCompare 0 "1Y"
         [ {| FREDData.date := "2024-01-01"; FREDData.value := 7000 |} ] [] []
         [ {| PricePoint.timestamp := 1704067200000;
              PricePoint.date := "2024-01-01";
              PricePoint.price := 42000 |};
           {| PricePoint.timestamp := 1704153600000;
              PricePoint.date := "2024-01-02";
              PricePoint.price := 43000 |} ] [] in
     response.(IndexHistoryResponse.error) = None
     /\ response.(IndexHistoryResponse.count)
        = length response.(IndexHistoryResponse.data)
     /\ (length response.(IndexHistoryResponse.data) <= 2)%nat.
Proof.
  split.
  - apply (proj1 (X22_index_history_response codeUnitCompare 0 "1Y"
                    [] [] [] [] [])).
    reflexivity.
  - apply (proj2 (X22_index_history_response codeUnitCompare 0 "1Y"
                    [ {| FREDData.date := "2024-01-01";
                         FREDData.value := 7000 |} ] [] []
                    [ {| PricePoint.timestamp := 1704067200000;
                         PricePoint.date := "2024-01-01";
                         PricePoint.price := 42000 |};
                      {| PricePoint.timestamp := 1704153600000;
                         PricePoint.date := "2024-01-02";
                         PricePoint.price := 43000 |} ] [])).
    discriminate.
Defined.

(** ** The liquidity lookup of the whole handler *)

Section StringOrder.

Lemma compare_not_gt_trans (a b c : string) :
  String.compare a b <> Gt -> String.compare b c <> Gt ->
  String.compare a c <> Gt.
Proof.
  revert b c. induction a as [|x a IH]; intros [|y b] [|z c];
    cbn [String.compare]; try congruence.
  unfold Ascii.compare.
  destruct (N.compare_spec (N_of_ascii x) (N_of_ascii y)) as [Hxy|Hxy|Hxy];
    destruct (N.compare_spec (N_of_ascii y) (N_of_ascii z)) as [Hyz|Hyz|Hyz];
    destruct (N.compare_spec (N_of_ascii x) (N_of_ascii z)) as [Hxz|Hxz|Hxz];
    try congruence; try lia.
  apply IH.
Qed.

Lemma str_le_trans (a b c : string) :
  JS.str_le a b = true -> JS.str_le b c = true -> JS.str_le a c = true.
Proof.
  unfold JS.str_le, String.leb. intros Hab Hbc.
  pose proof (compare_not_gt_trans a b c) as H.
  destruct (String.compare a b), (String.compare b c), (String.compare a c);
    try reflexivity; try discriminate; exfalso; apply H; congruence.
Qed.

Lemma str_le_total (a b : string) :
  JS.str_le a b = true \/ JS.str_le b a = true.
Proof. apply String.leb_total. Qed.

Lemma codeUnitCompare_agrees (a b : string) :
  (codeUnitCompare a b <= 0)%Z <-> JS.str_le a b = true.
Proof.
  unfold codeUnitCompare, JS.str_le, String.leb.
  destruct (String.compare a b); split; intros H;
    try reflexivity; try discriminate; lia.
Qed.

Variable localeCompare : string -> string -> Z.

Hypothesis localeCompare_agrees :
  forall a b, (localeCompare a b <= 0)%Z <-> JS.str_le a b = true.

Let byDate (a b : Entry) : Prop := JS.str_le (fst a) (fst b) = true.

Lemma insertEntry_sorted (a : Entry) (l : list Entry) :
  Sorted byDate l -> Sorted byDate (insertEntry localeCompare a l).
Proof.
  induction l as [|b l IH]; cbn [insertEntry]; intros Hs.
  - repeat constructor.
  - destruct (localeCompare (fst a) (fst b) <=? 0)%Z eqn:Hle.
    + apply Z.leb_le, localeCompare_agrees in Hle.
      constructor; [exact Hs|]. constructor. exact Hle.
    + assert (Hba : byDate b a).
      { destruct (str_le_total (fst a) (fst b)) as [H|H]; [|exact H].
        apply localeCompare_agrees, Z.leb_le in H. congruence. }
      apply Sorted_inv in Hs as [Hs Hhd].
      constructor; [apply IH; exact Hs|].
      destruct l as [|c l]; cbn [insertEntry].
      * constructor. exact Hba.
      * destruct (localeCompare (fst a) (fst c) <=? 0)%Z;
          constructor; [exact Hba|].
        apply HdRel_inv in Hhd. exact Hhd.
Qed.

Lemma sortEntries_sorted (l : list Entry) :
  StronglySorted byDate (sortEntries localeCompare l).
Proof.
  apply Sorted_StronglySorted.
  - intros a b c. apply str_le_trans.
  - induction l as [|a l IH]; cbn [sortEntries fold_right].
    + constructor.
    + apply insertEntry_sorted. exact IH.
Qed.

End StringOrder.

(** X23.  When [localeCompare] orders the dates as the [<=] of the lookup
    does, the liquidity used for a date is that of the most recent
    balance-sheet date at or before it: the lookup through the sorted
    entries of the liquidity map returns the last balance-sheet
    observation of that date, less the TGA and RRP found for the same
    date; when every balance-sheet date is later it returns no date. *)
Theorem X23_history_liquidity_lookup :
  forall (localeCompare : string -> string -> Z)
         (fedData tgaData rrpData : list FREDData.t) (dateStr : string),
    (forall a b, (localeCompare a b <= 0)%Z <-> JS.str_le a b = true) ->
    let liquidityEntries :=
      sortEntries localeCompare (liquidityMapOf fedData tgaData rrpData) in
    (exists fed,
       In fed fedData
       /\ lastDated fed.(FREDData.date) fedData = Some fed
       /\ JS.str_le fed.(FREDData.date) dateStr = true
       /\ (forall fed', In fed' fedData ->
             JS.str_le fed'.(FREDData.date) dateStr = true ->
             JS.str_le fed'.(FREDData.date) fed.(FREDData.date) = true)
       /\ liquidityLoop liquidityEntries dateStr (length liquidityEntries)
          = (fed.(FREDData.value)
             - findValue tgaData fed.(FREDData.date)
             - findValue rrpData fed.(FREDData.date),
             fed.(FREDData.date)))
    \/ ((forall fed', In fed' fedData ->
           JS.str_le fed'.(FREDData.date) dateStr = false)
        /\ liquidityLoop liquidityEntries dateStr (length liquidityEntries)
           = (0, EmptyString)).
Proof.
  intros localeCompare fedData tgaData rrpData dateStr Hagree liquidityEntries.
  pose proof (sortEntries_perm localeCompare
                (liquidityMapOf fedData tgaData rrpData)) as Hperm.
  fold liquidityEntries in Hperm.
  pose proof (sortEntries_sorted localeCompare Hagree
                (liquidityMapOf fedData tgaData rrpData)) as Hsorted.
  fold liquidityEntries in Hsorted.
  assert (Hkey : forall fed', In fed' fedData ->
            exists v, In (fed'.(FREDData.date), v) liquidityEntries).
  { intros fed' Hin.
    assert (Hd : In fed'.(FREDData.date)
                    (map fst (liquidityMapOf fedData tgaData rrpData)))
      by (apply liquidityMapOf_keys; apply in_map; exact Hin).
    apply in_map_iff in Hd as ([d v] & Hfst & Hd). cbn [fst] in Hfst.
    subst d. exists v. apply (Permutation_in _ Hperm). exact Hd. }
  destruct (forward_fill_most_recent liquidityEntries dateStr Hsorted)
    as [(e & Hin & Hle & Hmax & Hloop & _)|(Hall & Hloop & _)].
  - left. destruct e as [d v]. cbn [fst snd] in *.
    apply (Permutation_in _ (Permutation_sym Hperm)) in Hin.
    apply (strMap_in_get _ d v
             (liquidityMapOf_keys_nodup tgaData rrpData fedData)) in Hin.
    rewrite liquidityMapOf_get in Hin.
    destruct (lastDated d fedData) as [fed|] eqn:Hlast; [|discriminate].
    cbn [option_map] in Hin. injection Hin as <-.
    pose proof Hlast as Hfind. unfold lastDated in Hfind.
    apply find_some in Hfind as [Hfed Hdate].
    apply in_rev in Hfed. apply String.eqb_eq in Hdate. subst d.
    exists fed. split; [exact Hfed|]. split; [exact Hlast|].
    split; [exact Hle|]. split; [|exact Hloop].
    intros fed' Hin' Hle'. destruct (Hkey fed' Hin') as [v' Hv'].
    apply (Hmax _ Hv' Hle').
  - right. split; [|exact Hloop].
    intros fed' Hin'. destruct (Hkey fed' Hin') as [v' Hv'].
    apply (Hall _ Hv').
Qed.

Lemma X23_history_liquidity_lookup_witness :
  liquidityLoop
    (sortEntries codeUnitCompare
       (liquidityMapOf
          [ {| FREDData.date := "2024-01-03"; FREDData.value := 7000 |} ]
          [] []))
    "2024-01-15" 1
  = (7000 - 0 - 0, "2024-01-03"%string).
Proof.
  destruct (X23_history_liquidity_lookup codeUnitCompare
              [ {| FREDData.date := "2024-01-03"; FREDData.value := 7000 |} ]
              [] [] "2024-01-15"%string codeUnitCompare_agrees)
    as [(fed & [<-|[]] & _ & _ & _ & Hloop)|[Hall _]].
  - exact Hloop.
  - specialize (Hall _ (or_introl eq_refl)). discriminate Hall.
Defined.

(** ** The plotted points *)

Section FormatFacts.

Lemma filter_all {A} (f : A -> bool) (l : list A) :
  (forall x, In x l -> f x = true) -> filter f l = l.
Proof.
  induction l as [|x l IH]; intros Hall; cbn [filter]; [reflexivity|].
  rewrite (Hall x (or_introl eq_refl)), IH; [reflexivity|].
  intros y Hy. apply Hall. right. exact Hy.
Qed.

Lemma chartData_indexed (indexData : option (list ChartDataPoint.t))
    (btcData : list PricePoint.t) (data : list ChartDataPoint.t) :
  chartDataOf indexData btcData = Some data ->
  forall point, In point data -> exists i, point.(ChartDataPoint.index) = Some i.
Proof.
  unfold chartDataOf. cbv zeta. intros Hdata point Hin.
  destruct (0 <? length _)%nat; [|discriminate]. injection Hdata as <-.
  apply (Permutation_in _ (Permutation_sym (sortByTimestamp_perm _))) in Hin.
  unfold mergedDataOf in Hin. cbv zeta in Hin.
  apply in_flat_map in Hin as (btcPoint & _ & Hpoint).
  destruct (mergePoint _ btcPoint) as [q|] eqn:Hq; [|destruct Hpoint].
  destruct Hpoint as [<-|[]].
  destruct (mergePoint_shape _ _ _ Hq) as [v ->]. exists v. reflexivity.
Qed.

End FormatFacts.

(** X24.  The plotted points are the chart points with a positive price,
    each with its date label, in the same order: on chart data that comes
    from the merge every point carries a number, so the final filter on
    the index removes nothing. *)
Theorem X24_chart_data_formatted :
  forall (formatDate : Z -> string)
         (indexData : option (list ChartDataPoint.t))
         (btcData : list PricePoint.t) (data : list ChartDataPoint.t),
    chartDataOf indexData btcData = Some data ->
    chartDataFormatted formatDate data
    = map (withDateLabel formatDate)
          (filter (fun point =>
                     if Rle_dec point.(ChartDataPoint.price) 0
                     then false else true) data)
    /\ Forall (fun point =>
                 0 < point.(FormattedPoint.price)
                 /\ (exists i, point.(FormattedPoint.index) = Some i)
                 /\ point.(FormattedPoint.dateLabel)
                    = formatDate point.(FormattedPoint.timestamp))
              (chartDataFormatted formatDate data)
    /\ (length (chartDataFormatted formatDate data) <= length data)%nat.
Proof.
  intros formatDate indexData btcData data Hdata.
  pose proof (chartData_indexed indexData btcData data Hdata) as Hidx.
  assert (Heq : chartDataFormatted formatDate data
                = map (withDateLabel formatDate)
                      (filter (fun point =>
                                 if Rle_dec point.(ChartDataPoint.price) 0
                                 then false else true) data)).
  { unfold chartDataFormatted. apply filter_all.
    intros fp Hfp. apply in_map_iff in Hfp as (point & <- & Hpoint).
    apply filter_In in Hpoint as [Hpoint _].
    destruct (Hidx point Hpoint) as [i Hi].
    cbn [withDateLabel FormattedPoint.index]. rewrite Hi. reflexivity. }
  split; [exact Heq|]. rewrite Heq. split.
  - apply Forall_forall. intros fp Hfp.
    apply in_map_iff in Hfp as (point & <- & Hpoint).
    apply filter_In in Hpoint as [Hpoint Hprice].
    destruct (Hidx point Hpoint) as [i Hi].
    cbn [withDateLabel FormattedPoint.index FormattedPoint.price
         FormattedPoint.dateLabel FormattedPoint.timestamp].
    split; [|split; [exists i; rewrite Hi; reflexivity | reflexivity]].
    destruct (Rle_dec (ChartDataPoint.price point) 0); [discriminate | lra].
  - rewrite length_map. apply filter_length_le.
Qed.

Lemma X24_chart_data_formatted_witness :
  Nat.le
    (length (chartDataFormatted (fun _ => "Jan 2024"%string)
               [ {| ChartDataPoint.timestamp := 1704157200000;
                    ChartDataPoint.date := "2024-01-02";
                    ChartDataPoint.price := 43000;
                    ChartDataPoint.index := Some 50 |} ]))
    1.
Proof.
  apply (proj2 (proj2
           (X24_chart_data_formatted (fun _ => "Jan 2024"%string) (Some [])
              [ {| PricePoint.timestamp := 1704157200000;
                   PricePoint.date := "2024-01-02";
                   PricePoint.price := 43000 |} ]
              [ {| ChartDataPoint.timestamp := 1704157200000;
                   ChartDataPoint.date := "2024-01-02";
                   ChartDataPoint.price := 43000;
                   ChartDataPoint.index := Some 50 |} ]
              eq_refl))).
Defined.

(** ** The PMI readings *)

Section PMIFacts.

Lemma lastElement_snoc {A} (l : list A) (x : A) :
  lastElement (l ++ [x]) = Some x.
Proof.
  unfold lastElement. rewrite length_app. cbn [length].
  replace (length l + 1 - 1)%nat with (length l) by lia.
  rewrite nth_error_app2 by lia. rewrite Nat.sub_diag. reflexivity.
Qed.

Lemma nth_before_last {A} (l : list A) (x y d : A) :
  nth (length (l ++ [x; y]) - 2) (l ++ [x; y]) d = x.
Proof.
  rewrite length_app. cbn [length].
  replace (length l + 2 - 2)%nat with (length l) by lia.
  rewrite app_nth2 by lia. rewrite Nat.sub_diag. reflexivity.
Qed.

End PMIFacts.

(** X25.  The PMI route never fails on its input.  Without a usable
    observation (the request failed, or every value is ".") it answers
    with the placeholder: value 50, change 0, source "placeholder".
    Otherwise the value and the date are those of the last usable
    observation in the order received, the source is "FRED_NAPM", and the
    change is the difference to the usable observation just before it, or
    0 when there is only one. *)
Theorem X25_pmi_route :
  forall (parseFloat : string -> R) (today : string)
         (response : option (list FREDObservation.t)),
    let valid :=
      match response with
      | Some raw => validObservations raw
      | None => []
      end in
    let r := pmiRouteGET parseFloat today response in
    (valid = [] -> r = pmiPlaceholder today)
    /\ (forall latest,
          valid = [latest] ->
          r.(PMIResponse.value) = parseFloat latest.(FREDObservation.value)
          /\ r.(PMIResponse.date) = latest.(FREDObservation.date)
          /\ r.(PMIResponse.change) = 0
          /\ r.(PMIResponse.source) = "FRED_NAPM"%string)
    /\ (forall older previous latest,
          valid = older ++ [previous; latest] ->
          r.(PMIResponse.value) = parseFloat latest.(FREDObservation.value)
          /\ r.(PMIResponse.date) = latest.(FREDObservation.date)
          /\ r.(PMIResponse.change)
             = parseFloat latest.(FREDObservation.value)
               - parseFloat previous.(FREDObservation.value)
          /\ r.(PMIResponse.source) = "FRED_NAPM"%string).
Proof.
  intros parseFloat today response valid r. subst r valid.
  unfold pmiRouteGET. destruct response as [raw|].
  - cbv zeta. unfold parseObservations.
    split; [|split].
    + intros ->. reflexivity.
    + intros latest ->. cbn. repeat split. apply Rminus_diag.
    + intros older previous latest ->.
      set (f := fun obs : FREDObservation.t => _).
      rewrite map_app. cbn [map].
      assert (Hlen : (0 <? length (map f older ++ [f previous; f latest]))%nat
                     = true)
        by (apply Nat.ltb_lt; rewrite length_app; cbn; lia).
      assert (Hlen1 : (1 <? length (map f older ++ [f previous; f latest]))%nat
                      = true)
        by (apply Nat.ltb_lt; rewrite length_app; cbn; lia).
      assert (Hlast : lastElement (map f older ++ [f previous; f latest])
                      = Some (f latest)).
      { replace (map f older ++ [f previous; f latest])
          with ((map f older ++ [f previous]) ++ [f latest])
          by (rewrite <- app_assoc; reflexivity).
        apply lastElement_snoc. }
      rewrite Hlen, Hlast, Hlen1, nth_before_last.
      repeat split.
  - split; [reflexivity|].
    split; [intros latest H; discriminate|].
    intros older previous latest H. destruct older; discriminate.
Qed.

Lemma X25_pmi_route_witness :
  pmiRouteGET (fun _ => 0) "2024-01-15"
    (Some [ {| FREDObservation.date := "2024-01-01";
               FREDObservation.value := "." |} ])
  = pmiPlaceholder "2024-01-15".
Proof.
  apply (proj1 (X25_pmi_route (fun _ => 0) "2024-01-15"%string
                  (Some [ {| FREDObservation.date := "2024-01-01";
                             FREDObservation.value := "." |} ]))).
  reflexivity.
Defined.

(** X26.  The dashboard's [fetchPMI] takes the value from the last usable
    observation but the date from the last observation received, usable
    or not: the two belong to the same observation exactly when the last
    observation received is usable.  Without a usable observation it
    returns value 50 with today's date. *)
Theorem X26_fetchPMI :
  forall (parseFloat : string -> R) (today : string)
         (rawOlder : list FREDObservation.t) (lastRaw : FREDObservation.t),
    let raw := rawOlder ++ [lastRaw] in
    let r := fetchPMI parseFloat today (Some raw) in
    (validObservations raw = [] ->
     r.(ISMPMIData.value) = 50 /\ r.(ISMPMIData.date) = today)
    /\ (forall older latest,
          validObservations raw = older ++ [latest] ->
          r.(ISMPMIData.value) = parseFloat latest.(FREDObservation.value)
          /\ r.(ISMPMIData.date) = lastRaw.(FREDObservation.date)
          /\ (lastRaw.(FREDObservation.value) <> "."%string ->
              latest = lastRaw)
          /\ (lastRaw.(FREDObservation.value) = "."%string ->
              In latest rawOlder)).
Proof.
  intros parseFloat today rawOlder lastRaw raw r. subst r raw.
  unfold fetchPMI. cbv zeta. split.
  - intros ->. cbn. split; reflexivity.
  - intros older latest Hvalid. rewrite Hvalid, map_app. cbn [map].
    assert (Hlen : (0 <? length (map (fun obs =>
                                        parseFloat obs.(FREDObservation.value))
                                     older
                                 ++ [parseFloat latest.(FREDObservation.value)]))%nat
                   = true)
      by (apply Nat.ltb_lt; rewrite length_app; cbn; lia).
    rewrite Hlen, !lastElement_snoc.
    cbn [ISMPMIData.value ISMPMIData.date].
    split; [reflexivity|]. split; [reflexivity|].
    unfold validObservations in Hvalid. rewrite filter_app in Hvalid.
    cbn [filter] in Hvalid.
    destruct (String.eqb_spec lastRaw.(FREDObservation.value) ".") as [Hdot|Hdot];
      cbn [negb] in Hvalid.
    + split; [intros H; contradiction|]. intros _.
      rewrite app_nil_r in Hvalid.
      assert (Hin : In latest (older ++ [latest]))
        by (apply in_or_app; right; left; reflexivity).
      rewrite <- Hvalid in Hin. apply filter_In in Hin. tauto.
    + split; [|intros H; contradiction]. intros _.
      apply app_inj_tail in Hvalid as [_ H]. symmetry. exact H.
Qed.

Lemma X26_fetchPMI_witness :
  (fetchPMI (fun _ => 49) "2024-03-01"
     (Some ([ {| FREDObservation.date := "2024-01-01";
                 FREDObservation.value := "49.0" |} ]
            ++ [ {| FREDObservation.date := "2024-02-01";
                    FREDObservation.value := "." |} ])))
  .(ISMPMIData.date) = "2024-02-01"%string.
Proof.
  apply (proj2 (X26_fetchPMI (fun _ => 49) "2024-03-01"%string
                  [ {| FREDObservation.date := "2024-01-01";
                       FREDObservation.value := "49.0" |} ]
                  {| FREDObservation.date := "2024-02-01";
                     FREDObservation.value := "." |})
           [] {| FREDObservation.date := "2024-01-01";
                 FREDObservation.value := "49.0" |}).
  reflexivity.
Defined.

(** ** The request parameters *)

(** X27.  Whatever the query string, the number of days is one of 1, 7,
    30, 90, 365 and 5475; the request asks CoinGecko for "max" exactly on
    the timespan "ALL" and for that number of days otherwise, and for
    hourly prices exactly on "1D", "7D", "30D" and "90D". *)
Theorem X27_market_chart_params :
  forall timespan : string,
    let days := getDaysFromTimespan timespan in
    let params := marketChartParams days in
    In days [1; 7; 30; 90; 365; 5475]%Z
    /\ (params.(MarketChartParams.days) = inl "max"%string
        <-> timespan = "ALL"%string)
    /\ (timespan <> "ALL"%string ->
        params.(MarketChartParams.days) = inr days)
    /\ (params.(MarketChartParams.interval) = "hourly"%string
        <-> In timespan ["1D"; "7D"; "30D"; "90D"]%string)
    /\ (params.(MarketChartParams.interval) = "hourly"%string
        \/ params.(MarketChartParams.interval) = "daily"%string).
Proof.
  intros timespan days params. subst params days.
  unfold getDaysFromTimespan, marketChartParams.
  cbn [MarketChartParams.days MarketChartParams.interval].
  destruct (String.eqb_spec timespan "1D") as [->|H1];
    [cbn; intuition (try discriminate; try congruence)|].
  destruct (String.eqb_spec timespan "7D") as [->|H7];
    [cbn; intuition (try discriminate; try congruence)|].
  destruct (String.eqb_spec timespan "30D") as [->|H30];
    [cbn; intuition (try discriminate; try congruence)|].
  destruct (String.eqb_spec timespan "90D") as [->|H90];
    [cbn; intuition (try discriminate; try congruence)|].
  destruct (String.eqb_spec timespan "1Y") as [->|H1Y];
    [cbn; intuition (try discriminate; try congruence)|].
  destruct (String.eqb_spec timespan "ALL") as [->|HALL];
    cbn; intuition (try discriminate; try congruence).
Qed.
